(** * BracketGPT: a shallow embedding of the prediction pipelines

    Two source files are covered:
    - [scripts/bracketgpt_pipeline.py] (module [V2] below), and
    - [data/BracketGPT_Unified_Pipeline.py] (module [Unified] below).

    Numbers.  Python floats are modelled by exact rationals [Q]; a value
    that may be NaN (pandas means of empty groups, unguarded divisions) is
    a [num := option Q] with [None] standing for a non-finite value.  The
    transcendental library calls of the rating engine ([10 ** x] and
    [np.log]) and the real power of the Pythagorean formula are parameters
    of the definitions that use them: every result below holds whatever
    values they return.

    Text.  A [str] is a [string] holding its UTF-8 bytes.  [str.lower]
    and [str.strip] follow the Unicode tables of the interpreter; they are
    parameters of the Step 2 functions that normalise a name, and the
    worked examples, whose text is ASCII, run them with [ascii_lower] and
    [ascii_strip].

    Tables.  A [dict] read only by key is a [gmap]; a [dict] whose order
    of insertion is observable is an association list ([od_alter]);
    data-frame rows are records and frames are lists of rows.

    Effects.  The answer of the network to a request is an input of the
    fetch functions, exceptions travel in the error monad [Unified.Exc],
    and the files written and the lines printed are left out.

    Layout.  Part I holds the embedding and the vocabulary of the
    statements (definitions only), Part II the lemmas and theorems. *)

From Stdlib Require Import ZArith QArith Qround Qminmax Qabs Lqa Lia List Bool Ascii String Sorted.
From stdpp Require Import gmap strings list fin_maps pretty.

Open Scope Z_scope.

(* ===================================================================== *)
(** *                       Part I: the embedding                         *)
(* ===================================================================== *)

(** ** Numeric helpers shared by both pipelines *)

(** [np.clip(x, lo, hi)], that is [minimum(maximum(x, lo), hi)]. *)
Definition clip (x lo hi : Q) : Q := Qmin (Qmax x lo) hi.

(** Python's [round(x, n)]: round half to even on the [n]-th decimal. *)
Definition round_half_even (s : Q) : Z :=
  let f := Qfloor s in
  let r := (s - inject_Z f)%Q in
  match (r ?= 1 # 2)%Q with
  | Lt => f
  | Gt => f + 1
  | Eq => if Z.even f then f else f + 1
  end.

Definition py_round (x : Q) (n : nat) : Q :=
  (inject_Z (round_half_even (x * inject_Z (10 ^ Z.of_nat n))) / inject_Z (10 ^ Z.of_nat n))%Q.

(** [d.get(k, default)] on a dict written as an association list. *)
Fixpoint dict_get {K V : Type} `{EqDecision K} (d : list (K * V)) (k : K) : option V :=
  match d with
  | [] => None
  | (k', v) :: d' => if decide (k' = k) then Some v else dict_get d' k
  end.

(** A [defaultdict] / [dict] with its insertion order: [od_alter f dflt k d]
    is [d[k] = f(d[k])] where a missing key is first created with [dflt]. *)
Fixpoint od_alter {K V : Type} `{EqDecision K}
    (f : V -> V) (dflt : V) (k : K) (d : list (K * V)) : list (K * V) :=
  match d with
  | [] => [(k, f dflt)]
  | (k', v) :: d' =>
      if decide (k' = k) then (k', f v) :: d' else (k', v) :: od_alter f dflt k d'
  end.

(** [d[k] = v]. *)
Definition od_set {K V : Type} `{EqDecision K} (k : K) (v : V) (d : list (K * V)) :
    list (K * V) :=
  od_alter (fun _ => v) v k d.

(** One entry [(a, b): p] of a seed table. *)
Definition seed_pair (a b : Z) (p : Q) : (Z * Z) * Q := ((a, b), p).

(** Possibly non-finite numbers: [None] is NaN (or an infinity). *)
Definition num : Type := option Q.

Definition is_finite (x : num) : Prop := is_Some x.

Definition nlift2 (f : Q -> Q -> Q) (x y : num) : num :=
  match x, y with
  | Some a, Some b => Some (f a b)
  | _, _ => None
  end.

Definition nadd : num -> num -> num := nlift2 Qplus.
Definition nsub : num -> num -> num := nlift2 Qminus.
Definition nmul : num -> num -> num := nlift2 Qmult.

(** Division: a zero divisor gives a non-finite result. *)
Definition ndiv (x y : num) : num :=
  match x, y with
  | Some a, Some b => if Qeq_bool b 0 then None else Some (a / b)%Q
  | _, _ => None
  end.

(** [x > 0]; any comparison with NaN is false. *)
Definition ngt0 (x : num) : bool :=
  match x with
  | Some a => negb (Qle_bool a 0)
  | None => false
  end.

(** [np.where(c, a, b)] on one row. *)
Definition np_where (c : bool) (a b : num) : num := if c then a else b.

(** Sum and mean of a column ([pandas]: the sum of no rows is 0, the mean
    of no rows is NaN). *)
Definition Zsum (l : list Z) : Z := fold_right Z.add 0 l.

Definition col_mean (l : list Z) : num :=
  match l with
  | [] => None
  | _ => Some (inject_Z (Zsum l) / inject_Z (Z.of_nat (length l)))%Q
  end.

(** ** Input tables *)

(** Box-score columns of the detailed results; [WBox c] is the column
    ["W" ++ c] and [LBox c] the column ["L" ++ c]. *)
Inductive BoxCol : Type :=
  FGM | FGA | FGM3 | FGA3 | FTM | FTA | OR | DR | Ast | TO | Stl | Blk | PF.

Record Game : Type := mkGame {
  Season : Z;
  DayNum : Z;
  WTeamID : Z;
  WScore : Z;
  LTeamID : Z;
  LScore : Z;
  WLoc : string;
  WBox : BoxCol -> Z;
  LBox : BoxCol -> Z
}.

(** [df.sort_values('DayNum')], as a stable insertion sort. *)
Fixpoint insert_by_day (g : Game) (l : list Game) : list Game :=
  match l with
  | [] => [g]
  | h :: t => if DayNum g <=? DayNum h then g :: h :: t else h :: insert_by_day g t
  end.

Definition sort_by_day (l : list Game) : list Game :=
  fold_right insert_by_day [] l.

Definition games_of_season (reg : list Game) (season : Z) : list Game :=
  filter (fun g => Season g = season) reg.

(* --------------------------------------------------------------------- *)
(** ** scripts/bracketgpt_pipeline.py *)
(* --------------------------------------------------------------------- *)

Module V2.

(** *** Season features ([build_season_features]) *)

(** [max(x, c)] where [x] may be NaN: Python's [max] returns its first
    argument unless the second is greater, so a NaN [x] stays. *)
Definition nmax (x : num) (c : Q) : num :=
  match x with
  | Some a => Some (if Qlt_le_dec a c then c else a)
  | None => None
  end.

Definition of_Z (z : Z) : num := Some (inject_Z z).

Record Features : Type := mkFeatures {
  win_ratio : num;
  avg_score : num;
  avg_allowed : num;
  avg_margin : num;
  fg_pct : num;
  fg3_pct : num;
  ft_pct : num;
  efg : num;
  opp_efg : num;
  to_rate : num;
  or_pct : num;
  dr_pct : num;
  ast_rate : num;
  ft_rate : num;
  three_rate : num;
  blk_stl : num;
  off_eff : num;
  def_eff : num;
  net_eff : num;
  pyth : num;
  recent_wr : num;
  n_games : Z;
  n_wins : Z
}.

Section SeasonFeatures.
(** [rpow x p] stands for [x ** p] on a non-negative base. *)
Variable rpow : Q -> Q -> Q.

(** [x ** p] on floats: a negative base with a fractional exponent is NaN. *)
Definition fpow (x : num) (p : Q) : num :=
  match x with
  | Some a => if Qle_bool 0 a then Some (rpow a p) else None
  | None => None
  end.

(** The sum of a column over a selection of games. *)
Definition col_sum (col : Game -> Z) (games : list Game) : Z := Zsum (col <$> games).

(** The body of the loop [for tid in all_teams]; [None] is [continue]. *)
Definition team_features (rs : list Game) (tid : Z) : option Features :=
  let wins := filter (fun g => WTeamID g = tid) rs in
  let losses := filter (fun g => LTeamID g = tid) rs in
  let n_wins := Z.of_nat (length wins) in
  let n_losses := Z.of_nat (length losses) in
  let n_games := n_wins + n_losses in
  if n_games =? 0 then None else
  let wsum c := col_sum (fun g => WBox g c) in
  let lsum c := col_sum (fun g => LBox g c) in
  (* Scoring *)
  let pts_for := col_sum WScore wins + col_sum LScore losses in
  let pts_against := col_sum LScore wins + col_sum WScore losses in
  let avg_score := ndiv (of_Z pts_for) (of_Z n_games) in
  let avg_allowed := ndiv (of_Z pts_against) (of_Z n_games) in
  let avg_margin := ndiv (of_Z (pts_for - pts_against)) (of_Z n_games) in
  (* Combined *)
  let tot c := wsum c wins + lsum c losses in
  (* Opponent stats *)
  let opp c := lsum c wins + wsum c losses in
  (* Possessions estimate *)
  let poss := nadd (of_Z (tot FGA - tot OR + tot TO))
                   (nmul (Some 0.44%Q) (of_Z (tot FTA))) in
  let opp_poss := nadd (of_Z (opp FGA - opp OR + opp TO))
                       (nmul (Some 0.44%Q) (of_Z (opp FTA))) in
  (* Advanced metrics *)
  let fg_pct := ndiv (of_Z (tot FGM)) (nmax (of_Z (tot FGA)) 1) in
  let fg3_pct := ndiv (of_Z (tot FGM3)) (nmax (of_Z (tot FGA3)) 1) in
  let ft_pct := ndiv (of_Z (tot FTM)) (nmax (of_Z (tot FTA)) 1) in
  let efg := ndiv (nadd (of_Z (tot FGM)) (nmul (Some 0.5%Q) (of_Z (tot FGM3))))
                  (nmax (of_Z (tot FGA)) 1) in
  let opp_efg := ndiv (nadd (of_Z (opp FGM)) (nmul (Some 0.5%Q) (of_Z (opp FGM3))))
                      (nmax (of_Z (opp FGA)) 1) in
  let to_rate := ndiv (of_Z (tot TO)) (nmax poss 1) in
  let or_pct := ndiv (of_Z (tot OR)) (nmax (of_Z (tot OR + opp DR)) 1) in
  let dr_pct := ndiv (of_Z (tot DR)) (nmax (of_Z (tot DR + opp OR)) 1) in
  let ast_rate := ndiv (of_Z (tot Ast)) (nmax (of_Z (tot FGM)) 1) in
  let ft_rate := ndiv (of_Z (tot FTA)) (nmax (of_Z (tot FGA)) 1) in
  let three_rate := ndiv (of_Z (tot FGA3)) (nmax (of_Z (tot FGA)) 1) in
  let blk_stl := ndiv (of_Z (tot Blk + tot Stl)) (of_Z n_games) in
  (* Points per possession *)
  let off_eff := nmul (ndiv (of_Z pts_for) (nmax poss 1)) (Some 100%Q) in
  let def_eff := nmul (ndiv (of_Z pts_against) (nmax opp_poss 1)) (Some 100%Q) in
  (* Pythagorean win expectation *)
  let pyth_exp := 10.25%Q in
  let pyth := ndiv (fpow avg_score pyth_exp)
                   (nmax (nadd (fpow avg_score pyth_exp) (fpow avg_allowed pyth_exp)) 0.001) in
  (* Win ratio *)
  let win_ratio := ndiv (of_Z n_wins) (nmax (of_Z n_games) 1) in
  (* Last 14 days form *)
  let recent_wr :=
    match rs with
    | [] => Some 0.5%Q
    | g0 :: rs' =>
        let max_day := fold_right Z.max (DayNum g0) (DayNum <$> rs') in
        let recent_w := filter (fun g => max_day - 14 <= DayNum g) wins in
        let recent_l := filter (fun g => max_day - 14 <= DayNum g) losses in
        let recent_games := Z.of_nat (length recent_w) + Z.of_nat (length recent_l) in
        ndiv (of_Z (Z.of_nat (length recent_w))) (nmax (of_Z recent_games) 1)
    end in
  Some {| win_ratio := win_ratio; avg_score := avg_score; avg_allowed := avg_allowed;
          avg_margin := avg_margin; fg_pct := fg_pct; fg3_pct := fg3_pct;
          ft_pct := ft_pct; efg := efg; opp_efg := opp_efg; to_rate := to_rate;
          or_pct := or_pct; dr_pct := dr_pct; ast_rate := ast_rate;
          ft_rate := ft_rate; three_rate := three_rate; blk_stl := blk_stl;
          off_eff := off_eff; def_eff := def_eff; net_eff := nsub off_eff def_eff;
          pyth := pyth; recent_wr := recent_wr; n_games := n_games; n_wins := n_wins |}.

Definition build_season_features (reg : list Game) (season : Z) : gmap Z Features :=
  let rs := games_of_season reg season in
  let all_teams := (WTeamID <$> rs) ++ (LTeamID <$> rs) in
  fold_left (fun features tid =>
               match team_features rs tid with
               | Some f => <[tid := f]> features
               | None => features
               end) all_teams ∅.

End SeasonFeatures.

(** *** Elo ratings ([compute_elo]) *)

Section Elo.
(** [pow10 x] stands for [10 ** x] and [ln x] for [np.log(x)]. *)
Variables (pow10 ln : Q -> Q).

Definition K : Q := 32.
Definition HOME_ADV : Q := 3.

(** Season start: [elo[tid] = elo[tid] * 0.75 + 1500 * 0.25] for every
    [tid in elo]. *)
Definition regress_toward_mean (elo : gmap Z Q) : gmap Z Q :=
  (fun r => r * 0.75 + 1500 * 0.25)%Q <$> elo.

(** [if t not in elo: elo[t] = 1500]. *)
Definition init_team (t : Z) (elo : gmap Z Q) : gmap Z Q :=
  match elo !! t with
  | Some _ => elo
  | None => <[t := 1500%Q]> elo
  end.

(** [elo[t]], read after both teams have been initialised. *)
Definition elo_at (elo : gmap Z Q) (t : Z) : Q := default 1500%Q (elo !! t).

(** The value bound to [update] for game [g]. *)
Definition game_update (elo : gmap Z Q) (g : Game) : Q :=
  let w := WTeamID g in
  let l := LTeamID g in
  let loc := WLoc g in
  let adv := if String.eqb loc "H" then HOME_ADV
             else if String.eqb loc "A" then (- HOME_ADV)%Q else 0%Q in
  let expected_w := (1 / (1 + pow10 ((elo_at elo l - elo_at elo w - adv) / 400)))%Q in
  let margin := WScore g - LScore g in
  let mov_mult := (ln (inject_Z (Z.abs margin + 1))
                   * (2.2 / (0.001 * (elo_at elo w - elo_at elo l) + 2.2)))%Q in
  (K * mov_mult * (1 - expected_w))%Q.

(** One iteration of the loop over a season's games. *)
Definition play_game (elo : gmap Z Q) (g : Game) : gmap Z Q :=
  let w := WTeamID g in
  let l := LTeamID g in
  let elo := init_team w elo in
  let elo := init_team l elo in
  let update := game_update elo g in
  let elo := <[w := (elo_at elo w + update)%Q]> elo in
  let elo := <[l := (elo_at elo l - update)%Q]> elo in
  elo.

(** One iteration of the loop over seasons. *)
Definition play_season (reg : list Game) (elo : gmap Z Q) (season : Z) : gmap Z Q :=
  let elo := regress_toward_mean elo in
  let rs := sort_by_day (games_of_season reg season) in
  fold_left play_game rs elo.

Definition compute_elo (reg : list Game) (through_season : Z) : gmap Z Q :=
  fold_left (play_season reg) (seqZ 2003 (through_season + 1 - 2003)) ∅.

End Elo.

(** *** Seed-implied probability (inside [build_matchup_features]) *)

Definition seed_probs : list ((Z * Z) * Q) :=
  [ seed_pair 1 16 0.993; seed_pair 2 15 0.938; seed_pair 3 14 0.881; seed_pair 4 13 0.810;
    seed_pair 5 12 0.654; seed_pair 6 11 0.548; seed_pair 7 10 0.597; seed_pair 8 9 0.500;
    seed_pair 1 8 0.85; seed_pair 1 9 0.85; seed_pair 2 7 0.64; seed_pair 2 10 0.64;
    seed_pair 3 6 0.58; seed_pair 3 11 0.58; seed_pair 4 5 0.55; seed_pair 4 12 0.55;
    seed_pair 1 4 0.72; seed_pair 1 5 0.72; seed_pair 2 3 0.55; seed_pair 2 6 0.55;
    seed_pair 1 2 0.58; seed_pair 1 3 0.65 ].

(** The value stored under ['seed_implied_prob']. *)
Definition seed_implied_prob (t1_seed t2_seed : Z) : Q :=
  let s1 := t1_seed in
  let s2 := t2_seed in
  let key := (Z.min s1 s2, Z.max s1 s2) in
  let base_prob := default 0.5%Q (dict_get seed_probs key) in
  if s1 <? s2 then base_prob
  else if s2 <? s1 then (1 - base_prob)%Q
  else 0.5%Q.

(** [main] predicts season 2025 and calls [compute_elo(reg, 2025)]. *)
Definition TARGET_SEASON : Z := 2025.

Definition main_elo (pow10 ln : Q -> Q) (reg : list Game) : gmap Z Q :=
  compute_elo pow10 ln reg 2025.

(** The ['elo_diff'] feature [build_training_data] gives the training row
    of a tournament game won by [w] over [l]: T1 is the lower team id. *)
Definition training_elo_diff (elo_ratings : gmap Z Q) (w l : Z) : Q :=
  let '(t1, t2) := if w <? l then (w, l) else (l, w) in
  let t1_elo := default 1500%Q (elo_ratings !! t1) in
  let t2_elo := default 1500%Q (elo_ratings !! t2) in
  (t1_elo - t2_elo)%Q.


(** *** Matchup features ([build_matchup_features]) *)

(** An entry of [kenpom_by_team], as [map_kenpom_to_ids] stores it. *)
Record KenPomRow : Type := mkKenPomRow {
  AdjOE : num;
  AdjDE : num;
  AdjEM : num;
  AdjTempo : num;
  RankAdjEM : num;
  RankAdjOE : num;
  RankAdjDE : num
}.

(** [t_feat.get(key, dflt)]: the callers pass either a record built by
    [build_season_features] or the empty dict [{}], here [None]. *)
Definition feat_get (t_feat : option Features) (key : Features -> num) (dflt : Q) : num :=
  match t_feat with
  | Some f => key f
  | None => Some dflt
  end.

(** The returned dict, in insertion order.  The keys written by
    [features.update] are new, so the update appends them. *)
Definition build_matchup_features (t1_feat t2_feat : option Features)
    (t1_seed t2_seed : Z) (t1_elo t2_elo : Q) (t1_kp t2_kp : option KenPomRow) :
    list (string * num) :=
  let seed_diff := t1_seed - t2_seed in
  let elo_diff := (t1_elo - t2_elo)%Q in
  let seed_implied := seed_implied_prob t1_seed t2_seed in
  let features :=
    [ ("seed_diff", of_Z seed_diff);
      ("elo_diff", Some elo_diff);
      ("seed_implied_prob", Some seed_implied);
      (* T1 stats *)
      ("t1_win_ratio", feat_get t1_feat win_ratio 0.5);
      ("t1_avg_margin", feat_get t1_feat avg_margin 0);
      ("t1_off_eff", feat_get t1_feat off_eff 100);
      ("t1_def_eff", feat_get t1_feat def_eff 100);
      ("t1_net_eff", feat_get t1_feat net_eff 0);
      ("t1_efg", feat_get t1_feat efg 0.45);
      ("t1_opp_efg", feat_get t1_feat opp_efg 0.45);
      ("t1_to_rate", feat_get t1_feat to_rate 0.15);
      ("t1_or_pct", feat_get t1_feat or_pct 0.3);
      ("t1_dr_pct", feat_get t1_feat dr_pct 0.7);
      ("t1_ft_rate", feat_get t1_feat ft_rate 0.3);
      ("t1_three_rate", feat_get t1_feat three_rate 0.35);
      ("t1_blk_stl", feat_get t1_feat blk_stl 5);
      ("t1_pyth", feat_get t1_feat pyth 0.5);
      ("t1_recent_wr", feat_get t1_feat recent_wr 0.5);
      (* T2 stats *)
      ("t2_win_ratio", feat_get t2_feat win_ratio 0.5);
      ("t2_avg_margin", feat_get t2_feat avg_margin 0);
      ("t2_off_eff", feat_get t2_feat off_eff 100);
      ("t2_def_eff", feat_get t2_feat def_eff 100);
      ("t2_net_eff", feat_get t2_feat net_eff 0);
      ("t2_efg", feat_get t2_feat efg 0.45);
      ("t2_opp_efg", feat_get t2_feat opp_efg 0.45);
      ("t2_to_rate", feat_get t2_feat to_rate 0.15);
      ("t2_or_pct", feat_get t2_feat or_pct 0.3);
      ("t2_dr_pct", feat_get t2_feat dr_pct 0.7);
      ("t2_ft_rate", feat_get t2_feat ft_rate 0.3);
      ("t2_three_rate", feat_get t2_feat three_rate 0.35);
      ("t2_blk_stl", feat_get t2_feat blk_stl 5);
      ("t2_pyth", feat_get t2_feat pyth 0.5);
      ("t2_recent_wr", feat_get t2_feat recent_wr 0.5);
      (* Differentials *)
      ("margin_diff", nsub (feat_get t1_feat avg_margin 0) (feat_get t2_feat avg_margin 0));
      ("off_eff_diff", nsub (feat_get t1_feat off_eff 100) (feat_get t2_feat off_eff 100));
      ("def_eff_diff", nsub (feat_get t1_feat def_eff 100) (feat_get t2_feat def_eff 100));
      ("net_eff_diff", nsub (feat_get t1_feat net_eff 0) (feat_get t2_feat net_eff 0));
      ("efg_diff", nsub (feat_get t1_feat efg 0.45) (feat_get t2_feat efg 0.45));
      ("pyth_diff", nsub (feat_get t1_feat pyth 0.5) (feat_get t2_feat pyth 0.5)) ] in
  (* KenPom features if available *)
  match t1_kp, t2_kp with
  | Some t1_kp, Some t2_kp =>
      features ++
      [ ("kp_adjoe_diff", nsub (AdjOE t1_kp) (AdjOE t2_kp));
        ("kp_adjde_diff", nsub (AdjDE t1_kp) (AdjDE t2_kp));
        ("kp_adjem_diff", nsub (AdjEM t1_kp) (AdjEM t2_kp));
        ("kp_tempo_diff", nsub (AdjTempo t1_kp) (AdjTempo t2_kp));
        ("kp_t1_off_vs_t2_def", nsub (AdjOE t1_kp) (AdjDE t2_kp));
        ("kp_t2_off_vs_t1_def", nsub (AdjOE t2_kp) (AdjDE t1_kp));
        ("kp_t1_adjem", AdjEM t1_kp);
        ("kp_t2_adjem", AdjEM t2_kp);
        ("kp_rank_diff", nsub (RankAdjEM t1_kp) (RankAdjEM t2_kp)) ]
  | _, _ =>
      features ++
      [ ("kp_adjoe_diff", Some 0%Q); ("kp_adjde_diff", Some 0%Q); ("kp_adjem_diff", Some 0%Q);
        ("kp_tempo_diff", Some 0%Q); ("kp_t1_off_vs_t2_def", Some 0%Q);
        ("kp_t2_off_vs_t1_def", Some 0%Q);
        ("kp_t1_adjem", Some 0%Q); ("kp_t2_adjem", Some 0%Q); ("kp_rank_diff", Some 0%Q) ]
  end.

(** *** Training data ([build_training_data]) *)

(** A row of the seeds table; [SeedNum] is the number the regular
    expression extracts from the ['Seed'] text. *)
Record SeedRow : Type := mkSeedRow {
  seed_Season : Z;
  seed_TeamID : Z;
  SeedNum : Z
}.

(** [dict(zip(season_seeds['TeamID'], ...))]: a later row replaces an
    earlier one of the same team. *)
Definition seed_map_of (seeds : list SeedRow) (season : Z) : gmap Z Z :=
  fold_left (fun m r => <[seed_TeamID r := SeedNum r]> m)
            (filter (fun r => seed_Season r = season) seeds) ∅.

(** A row of the training frame: the matchup features and the seven
    columns added after them. *)
Record TrainRow : Type := mkTrainRow {
  matchup : list (string * num);
  target : Z;
  margin : Z;
  season : Z;
  t1_id : Z;
  t2_id : Z;
  t1_seed_raw : Z;
  t2_seed_raw : Z
}.

(** The body of the loop over the tournament games of one season. *)
Definition training_row (seed_map : gmap Z Z) (feat : gmap Z Features)
    (elo_ratings : gmap Z Q) (kenpom_by_team : gmap Z KenPomRow)
    (season : Z) (g : Game) : TrainRow :=
  let w := WTeamID g in
  let l := LTeamID g in
  let ws := default 8 (seed_map !! w) in
  let ls := default 8 (seed_map !! l) in
  (* Convention: T1 has lower TeamID *)
  let '(t1, t2, t1_seed, t2_seed, target, margin) :=
    if w <? l then (w, l, ws, ls, 1, WScore g - LScore g)
    else (l, w, ls, ws, 0, LScore g - WScore g) in
  let t1_feat := feat !! t1 in
  let t2_feat := feat !! t2 in
  let t1_elo := default 1500%Q (elo_ratings !! t1) in
  let t2_elo := default 1500%Q (elo_ratings !! t2) in
  (* KenPom only for 2025 *)
  let t1_kp := if season =? 2025 then kenpom_by_team !! t1 else None in
  let t2_kp := if season =? 2025 then kenpom_by_team !! t2 else None in
  {| matchup := build_matchup_features t1_feat t2_feat t1_seed t2_seed t1_elo t2_elo
                                       t1_kp t2_kp;
     target := target; margin := margin; season := season;
     t1_id := t1; t2_id := t2; t1_seed_raw := t1_seed; t2_seed_raw := t2_seed |}.

(** [range(2003, 2025)]. *)
Definition TRAINING_SEASONS : list Z := seqZ 2003 22.

Definition build_training_data (reg trn : list Game) (seeds : list SeedRow)
    (elo_ratings : gmap Z Q) (season_features_cache : gmap Z (gmap Z Features))
    (kenpom_by_team : gmap Z KenPomRow) : list TrainRow :=
  season ← TRAINING_SEASONS;
  let season_trn := games_of_season trn season in
  let seed_map := seed_map_of seeds season in
  let feat := default ∅ (season_features_cache !! season) in
  training_row seed_map feat elo_ratings kenpom_by_team season <$> season_trn.

(** *** Predictions ([generate_2025_predictions]) *)

(** [x < y] on floats. *)
Definition Qlt_bool (x y : Q) : bool := negb (Qle_bool y x).

(** The value bound to [model_prob]. *)
Definition ensemble_prob (xgb_prob lgb_prob seed_implied : Q) : Q :=
  (0.45 * xgb_prob + 0.35 * lgb_prob + 0.20 * seed_implied)%Q.

(** The value bound to [confidence]. *)
Definition confidence_of (model_prob : Q) : string :=
  if Qlt_bool (Qabs (model_prob - 0.5)) 0.05 then "tossup"
  else if Qlt_bool (Qabs (model_prob - 0.5)) 0.12 then "slight"
  else if Qlt_bool (Qabs (model_prob - 0.5)) 0.22 then "lean"
  else if Qlt_bool (Qabs (model_prob - 0.5)) 0.35 then "confident"
  else "lock".

(** The value bound to [upset_flag]. *)
Definition upset_flag_of (t1_seed t2_seed : Z) (model_prob : Q) : string :=
  let favored_by_seed := t1_seed <? t2_seed in
  let model_picks_t1 := Qlt_bool 0.5 model_prob in
  if negb (t1_seed =? t2_seed) then
    if (favored_by_seed && negb model_picks_t1) || (negb favored_by_seed && model_picks_t1)
    then "upset"
    else "chalk"
  else "tossup".

(** A prediction dict; the ['key_factors'], ['kenpom'] and ['responses']
    entries (rounded copies and free text) are left out. *)
Record Pred : Type := mkPred {
  pred_season : Z;
  pred_t1_id : Z;
  pred_t2_id : Z;
  pred_t1_name : string;
  pred_t2_name : string;
  pred_t1_seed : Z;
  pred_t2_seed : Z;
  model_win_prob : Q;
  xgb_prob : Q;
  lgb_prob : Q;
  predicted_margin : Q;
  value_score : Q;
  pred_seed_implied_prob : Q;
  confidence : string;
  upset_flag : string;
  model_agrees_with_seed : bool;
  predicted_winner_name : string
}.

(** [sorted(tourney_teams)] on the distinct team ids. *)
Fixpoint insert_id (t : Z) (l : list Z) : list Z :=
  match l with
  | [] => [t]
  | h :: l' => if t <? h then t :: h :: l'
               else if t =? h then h :: l'
               else h :: insert_id t l'
  end.

Definition sorted_ids (ids : list Z) : list Z := fold_right insert_id [] ids.

(** [itertools.combinations(l, 2)]. *)
Fixpoint combinations2 (l : list Z) : list (Z * Z) :=
  match l with
  | [] => []
  | a :: l' => ((fun b => (a, b)) <$> l') ++ combinations2 l'
  end.

Section Predictions.
(** The three fitted models, each read through its prediction on one row
    of features: [predict_proba(X)[0][1]] and [predict(X)[0]]. *)
Variables (xgb_model lgb_model margin_model : list (string * num) -> Q).

(** The body of the loop over the pairs of teams. *)
Definition predict_matchup (seed_map : gmap Z Z) (team_names : gmap Z string)
    (elo_ratings : gmap Z Q) (feat_2025 : gmap Z Features)
    (kenpom_by_team : gmap Z KenPomRow) (feature_cols : list string)
    (pair : Z * Z) : Pred :=
  let '(t1, t2) := pair in
  let t1_seed := default 8 (seed_map !! t1) in
  let t2_seed := default 8 (seed_map !! t2) in
  let t1_feat := feat_2025 !! t1 in
  let t2_feat := feat_2025 !! t2 in
  let t1_elo := default 1500%Q (elo_ratings !! t1) in
  let t2_elo := default 1500%Q (elo_ratings !! t2) in
  let t1_kp := kenpom_by_team !! t1 in
  let t2_kp := kenpom_by_team !! t2 in
  let matchup := build_matchup_features t1_feat t2_feat t1_seed t2_seed t1_elo t2_elo
                                        t1_kp t2_kp in
  let X := (fun c => (c, default None (dict_get matchup c))) <$> feature_cols in
  let xgb_prob := xgb_model X in
  let lgb_prob := lgb_model X in
  let pred_margin := margin_model X in
  let seed_implied := seed_implied_prob t1_seed t2_seed in
  (* Ensemble *)
  let model_prob := ensemble_prob xgb_prob lgb_prob seed_implied in
  let confidence := confidence_of model_prob in
  (* Upset detection *)
  let favored_by_seed := t1_seed <? t2_seed in
  let model_picks_t1 := Qlt_bool 0.5 model_prob in
  let upset_flag := upset_flag_of t1_seed t2_seed model_prob in
  let value_score := (model_prob - seed_implied)%Q in
  let t1_name := default (pretty t1) (team_names !! t1) in
  let t2_name := default (pretty t2) (team_names !! t2) in
  {| pred_season := 2025;
     pred_t1_id := t1;
     pred_t2_id := t2;
     pred_t1_name := t1_name;
     pred_t2_name := t2_name;
     pred_t1_seed := t1_seed;
     pred_t2_seed := t2_seed;
     model_win_prob := py_round model_prob 6;
     xgb_prob := py_round xgb_prob 6;
     lgb_prob := py_round lgb_prob 6;
     predicted_margin := py_round pred_margin 2;
     value_score := py_round value_score 6;
     pred_seed_implied_prob := py_round seed_implied 4;
     confidence := confidence;
     upset_flag := upset_flag;
     model_agrees_with_seed :=
       if negb (t1_seed =? t2_seed) then eqb model_picks_t1 favored_by_seed else true;
     predicted_winner_name := if model_picks_t1 then t1_name else t2_name |}.

Definition generate_2025_predictions (seeds : list SeedRow) (team_names : gmap Z string)
    (elo_ratings : gmap Z Q) (season_features_cache : gmap Z (gmap Z Features))
    (kenpom_by_team : gmap Z KenPomRow) (feature_cols : list string) : list Pred :=
  let s25 := filter (fun r => seed_Season r = 2025) seeds in
  let seed_map := seed_map_of seeds 2025 in
  let tourney_teams := seed_TeamID <$> s25 in
  let feat_2025 := default ∅ (season_features_cache !! 2025) in
  predict_matchup seed_map team_names elo_ratings feat_2025 kenpom_by_team feature_cols
    <$> combinations2 (sorted_ids tourney_teams).

End Predictions.

(** *** Backtest scoring ([score_backtest], [compute_espn_score]) *)

Record Actual : Type := mkActual {
  winner : Z;
  actual_margin : Z;
  w_score : Z;
  l_score : Z
}.

(** The lookup of actual results, keyed by the ordered pair of ids. *)
Definition actual_results (trn : list Game) : list ((Z * Z) * Actual) :=
  fold_left (fun actual g =>
               let w := WTeamID g in
               let l := LTeamID g in
               let t1 := Z.min w l in
               let t2 := Z.max w l in
               od_set (t1, t2)
                 {| winner := w; actual_margin := WScore g - LScore g;
                    w_score := WScore g; l_score := LScore g |} actual)
            (games_of_season trn 2025) [].

(** An entry of [results_detail], reduced to the prediction it reports
    and its ['correct'] flag. *)
Record Detail : Type := mkDetail {
  detail_pred : Pred;
  detail_correct : bool
}.

(** The variables the scoring loop updates. *)
Record ScoreState : Type := mkScoreState {
  correct : Z;
  total : Z;
  brier_sum : Q;
  upsets_detected : Z;
  upsets_total : Z;
  results_detail : list Detail
}.

(** One iteration of the loop [for p in predictions]. *)
Definition score_prediction (actual : list ((Z * Z) * Actual)) (st : ScoreState) (p : Pred) : ScoreState :=
  let key := (pred_t1_id p, pred_t2_id p) in
  match dict_get actual key with
  | None => st
  | Some result =>
      let t1_won := winner result =? pred_t1_id p in
      let model_picks_t1 := Qlt_bool 0.5 (model_win_prob p) in
      let is_correct := eqb model_picks_t1 t1_won in
      let actual_prob := if t1_won then 1.0%Q else 0.0%Q in
      let winner_seed := if t1_won then pred_t1_seed p else pred_t2_seed p in
      let loser_seed := if t1_won then pred_t2_seed p else pred_t1_seed p in
      let is_upset := negb (pred_t1_seed p =? pred_t2_seed p) && (loser_seed + 2 <? winner_seed) in
      {| correct := if is_correct then correct st + 1 else correct st;
         total := total st + 1;
         brier_sum := (brier_sum st + (model_win_prob p - actual_prob) ^ 2)%Q;
         upsets_detected :=
           if is_upset && String.eqb (upset_flag p) "upset"
           then upsets_detected st + 1 else upsets_detected st;
         upsets_total := if is_upset then upsets_total st + 1 else upsets_total st;
         results_detail := results_detail st ++ [ {| detail_pred := p;
                                                     detail_correct := is_correct |} ] |}
  end.

Definition compute_espn_score (predictions : list Pred) (actual : list ((Z * Z) * Actual)) : Z :=
  fold_left (fun total_points kv =>
               let '((t1, t2), result) := kv in
               match List.find (fun p => (pred_t1_id p =? t1) && (pred_t2_id p =? t2))
                               predictions with
               | None => total_points
               | Some pred =>
                   let t1_won := winner result =? t1 in
                   let model_picks_t1 := Qlt_bool 0.5 (model_win_prob pred) in
                   if eqb model_picks_t1 t1_won then total_points + 10 else total_points
               end)
            actual 0.

Record Scorecard : Type := mkScorecard {
  sc_accuracy : Q;
  sc_brier : Q;
  sc_total_games : Z;
  sc_correct : Z;
  sc_upsets_detected : Z;
  sc_upsets_total : Z;
  sc_espn_score : Z;
  sc_wrong_picks : list Detail
}.

(** The team names only feed the printed report and are left out. *)
Definition score_backtest (predictions : list Pred) (trn : list Game) : Scorecard :=
  let actual := actual_results trn in
  let st := fold_left (score_prediction actual) predictions
              {| correct := 0; total := 0; brier_sum := 0%Q; upsets_detected := 0;
                 upsets_total := 0; results_detail := [] |} in
  let accuracy := (inject_Z (correct st) / inject_Z (Z.max (total st) 1))%Q in
  let brier := (brier_sum st / inject_Z (Z.max (total st) 1))%Q in
  let wrong := List.filter (fun r => negb (detail_correct r)) (results_detail st) in
  {| sc_accuracy := py_round accuracy 4;
     sc_brier := py_round brier 4;
     sc_total_games := total st;
     sc_correct := correct st;
     sc_upsets_detected := upsets_detected st;
     sc_upsets_total := upsets_total st;
     sc_espn_score := compute_espn_score predictions actual;
     sc_wrong_picks := wrong |}.

End V2.

(* --------------------------------------------------------------------- *)
(** ** data/BracketGPT_Unified_Pipeline.py *)
(* --------------------------------------------------------------------- *)

Module Unified.

(** *** [Config] *)

Definition ELO_BASE : Q := 1000.
Definition ELO_WIDTH : Q := 400.
Definition ELO_K : Q := 100.
Definition ELO_DECAY : Q := 0.33.

Definition SEED_WIN_RATES : list ((Z * Z) * Q) :=
  [ seed_pair 1 16 0.993; seed_pair 2 15 0.943; seed_pair 3 14 0.851; seed_pair 4 13 0.793;
    seed_pair 5 12 0.649; seed_pair 6 11 0.627; seed_pair 7 10 0.609; seed_pair 8 9 0.519;
    seed_pair 1 8 0.794; seed_pair 1 9 0.862; seed_pair 2 7 0.667; seed_pair 2 10 0.714;
    seed_pair 3 6 0.571; seed_pair 3 11 0.657; seed_pair 4 5 0.545; seed_pair 4 12 0.667;
    seed_pair 1 4 0.714; seed_pair 1 5 0.800; seed_pair 2 3 0.545; seed_pair 2 6 0.667;
    seed_pair 1 2 0.556; seed_pair 1 3 0.650 ].

(** *** Archetype system ([class ArchetypeEngine]) *)

Inductive Tier : Type := Elite | Good | Average | BelowAverage | Weak.
Inductive TempoStyle : Type := Fast | Medium | Slow.

#[global] Instance Tier_eq_dec : EqDecision Tier.
Proof. solve_decision. Defined.
#[global] Instance TempoStyle_eq_dec : EqDecision TempoStyle.
Proof. solve_decision. Defined.

(** The strings the source uses for the tiers. *)
Definition tier_name (t : Tier) : string :=
  match t with
  | Elite => "Elite" | Good => "Good" | Average => "Average"
  | BelowAverage => "Below Average" | Weak => "Weak"
  end.

Definition tempo_name (t : TempoStyle) : string :=
  match t with Fast => "Fast" | Medium => "Medium" | Slow => "Slow" end.

Definition ARCHETYPE_MAP : list ((Tier * Tier * TempoStyle) * string) :=
  [ ((Elite, Elite, Fast), "The Juggernaut");
    ((Elite, Elite, Slow), "The Fortress");
    ((Elite, Elite, Medium), "The Powerhouse");
    ((Elite, Good, Fast), "The Sharpshooter");
    ((Elite, Good, Slow), "The Sniper");
    ((Elite, Good, Medium), "The Sniper");
    ((Elite, Average, Fast), "The Gunslinger");
    ((Elite, Average, Slow), "The Gunslinger");
    ((Elite, Average, Medium), "The Gunslinger");
    ((Elite, BelowAverage, Fast), "The Glass Cannon");
    ((Elite, BelowAverage, Slow), "The Glass Cannon");
    ((Elite, BelowAverage, Medium), "The Glass Cannon");
    ((Elite, Weak, Fast), "The Glass Cannon");
    ((Elite, Weak, Slow), "The Glass Cannon");
    ((Elite, Weak, Medium), "The Glass Cannon");
    ((Good, Elite, Fast), "The Crusher");
    ((Good, Elite, Slow), "The Wall");
    ((Good, Elite, Medium), "The Wall");
    ((Average, Elite, Fast), "The Lockdown");
    ((Average, Elite, Slow), "The Lockdown");
    ((Average, Elite, Medium), "The Lockdown");
    ((BelowAverage, Elite, Fast), "The Grinder");
    ((BelowAverage, Elite, Slow), "The Grinder");
    ((BelowAverage, Elite, Medium), "The Grinder");
    ((Weak, Elite, Fast), "The Brick House");
    ((Weak, Elite, Slow), "The Brick House");
    ((Weak, Elite, Medium), "The Brick House");
    ((Good, Good, Fast), "The Balanced Threat");
    ((Good, Good, Slow), "The Fundamentals");
    ((Good, Good, Medium), "The All-Arounder");
    ((Good, Average, Fast), "The Run-and-Gun");
    ((Good, Average, Slow), "The Half-Court Hero");
    ((Good, Average, Medium), "The Scorer");
    ((Good, BelowAverage, Fast), "The Run-and-Gun");
    ((Good, BelowAverage, Slow), "The Half-Court Hero");
    ((Good, BelowAverage, Medium), "The Scorer");
    ((Good, Weak, Fast), "The Run-and-Gun");
    ((Good, Weak, Slow), "The Half-Court Hero");
    ((Good, Weak, Medium), "The Scorer");
    ((Average, Good, Fast), "The Pressure Cooker");
    ((Average, Good, Slow), "The Suffocator");
    ((Average, Good, Medium), "The Defender");
    ((BelowAverage, Good, Fast), "The Pressure Cooker");
    ((BelowAverage, Good, Slow), "The Suffocator");
    ((BelowAverage, Good, Medium), "The Defender");
    ((Weak, Good, Fast), "The Defense-First");
    ((Weak, Good, Slow), "The Defense-First");
    ((Weak, Good, Medium), "The Defense-First");
    ((Average, Average, Fast), "The Scrappy Squad");
    ((Average, Average, Slow), "The Plodder");
    ((Average, Average, Medium), "The Mid-Pack");
    ((Average, BelowAverage, Fast), "The Offensive Minded");
    ((Average, BelowAverage, Slow), "The Offensive Minded");
    ((Average, BelowAverage, Medium), "The Offensive Minded");
    ((BelowAverage, Average, Fast), "The Defensive Minded");
    ((BelowAverage, Average, Slow), "The Defensive Minded");
    ((BelowAverage, Average, Medium), "The Defensive Minded");
    ((BelowAverage, BelowAverage, Fast), "The Underdog");
    ((BelowAverage, BelowAverage, Slow), "The Underdog");
    ((BelowAverage, BelowAverage, Medium), "The Underdog") ].

(** The keys of [ARCHETYPE_DESCRIPTIONS], in source order: the fixed label
    set (the description texts themselves are not used by any
    computation). *)
Definition ARCHETYPE_LABELS : list string :=
  [ "The Juggernaut"; "The Fortress"; "The Powerhouse"; "The Sharpshooter";
    "The Sniper"; "The Gunslinger"; "The Glass Cannon"; "The Crusher";
    "The Wall"; "The Lockdown"; "The Grinder"; "The Brick House";
    "The Balanced Threat"; "The Fundamentals"; "The All-Arounder";
    "The Run-and-Gun"; "The Half-Court Hero"; "The Scorer";
    "The Pressure Cooker"; "The Suffocator"; "The Defender";
    "The Scrappy Squad"; "The Plodder"; "The Mid-Pack";
    "The Offensive Minded"; "The Defensive Minded"; "The Underdog";
    "The Cinderella Hopeful"; "The Defense-First"; "The Offense-Only" ].

(** [get_tier(rank, thresholds)]; [None] is a NaN rank. *)
Definition get_tier (rank : option Q) (thresholds : list (string * Q)) : Tier :=
  match rank with
  | None => Average
  | Some r =>
      if Qle_bool r (default 25%Q (dict_get thresholds "elite")) then Elite
      else if Qle_bool r (default 75%Q (dict_get thresholds "good")) then Good
      else if Qle_bool r (default 150%Q (dict_get thresholds "average")) then Average
      else if Qle_bool r (default 250%Q (dict_get thresholds "below_avg")) then BelowAverage
      else Weak
  end.

Definition get_tempo (rank : option Q) : TempoStyle :=
  match rank with
  | None => Medium
  | Some r =>
      if Qle_bool r 100 then Fast
      else if Qle_bool r 250 then Medium
      else Slow
  end.

(** The threshold dict both call sites pass to [get_tier]. *)
Definition TIER_THRESHOLDS : list (string * Q) :=
  [ ("elite", 25%Q); ("good", 75%Q); ("average", 150%Q); ("below_avg", 250%Q) ].

(** The three rank columns of a row; an absent column reads as NaN. *)
Record RankRow : Type := mkRankRow {
  RankAdjOE : option Q;
  RankAdjDE : option Q;
  RankAdjTempo : option Q
}.

(** Lines 300-311 of [assign_archetype]: table lookup, then the fallback on
    a Weak tier, then ['The Unknown'].  [if name:] also rejects an empty
    string. *)
Definition archetype_of_tiers (off_tier def_tier : Tier) (tempo : TempoStyle) : string :=
  let key := (off_tier, def_tier, tempo) in
  match dict_get ARCHETYPE_MAP key with
  | Some (String c rest) => String c rest
  | _ =>
      if bool_decide (Weak ∈ [off_tier; def_tier]) then
        if bool_decide (off_tier = Weak) && bool_decide (def_tier = Weak)
        then "The Cinderella Hopeful"
        else if bool_decide (off_tier = Weak) then "The Defense-First"
        else "The Offense-Only"
      else "The Unknown"
  end.

Definition assign_archetype (row : RankRow) : string :=
  let off_tier := get_tier (RankAdjOE row) TIER_THRESHOLDS in
  let def_tier := get_tier (RankAdjDE row) TIER_THRESHOLDS in
  let tempo := get_tempo (RankAdjTempo row) in
  archetype_of_tiers off_tier def_tier tempo.

(** *** [build_matchup_matrix] *)

(** The columns of a tournament row the matrix reads; an absent archetype
    reads as ['The Unknown'], an absent ['T1_won'] as 0. *)
Record TourneyRow : Type := mkTourneyRow {
  T1_Archetype : option string;
  T2_Archetype : option string;
  T1_won : option Z
}.

Record Tally : Type := mkTally { wins : Z; total : Z }.

Record Cell : Type := mkCell { cell_wins : Z; cell_total : Z; win_rate : Q }.

Definition tally0 : Tally := {| wins := 0; total := 0 |}.

Definition add_total (n : Z) (e : Tally) : Tally :=
  {| wins := wins e; total := total e + n |}.

Definition add_wins (n : Z) (e : Tally) : Tally :=
  {| wins := wins e + n; total := total e |}.

(** One iteration of the first loop. *)
Definition tally_row (matrix : list ((string * string) * Tally)) (row : TourneyRow) :
    list ((string * string) * Tally) :=
  let a1 := default "The Unknown" (T1_Archetype row) in
  let a2 := default "The Unknown" (T2_Archetype row) in
  let won := default 0 (T1_won row) in
  let matrix := od_alter (add_total 1) tally0 (a1, a2) matrix in
  let matrix := od_alter (add_wins won) tally0 (a1, a2) matrix in
  let matrix := od_alter (add_total 1) tally0 (a2, a1) matrix in
  let matrix := od_alter (add_wins (1 - won)) tally0 (a2, a1) matrix in
  matrix.

Definition matchup_key (key : string * string) : string :=
  key.1 +:+ "__vs__" +:+ key.2.

Definition with_win_rate (val : Tally) : Cell :=
  {| cell_wins := wins val;
     cell_total := total val;
     win_rate := if 0 <? total val
                 then (inject_Z (wins val) / inject_Z (total val))%Q
                 else 0.5%Q |}.

Definition build_matchup_matrix (tourney_df : list TourneyRow) : list (string * Cell) :=
  let matrix := fold_left tally_row tourney_df [] in
  fold_left (fun result kv => od_set (matchup_key kv.1) (with_win_rate kv.2) result)
            matrix [].

(** *** Elo ratings ([compute_elo]) *)

Section Elo.
(** [pow10 x] stands for [10 ** x] and [ln x] for [np.log(x)]. *)
Variables (pow10 ln : Q -> Q).

(** Season start: every key of [elo] is regressed toward [ELO_BASE]. *)
Definition regress_toward_base (elo : gmap Z Q) : gmap Z Q :=
  (fun r => ELO_BASE + ELO_DECAY * (r - ELO_BASE))%Q <$> elo.

(** Reading [elo[t]] on the [defaultdict]: an absent key is stored with
    [ELO_BASE]. *)
Definition touch (t : Z) (elo : gmap Z Q) : gmap Z Q :=
  match elo !! t with
  | Some _ => elo
  | None => <[t := ELO_BASE]> elo
  end.

Definition elo_at (elo : gmap Z Q) (t : Z) : Q := default ELO_BASE (elo !! t).

(** The value bound to [update] for game [g]. *)
Definition game_update (elo : gmap Z Q) (g : Game) : Q :=
  let w := WTeamID g in
  let l := LTeamID g in
  let ew := (1 / (1 + pow10 ((elo_at elo l - elo_at elo w) / ELO_WIDTH)))%Q in
  let mov_mult := ln (inject_Z (Z.abs (WScore g - LScore g) + 1)) in
  (ELO_K * mov_mult * (1 - ew))%Q.

(** One iteration of the loop over a season's games ([elo[l]] is read
    before [elo[w]]). *)
Definition play_game (elo : gmap Z Q) (g : Game) : gmap Z Q :=
  let w := WTeamID g in
  let l := LTeamID g in
  let elo := touch l elo in
  let elo := touch w elo in
  let update := game_update elo g in
  let elo := <[w := (elo_at elo w + update)%Q]> elo in
  let elo := <[l := (elo_at elo l - update)%Q]> elo in
  elo.

(** A row of the returned [season_elos] frame. *)
Record EloRow : Type := mkEloRow { er_Season : Z; er_TeamID : Z; er_elo : Q }.

(** The rows appended for one season, one per key of [elo] (the frame is
    only ever joined on its keys, so the order of the rows is free). *)
Definition snapshot (season : Z) (elo : gmap Z Q) : list EloRow :=
  (fun kv => mkEloRow season kv.1 kv.2) <$> map_to_list elo.

(** [sorted(regular['Season'].unique())]. *)
Fixpoint insert_season (s : Z) (l : list Z) : list Z :=
  match l with
  | [] => [s]
  | h :: t => if s <? h then s :: h :: t
              else if s =? h then h :: t
              else h :: insert_season s t
  end.

Definition seasons_of (regular : list Game) : list Z :=
  fold_right insert_season [] (Season <$> regular).

(** The loop over seasons, with its [break]. *)
Fixpoint season_loop (regular : list Game) (backtest_season : Z) (seasons : list Z)
    (elo : gmap Z Q) (season_elos : list EloRow) : gmap Z Q * list EloRow :=
  match seasons with
  | [] => (elo, season_elos)
  | season :: rest =>
      if backtest_season <=? season then (elo, season_elos)
      else
        let elo := regress_toward_base elo in
        let games := sort_by_day (games_of_season regular season) in
        let elo := fold_left play_game games elo in
        season_loop regular backtest_season rest elo (season_elos ++ snapshot season elo)
  end.

Definition compute_elo (regular : list Game) (backtest_season : Z) : list EloRow :=
  let '(elo, season_elos) :=
    season_loop regular backtest_season (seasons_of regular) ∅ [] in
  season_elos ++ snapshot backtest_season (regress_toward_base elo).

End Elo.

(** *** Season statistics ([compute_season_stats]) *)

(** One row of the returned frame [agg].  A column of the W-record is NaN
    for a team without a win, a column of the L-record NaN for a team
    without a loss: the frame of records leaves them empty and the mean
    of an empty column is NaN. *)
Record AggRow : Type := mkAggRow {
  agg_Season : Z;
  agg_TeamID : Z;
  W_games : num;
  W_score : num;
  W_box : BoxCol -> num;
  opp_score : num;
  L_games : num;
  L_score : num;
  L_box : BoxCol -> num;
  opp_score_L : num;
  stat_wins : num;
  stat_losses : num;
  win_pct : num;
  ppg : num;
  opp_ppg : num;
  point_diff : num;
  pyth : num;
  possessions : num;
  off_eff : num;
  def_eff : num;
  net_eff : num;
  efg_pct : num;
  to_rate : num;
  ft_rate : num;
  oreb_pct : num;
  three_rate : num;
  ast_rate : num;
  blk_rate : num;
  stl_rate : num;
  tempo : num
}.

(** [len(grp)] as a column of the records frame. *)
Definition group_len (grp : list Game) : num :=
  match grp with
  | [] => None
  | _ => Some (inject_Z (Z.of_nat (length grp)))
  end.

Definition npow8 (x : num) : num :=
  match x with
  | Some a => Some (a ^ 8)%Q
  | None => None
  end.

(** The row of [agg] for one (season, team) group, [None] when the team
    played no game that season. *)
Definition season_team_row (regular : list Game) (season team : Z) : option AggRow :=
  let wgrp := filter (fun g => Season g = season /\ WTeamID g = team) regular in
  let lgrp := filter (fun g => Season g = season /\ LTeamID g = team) regular in
  match wgrp, lgrp with
  | [], [] => None
  | _, _ =>
      let W_games := group_len wgrp in
      let W_score := col_mean (WScore <$> wgrp) in
      let W_box c := col_mean ((fun g => WBox g c) <$> wgrp) in
      let opp_score := col_mean (LScore <$> wgrp) in
      let L_games := group_len lgrp in
      let L_score := col_mean (LScore <$> lgrp) in
      let L_box c := col_mean ((fun g => LBox g c) <$> lgrp) in
      let opp_score_L := col_mean (WScore <$> lgrp) in
      let wins := W_games in
      let losses := L_games in
      let total_games := nadd wins losses in
      let win_pct := np_where (ngt0 total_games) (ndiv wins total_games) (Some 0.5%Q) in
      let ppg := W_score in
      let opp_ppg := opp_score in
      let point_diff := nsub ppg opp_ppg in
      let pyth := np_where (ngt0 (nadd ppg opp_ppg))
                    (ndiv (npow8 ppg) (nadd (npow8 ppg) (npow8 opp_ppg))) (Some 0.5%Q) in
      let fga := W_box FGA in
      let fgm := W_box FGM in
      let fga3 := W_box FGA3 in
      let fgm3 := W_box FGM3 in
      let fta := W_box FTA in
      let to := W_box TO in
      let oreb := W_box OR in
      let dreb := W_box DR in
      let possessions := nadd (nadd (nsub fga oreb) to) (nmul (Some 0.475%Q) fta) in
      let off_eff := np_where (ngt0 possessions)
                       (nmul (ndiv ppg possessions) (Some 100%Q)) (Some 100%Q) in
      let def_eff := np_where (ngt0 possessions)
                       (nmul (ndiv opp_ppg possessions) (Some 100%Q)) (Some 100%Q) in
      Some {| agg_Season := season; agg_TeamID := team;
              W_games := W_games; W_score := W_score; W_box := W_box;
              opp_score := opp_score;
              L_games := L_games; L_score := L_score; L_box := L_box;
              opp_score_L := opp_score_L;
              stat_wins := wins; stat_losses := losses; win_pct := win_pct;
              ppg := ppg; opp_ppg := opp_ppg; point_diff := point_diff;
              pyth := pyth; possessions := possessions;
              off_eff := off_eff; def_eff := def_eff; net_eff := nsub off_eff def_eff;
              efg_pct := np_where (ngt0 fga)
                           (ndiv (nadd fgm (nmul (Some 0.5%Q) fgm3)) fga) (Some 0.45%Q);
              to_rate := np_where (ngt0 possessions) (ndiv to possessions) (Some 0.15%Q);
              ft_rate := np_where (ngt0 fga) (ndiv fta fga) (Some 0.30%Q);
              oreb_pct := np_where (ngt0 (nadd oreb dreb))
                            (ndiv oreb (nadd oreb dreb)) (Some 0.30%Q);
              three_rate := np_where (ngt0 fga) (ndiv fga3 fga) (Some 0.30%Q);
              ast_rate := W_box Ast;
              blk_rate := W_box Blk;
              stl_rate := W_box Stl;
              tempo := possessions |}
  end.

(** The group keys, sorted as [groupby] sorts them. *)
Definition key_ltb (a b : Z * Z) : bool :=
  (a.1 <? b.1) || ((a.1 =? b.1) && (a.2 <? b.2)).

Fixpoint insert_key (k : Z * Z) (l : list (Z * Z)) : list (Z * Z) :=
  match l with
  | [] => [k]
  | h :: l' => if key_ltb k h then k :: h :: l'
               else if bool_decide (k = h) then h :: l'
               else h :: insert_key k l'
  end.

Definition compute_season_stats (regular : list Game) : list AggRow :=
  let keys := fold_right insert_key []
                (((fun g => (Season g, WTeamID g)) <$> regular)
                 ++ ((fun g => (Season g, LTeamID g)) <$> regular)) in
  omap (fun k => season_team_row regular k.1 k.2) keys.

(** *** [get_seed_prob] (inside [build_matchup_features]); an absent
    ['T1_seed'] / ['T2_seed'] key reads as 8. *)
Definition get_seed_prob (T1_seed T2_seed : option Z) : Q :=
  let s1 := default 8 T1_seed in
  let s2 := default 8 T2_seed in
  let key := (Z.min s1 s2, Z.max s1 s2) in
  let base_prob := default 0.5%Q (dict_get SEED_WIN_RATES key) in
  if s1 <=? s2 then base_prob else (1 - base_prob)%Q.

(** *** Stacked ensemble ([train_model]) *)

(** A row of the matchup frame [td]: the columns [train_model] selects
    rows and labels with, and the numeric feature columns. *)
Record TdRow : Type := mkTdRow {
  td_Season : Z;
  td_T1_TeamID : Z;
  td_T2_TeamID : Z;
  td_PointDiff : Z;
  td_T1_won : Z;
  td_features : list Q
}.

Section Ensemble.
(** The learners are library calls; each is given by the data it is handed.
    [xgb_train dtrain dtest] is [xgb.train(params, dtrain, rounds,
    evals=[(dtest, 'test')], early_stopping_rounds=30)], which scores
    [dtest] after every round to pick the round it stops at. *)
Context {Booster Classifier LeafModel MetaModel : Type}.
Variable xgb_train : list TdRow -> list TdRow -> Booster.
Variable fit_classifier : list TdRow -> Classifier.
Variable fit_leaf_logistic : Booster -> list TdRow -> LeafModel.
Variable fit_meta : Booster -> Classifier -> LeafModel -> list TdRow -> MetaModel.

Record Trained : Type := mkTrained {
  train_data : list TdRow;
  test_data : list TdRow;
  xgb_model : Booster;
  base_model_2 : Classifier;
  leaf_lr : LeafModel;
  meta_lr : MetaModel
}.

(** The train / test selection, with its fallback on the last available
    season when the backtest season has no row. *)
Definition split_seasons (td : list TdRow) (backtest_season : Z) : list TdRow * list TdRow :=
  let train := filter (fun r => td_Season r < backtest_season) td in
  let test := filter (fun r => td_Season r = backtest_season) td in
  match test with
  | [] =>
      match train with
      | [] => ([], [])
      | r0 :: train' =>
          let last_season := fold_right Z.max (td_Season r0) (td_Season <$> train') in
          (filter (fun r => td_Season r < last_season) train,
           filter (fun r => td_Season r = last_season) train)
      end
  | _ => (train, test)
  end.

Definition train_model (td : list TdRow) (backtest_season : Z) : Trained :=
  let '(train, test) := split_seasons td backtest_season in
  (* Model 1: XGBoost margin predictor *)
  let xgb_model := xgb_train train test in
  (* Model 2: LightGBM / RF classifier *)
  let base_model_2 := fit_classifier train in
  (* Model 3: XGB leaf -> logistic *)
  let leaf_lr := fit_leaf_logistic xgb_model train in
  (* Meta-learner *)
  let meta_lr := fit_meta xgb_model base_model_2 leaf_lr train in
  {| train_data := train; test_data := test; xgb_model := xgb_model;
     base_model_2 := base_model_2; leaf_lr := leaf_lr; meta_lr := meta_lr |}.

End Ensemble.

(** *** Step 2: injuries and on/off patching *)

(** A row of the team summary built by [build_team_summary]; every column
    is present on such a row, so the defaults of [row.get] are never
    used. *)
Record SummaryRow : Type := mkSummaryRow {
  team : string;
  star_player : string;
  star_player_bpm : Q;
  star_player_usg : Q;
  star_player_ppg : Q;
  star_dependency_pct : Q;
  top2_dependency_pct : Q;
  team_total_bpm : Q;
  star_is_injured : bool;
  n_injured : Z;
  n_out : Z;
  n_questionable : Z;
  team_total_injury_bpm : Q;
  star_injury_bpm : Q;
  injured_players_list : string;
  injured_statuses : string;
  upset_vulnerability : Q
}.

(** Python's [min(a, b)]. *)
Definition py_min (a b : Q) : Q := if Qlt_le_dec b a then b else a.

(** Python's [max(a, b)]. *)
Definition py_max (a b : Q) : Q := if Qlt_le_dec a b then b else a.

Definition compute_injury_adj (row : option SummaryRow) : Q :=
  match row with
  | None => 0%Q
  | Some row =>
      let adj := 0%Q in
      let adj :=
        if star_is_injured row then
          let dep := (star_dependency_pct row / 100)%Q in
          let bpm := star_player_bpm row in
          let bpm_factor := py_min (bpm / 4.0) 1.0 in
          let scale := if Qle_bool 0.50 dep then 0.12%Q else 0.07%Q in
          (adj - scale * bpm_factor * dep)%Q
        else adj in
      let total_inj := team_total_injury_bpm row in
      let total_bpm := if Qeq_bool (team_total_bpm row) 0 then 1%Q
                       else team_total_bpm row in
      let adj := (adj - 0.08 * py_min (total_inj / total_bpm) 0.5)%Q in
      py_round (clip adj (-0.15) 0.0) 4
  end.

Definition get_confidence (prob : Q) : string :=
  let p := py_max prob (1 - prob) in
  if Qle_bool 0.85 p then "lock"
  else if Qle_bool 0.72 p then "strong"
  else if Qle_bool 0.60 p then "lean"
  else if Qle_bool 0.52 p then "toss-up"
  else "coin-flip".

(** The dict built by [build_injury_ctx]; the keys that exist only when a
    summary row was found are options. *)
Record InjuryCtx : Type := mkInjuryCtx {
  ctx_team : string;
  ctx_has_injuries : bool;
  ctx_star_is_injured : bool;
  ctx_star_player : option string;
  ctx_star_player_bpm : option Q;
  ctx_star_dependency_pct : option Q;
  ctx_n_injured : Z;
  ctx_n_out : option Z;
  ctx_team_injury_bpm_lost : option Q;
  ctx_upset_vulnerability : Q;
  ctx_injured_players : list string
}.

(** [x < y] on floats. *)
Definition Qltb (x y : Q) : bool := negb (Qle_bool y x).

Definition compute_upset_flag_v2 (s1 s2 : Z) (prob : Q) (t1_ctx t2_ctx : InjuryCtx) : string :=
  let gap := Z.abs (s1 - s2) in
  let fav_prob := if s1 <=? s2 then prob else (1 - prob)%Q in
  let dog := Z.max s1 s2 in
  if ctx_star_is_injured t2_ctx && (3 <=? gap) then
    "🚨 INJURY UPSET: " +:+ ctx_team t2_ctx +:+ " missing "
      +:+ default "star" (ctx_star_player t2_ctx)
  else if ctx_star_is_injured t1_ctx && (3 <=? gap) then
    "⚠️ INJURY RISK: " +:+ ctx_team t1_ctx +:+ " missing "
      +:+ default "star" (ctx_star_player t1_ctx)
  else if Qltb fav_prob 0.50 then
    "🚨 UPSET ALERT: " +:+ pretty dog +:+ "-seed favored!"
  else if Qltb fav_prob 0.60 && (3 <=? gap) then
    "⚠️ UPSET WATCH: " +:+ pretty dog +:+ "-seed has a real shot"
  else if (4 <=? gap) && Qltb fav_prob 0.72 then
    "👀 SLEEPER: " +:+ pretty dog +:+ "-seed dangerous"
  else "chalk".

(** [str.lower] and [str.strip] follow the Unicode tables of the
    interpreter.  The functions of Step 2 that normalise a name take the
    two of them as arguments [lower] and [strip]; what is proved of them
    holds whatever the two functions are.  [ascii_lower] and [ascii_strip]
    are what they do on ASCII text (the letters A-Z; the blanks 9-13 and
    28-32), the text of the worked examples. *)
Definition is_space (c : ascii) : bool :=
  let n := nat_of_ascii c in
  ((9 <=? n)%nat && (n <=? 13)%nat) || ((28 <=? n)%nat && (n <=? 32)%nat).

Fixpoint lstrip (l : list ascii) : list ascii :=
  match l with
  | c :: l' => if is_space c then lstrip l' else l
  | [] => []
  end.

Definition ascii_strip (s : string) : string :=
  string_of_list_ascii (rev (lstrip (rev (lstrip (list_ascii_of_string s))))).

Definition lower_char (c : ascii) : ascii :=
  let n := nat_of_ascii c in
  if (65 <=? n)%nat && (n <=? 90)%nat then ascii_of_nat (n + 32) else c.

Definition ascii_lower (s : string) : string :=
  string_of_list_ascii (lower_char <$> list_ascii_of_string s).

(** [s.split(",")]. *)
Fixpoint split_commas (cur : list ascii) (l : list ascii) : list string :=
  match l with
  | [] => [string_of_list_ascii (rev cur)]
  | c :: l' =>
      if Ascii.eqb c ","%char
      then string_of_list_ascii (rev cur) :: split_commas [] l'
      else split_commas (c :: cur) l'
  end.

Definition nonempty (s : string) : bool :=
  match s with EmptyString => false | _ => true end.

Definition build_injury_ctx (strip : string -> string)
    (row : option SummaryRow) (team_name : string) : InjuryCtx :=
  match row with
  | None =>
      {| ctx_team := team_name; ctx_has_injuries := false; ctx_star_is_injured := false;
         ctx_star_player := None; ctx_star_player_bpm := None;
         ctx_star_dependency_pct := None; ctx_n_injured := 0; ctx_n_out := None;
         ctx_team_injury_bpm_lost := None; ctx_upset_vulnerability := 0%Q;
         ctx_injured_players := [] |}
  | Some row =>
      let inj_list :=
        strip <$> List.filter (fun s => nonempty (strip s))
                    (split_commas [] (list_ascii_of_string (injured_statuses row))) in
      {| ctx_team := team_name;
         ctx_has_injuries := 0 <? n_injured row;
         ctx_star_is_injured := star_is_injured row;
         ctx_star_player := Some (star_player row);
         ctx_star_player_bpm := Some (star_player_bpm row);
         ctx_star_dependency_pct := Some (star_dependency_pct row);
         ctx_n_injured := n_injured row;
         ctx_n_out := Some (n_out row);
         ctx_team_injury_bpm_lost := Some (team_total_injury_bpm row);
         ctx_upset_vulnerability := upset_vulnerability row;
         ctx_injured_players := inj_list |}
  end.

(** A prediction dict: the keys Step 2 reads or writes ([None]: key
    absent).  Keys Step 2 never touches and the free-text ['responses']
    entries are left out. *)
Record Prediction : Type := mkPrediction {
  t1_name : option string;
  t2_name : option string;
  t1_seed : option Z;
  t2_seed : option Z;
  model_win_prob : option Q;
  confidence : option string;
  upset_flag : option string;
  predicted_winner_name : option string;
  model_win_prob_original : option Q;
  injury_adjusted : option bool;
  t1_injury_adj : option Q;
  t2_injury_adj : option Q;
  t1_injury : option InjuryCtx;
  t2_injury : option InjuryCtx;
  pick_flipped_by_injury : option bool
}.

(** The body of the loop [for pred in predictions], given the two rows
    [r1] and [r2] found in [lookup]. *)
Definition patch_prediction (strip : string -> string)
    (r1 r2 : option SummaryRow) (pred : Prediction) : Prediction :=
  let t1_adj := compute_injury_adj r1 in
  let t2_adj := compute_injury_adj r2 in
  let base := default 0.5%Q (model_win_prob pred) in
  let adj := py_round (clip (base + t1_adj - t2_adj) 0.02 0.98) 5 in
  let t1_ctx := build_injury_ctx strip r1 (default "" (t1_name pred)) in
  let t2_ctx := build_injury_ctx strip r2 (default "" (t2_name pred)) in
  let flipped := negb (eqb (Qltb 0.5 adj) (Qltb 0.5 base)) in
  {| t1_name := t1_name pred;
     t2_name := t2_name pred;
     t1_seed := t1_seed pred;
     t2_seed := t2_seed pred;
     model_win_prob := Some adj;
     confidence := Some (get_confidence adj);
     upset_flag := Some (compute_upset_flag_v2 (default 8 (t1_seed pred))
                           (default 8 (t2_seed pred)) adj t1_ctx t2_ctx);
     predicted_winner_name :=
       if flipped then (if Qltb 0.5 adj then t1_name pred else t2_name pred)
       else predicted_winner_name pred;
     model_win_prob_original := Some base;
     injury_adjusted := Some (negb (Qeq_bool t1_adj 0.0) || negb (Qeq_bool t2_adj 0.0));
     t1_injury_adj := Some t1_adj;
     t2_injury_adj := Some t2_adj;
     t1_injury := Some t1_ctx;
     t2_injury := Some t2_ctx;
     pick_flipped_by_injury := Some flipped |}.

(** **** External fetches.  The answer of the network is an input: either
    [requests.get] raises, or it returns a response whose body may or may
    not decode as JSON. *)

Inductive exn : Type :=
| ConnectionError
| ReadTimeout
| HTTPError (status : Z)
| JSONDecodeError
| KeyError (key : string).

Definition Exc (A : Type) : Type := (exn + A)%type.

Definition raise {A : Type} (e : exn) : Exc A := inl e.
Definition ret {A : Type} (a : A) : Exc A := inr a.
Definition bind {A B : Type} (m : Exc A) (k : A -> Exc B) : Exc B :=
  match m with
  | inl e => inl e
  | inr a => k a
  end.

Notation "'try!' x := m 'in' k" := (bind m (fun x => k))
  (at level 10, x name, m at level 100, k at level 200).

Record Response (P : Type) : Type := mkResponse {
  status_code : Z;
  body : option P
}.
Arguments mkResponse {P} _ _.
Arguments status_code {P} _.
Arguments body {P} _.

Definition raise_for_status {P : Type} (resp : Response P) : Exc unit :=
  if (400 <=? status_code resp) && (status_code resp <? 600)
  then raise (HTTPError (status_code resp))
  else ret tt.

Definition resp_json {P : Type} (resp : Response P) : Exc P :=
  match body resp with
  | Some data => ret data
  | None => raise JSONDecodeError
  end.

(** The three statements every [try] block starts with. *)
Definition get_json {P : Type} (get : Exc (Response P)) : Exc P :=
  try! resp := get in
  try! ok := raise_for_status resp in
  resp_json resp.

(** **** [fetch_player_stats].  A player line of the payload, reduced to
    the columns the pipeline reads (numeric columns already coerced). *)
Record PlayerRaw : Type := mkPlayerRaw {
  raw_player : string;
  raw_team : string;
  raw_bpm : Q;
  raw_min_pct : Q;
  raw_usg : Q;
  raw_ppg : Q
}.

Record TeamDep : Type := mkTeamDep {
  dep_team : string;
  dep_team_total_bpm : Q;
  dep_star_player : string;
  dep_star_player_bpm : Q;
  dep_star_player_usg : Q;
  dep_star_player_ppg : Q;
  dep_star_dependency_pct : Q;
  dep_top2_dependency_pct : Q
}.

(** A row of the player frame after the merge with [team_dep]. *)
Record PlayerRow : Type := mkPlayerRow {
  player : string;
  player_team : string;
  p_bpm : Q;
  p_usg : Q;
  p_ppg : Q;
  weighted_bpm : Q;
  player_dep : TeamDep
}.

(** Stable insertion sorts: groups by ascending team name, players by
    descending [weighted_bpm]. *)
Fixpoint insert_team (t : string) (l : list string) : list string :=
  match l with
  | [] => [t]
  | h :: l' => if String.ltb t h then t :: h :: l'
               else if String.eqb t h then h :: l'
               else h :: insert_team t l'
  end.

Definition group_keys (teams : list string) : list string :=
  fold_right insert_team [] teams.

Fixpoint insert_desc {A : Type} (key : A -> Q) (x : A) (l : list A) : list A :=
  match l with
  | [] => [x]
  | h :: l' => if Qle_bool (key h) (key x) then x :: h :: l' else h :: insert_desc key x l'
  end.

Definition sort_desc {A : Type} (key : A -> Q) (l : list A) : list A :=
  fold_right (insert_desc key) [] l.

Definition Qsum_list (l : list Q) : Q := fold_right Qplus 0%Q l.

Definition raw_weighted (p : PlayerRaw) : Q := (raw_bpm p * (raw_min_pct p / 100))%Q.

Definition team_dep_row (data : list PlayerRaw) (team : string) : TeamDep :=
  let grp := List.filter (fun p => String.eqb (raw_team p) team) data in
  let s := sort_desc raw_weighted grp in
  let pos := List.filter (fun p => Qltb 0 (raw_weighted p)) s in
  let total := Qsum_list (raw_weighted <$> pos) in
  let top1 := match s with p :: _ => raw_weighted p | [] => 0%Q end in
  let top2 := match s with
              | p :: q :: _ => (raw_weighted p + raw_weighted q)%Q
              | _ => top1
              end in
  {| dep_team := team;
     dep_team_total_bpm := py_round total 3;
     dep_star_player := match s with p :: _ => raw_player p | [] => "" end;
     dep_star_player_bpm := py_round top1 3;
     dep_star_player_usg := match s with p :: _ => py_round (raw_usg p) 1 | [] => 0%Q end;
     dep_star_player_ppg := match s with p :: _ => py_round (raw_ppg p) 1 | [] => 0%Q end;
     dep_star_dependency_pct :=
       py_round (if Qltb 0 total then top1 / total * 100 else 50)%Q 1;
     dep_top2_dependency_pct :=
       py_round (if Qltb 0 total then top2 / total * 100 else 50)%Q 1 |}.

(** What follows the [try] block.  With no player line there is no team
    row, [team_dep] has no ['team'] column and the final merge raises. *)
Definition player_frames (data : list PlayerRaw) : Exc (list PlayerRow * list TeamDep) :=
  let team_dep := team_dep_row data <$> group_keys (raw_team <$> data) in
  match team_dep with
  | [] => raise (KeyError "team")
  | _ =>
      ret ((fun p => {| player := raw_player p; player_team := raw_team p;
                        p_bpm := raw_bpm p; p_usg := raw_usg p; p_ppg := raw_ppg p;
                        weighted_bpm := raw_weighted p;
                        player_dep := team_dep_row data (raw_team p) |}) <$> data,
           team_dep)
  end.

Definition fetch_player_stats (get : Exc (Response (list PlayerRaw))) :
    Exc (list PlayerRow * list TeamDep) :=
  match get_json get with
  | inl e => ret ([], [])
  | inr data => player_frames data
  end.

(** **** [fetch_injuries_espn].  An element of the payload that is not of
    the expected shape ([None]) makes the loop raise. *)
Record EspnInjury : Type := mkEspnInjury {
  athlete_displayName : string;
  athlete_position : string;
  status : string;
  details_type : string;
  details_detail : string;
  details_returnDate : string;
  shortComment : string
}.

Record EspnTeamEntry : Type := mkEspnTeamEntry {
  team_displayName : string;
  team_abbreviation : string;
  team_injuries : list (option EspnInjury)
}.

Record InjuryRecord : Type := mkInjuryRecord {
  team_espn : string;
  team_abbr : string;
  inj_player : string;
  position : string;
  injury_status : string;
  injury_type : string;
  injury_detail : string;
  return_date : string;
  short_comment : string
}.

(** The inner loop; the flag tells whether it raised. *)
Fixpoint collect_injuries (team_name abbr : string) (injs : list (option EspnInjury))
    (records : list InjuryRecord) : list InjuryRecord * bool :=
  match injs with
  | [] => (records, false)
  | None :: _ => (records, true)
  | Some inj :: rest =>
      collect_injuries team_name abbr rest
        (records ++ [ {| team_espn := team_name; team_abbr := abbr;
                         inj_player := athlete_displayName inj;
                         position := athlete_position inj;
                         injury_status := status inj;
                         injury_type := details_type inj;
                         injury_detail := details_detail inj;
                         return_date := details_returnDate inj;
                         short_comment := shortComment inj |} ])
  end.

(** The outer loop: whatever was appended before an exception stays in
    [records]. *)
Fixpoint collect_teams (entries : list (option EspnTeamEntry))
    (records : list InjuryRecord) : list InjuryRecord :=
  match entries with
  | [] => records
  | None :: _ => records
  | Some entry :: rest =>
      let '(records, raised) :=
        collect_injuries (team_displayName entry) (team_abbreviation entry)
                         (team_injuries entry) records in
      if raised then records else collect_teams rest records
  end.

Definition severity_map : list (string * Z) :=
  [ ("Out", 3); ("Doubtful", 2); ("Questionable", 2); ("Day-To-Day", 1); ("GTD", 1) ].

(** The returned frame: each record with its ['severity'] column. *)
Definition fetch_injuries_espn (get : Exc (Response (list (option EspnTeamEntry)))) :
    list (InjuryRecord * Z) :=
  let records :=
    match get_json get with
    | inl e => []
    | inr data => collect_teams data []
    end in
  (fun r => (r, default 1 (dict_get severity_map (injury_status r)))) <$> records.

(** **** [merge_injury_impact] *)

(** A row of the merged frame; [inj_severity = None] is the NaN left by the
    left join when no injury record matches the player. *)
Record MergedRow : Type := mkMergedRow {
  m_player : PlayerRow;
  m_injury_status : string;
  is_injured : bool;
  injury_severity : Z;
  injury_bpm_impact : Q
}.

Definition sev_weight : list (Z * Q) :=
  [ (3, 1.0%Q); (2, 0.5%Q); (1, 0.2%Q); (0, 0.0%Q) ].

Definition merged_row (p : PlayerRow) (injury_status : option string) (severity : option Z) :
    MergedRow :=
  let is_injured := match severity with Some s => 0 <? s | None => false end in
  let injury_severity := default 0 severity in
  {| m_player := p;
     m_injury_status := default "" injury_status;
     is_injured := is_injured;
     injury_severity := injury_severity;
     injury_bpm_impact :=
       if is_injured
       then py_round (weighted_bpm p * default 0%Q (dict_get sev_weight injury_severity)) 4
       else 0.0%Q |}.

Definition merge_injury_impact (lower strip : string -> string)
    (player_df : list PlayerRow) (injury_df : list (InjuryRecord * Z)) : list MergedRow :=
  match injury_df with
  | [] => (fun p => merged_row p (Some "") (Some 0)) <$> player_df
  | _ =>
      p ← player_df;
      match List.filter (fun i => String.eqb (strip (lower (inj_player i.1)))
                                             (strip (lower (player p)))) injury_df with
      | [] => [merged_row p None None]
      | matches => (fun i => merged_row p (Some (injury_status i.1)) (Some i.2)) <$> matches
      end
  end.

(** **** [build_team_summary] *)

Fixpoint join (sep : string) (l : list string) : string :=
  match l with
  | [] => ""
  | [s] => s
  | s :: l' => s +:+ sep +:+ join sep l'
  end.

Definition summary_row (merged : list MergedRow) (team_key : string) : SummaryRow :=
  let grp := List.filter (fun r => String.eqb (player_team (m_player r)) team_key) merged in
  let injured := List.filter is_injured grp in
  let top := sort_desc (fun r => weighted_bpm (m_player r)) grp in
  let star_injured := match top with star :: _ => is_injured star | [] => false end in
  let star_name := match top with star :: _ => player (m_player star) | [] => "" end in
  let first_dep := match grp with r :: _ => Some (player_dep (m_player r)) | [] => None end in
  let dep_pct := from_option dep_star_dependency_pct 50%Q first_dep in
  let total_injury_bpm := py_round (Qsum_list (injury_bpm_impact <$> injured)) 4 in
  let vulnerability :=
    py_round (clip (dep_pct * 0.4 + clip (total_injury_bpm * 10) 0 30
                    + (if star_injured then 1 else 0) * 30) 0 100)%Q 1 in
  {| team := team_key;
     star_player := from_option dep_star_player "" first_dep;
     star_player_bpm := from_option dep_star_player_bpm 0%Q first_dep;
     star_player_usg := from_option dep_star_player_usg 0%Q first_dep;
     star_player_ppg := from_option dep_star_player_ppg 0%Q first_dep;
     star_dependency_pct := dep_pct;
     top2_dependency_pct := from_option dep_top2_dependency_pct 50%Q first_dep;
     team_total_bpm := from_option dep_team_total_bpm 0%Q first_dep;
     star_is_injured := star_injured;
     n_injured := Z.of_nat (length injured);
     n_out := Z.of_nat (length (List.filter (fun r => injury_severity r =? 3) injured));
     n_questionable := Z.of_nat (length (List.filter (fun r => injury_severity r =? 2) injured));
     team_total_injury_bpm := total_injury_bpm;
     star_injury_bpm :=
       if star_injured
       then py_round (Qsum_list (injury_bpm_impact <$>
               List.filter (fun r => String.eqb (player (m_player r)) star_name) injured)) 4
       else 0.0%Q;
     injured_players_list := join ", " ((fun r => player (m_player r)) <$> injured);
     injured_statuses :=
       join ", " ((fun r => player (m_player r) +:+ " (" +:+ m_injury_status r +:+ ")")
                    <$> injured);
     upset_vulnerability := vulnerability |}.

Definition build_team_summary (merged : list MergedRow) (tournament_teams : list string) :
    list SummaryRow :=
  List.filter (fun row => bool_decide (team row ∈ tournament_teams))
    (summary_row merged <$> group_keys ((fun r => player_team (m_player r)) <$> merged)).

Definition TOURNAMENT_TEAMS : list string :=
  [ "Duke"; "Auburn"; "Iowa St."; "Florida"; "Tennessee"; "Michigan St.";
    "Texas Tech"; "Alabama"; "Ole Miss"; "Missouri"; "Kentucky"; "Arizona";
    "Oregon"; "Clemson"; "Kansas"; "Virginia"; "New Mexico"; "McNeese";
    "San Diego St."; "Saint Mary's"; "Vanderbilt"; "Yale"; "Baylor";
    "Illinois"; "Georgia"; "Mississippi St."; "Marquette"; "North Carolina";
    "UCLA"; "Michigan"; "Colorado"; "Louisville"; "Purdue"; "Oklahoma";
    "BYU"; "Wake Forest"; "Dayton"; "Memphis"; "Kansas St."; "Texas A&M";
    "Arkansas"; "UConn"; "St. John's"; "Creighton"; "Wisconsin"; "Oregon St.";
    "VCU"; "Nebraska"; "Texas"; "West Virginia"; "Notre Dame"; "Utah St.";
    "High Point"; "Bryant"; "Lipscomb"; "Montana"; "SIUE"; "American";
    "Robert Morris"; "Norfolk St."; "Wofford"; "Omaha"; "Stetson";
    "Longwood"; "SIU Edwardsville"; "Akron"; "Stephen F. Austin" ].

(** **** [run_step2] *)

(** [lookup.get(name)]: in the dict comprehension a later row replaces an
    earlier one with the same key. *)
Definition lookup_get (lower strip : string -> string)
    (team_summary : list SummaryRow) (name : string) : option SummaryRow :=
  List.find (fun row => String.eqb (strip (lower (team row))) name) (rev team_summary).

Definition depth_label (dep : Q) : string :=
  if Qle_bool 60 dep then "One-Man Show — very star dependent"
  else if Qle_bool 45 dep then "Star-Led — above average dependency"
  else if Qle_bool 30 dep then "Balanced — shared offensive load"
  else "Deep — distributed throughout roster".

(** The two entries Step 2 writes into a team profile. *)
Record OnOff : Type := mkOnOff {
  onoff_star_player : string;
  onoff_star_player_bpm : option Q;
  onoff_star_player_usg : option Q;
  onoff_star_player_ppg : option Q;
  onoff_star_dependency_pct : Q;
  onoff_top2_dependency_pct : option Q;
  onoff_team_total_bpm : option Q;
  onoff_depth_label : string
}.

Record ProfileInjuries : Type := mkProfileInjuries {
  pi_has_injuries : bool;
  pi_star_is_injured : bool;
  pi_n_injured : Z;
  pi_n_out : option Z;
  pi_injured_players : option string;
  pi_team_injury_bpm_lost : option Q;
  pi_upset_vulnerability : option Q
}.

Record Profile : Type := mkProfile {
  name : option string;
  onoff : option OnOff;
  injuries : option ProfileInjuries
}.

Definition patch_profile (lower strip : string -> string)
    (team_summary : list SummaryRow) (profile : Profile) : Profile :=
  let key := strip (lower (default "" (name profile))) in
  match lookup_get lower strip team_summary key with
  | Some row =>
      let dep := star_dependency_pct row in
      {| name := name profile;
         onoff := Some {| onoff_star_player := star_player row;
                          onoff_star_player_bpm := Some (star_player_bpm row);
                          onoff_star_player_usg := Some (star_player_usg row);
                          onoff_star_player_ppg := Some (star_player_ppg row);
                          onoff_star_dependency_pct := dep;
                          onoff_top2_dependency_pct := Some (top2_dependency_pct row);
                          onoff_team_total_bpm := Some (team_total_bpm row);
                          onoff_depth_label := depth_label dep |};
         injuries := Some {| pi_has_injuries := 0 <? n_injured row;
                             pi_star_is_injured := star_is_injured row;
                             pi_n_injured := n_injured row;
                             pi_n_out := Some (n_out row);
                             pi_injured_players := Some (injured_statuses row);
                             pi_team_injury_bpm_lost := Some (team_total_injury_bpm row);
                             pi_upset_vulnerability := Some (upset_vulnerability row) |} |}
  | None =>
      {| name := name profile;
         onoff := Some {| onoff_star_player := ""; onoff_star_player_bpm := None;
                          onoff_star_player_usg := None; onoff_star_player_ppg := None;
                          onoff_star_dependency_pct := 50%Q;
                          onoff_top2_dependency_pct := None; onoff_team_total_bpm := None;
                          onoff_depth_label := "Unknown" |};
         injuries := Some {| pi_has_injuries := false; pi_star_is_injured := false;
                             pi_n_injured := 0; pi_n_out := None;
                             pi_injured_players := None; pi_team_injury_bpm_lost := None;
                             pi_upset_vulnerability := None |} |}
  end.

(** The two JSON documents, reduced to the keys Step 2 reads or writes. *)
Record ChatbotData : Type := mkChatbotData {
  predictions : list Prediction;
  injury_data_included : option bool
}.

Record ProfilesData : Type := mkProfilesData {
  profiles : list Profile;
  profiles_injury_data_included : option bool
}.

(** [run_step2], the two network answers being inputs; the CSV and JSON
    files it writes and its printed report are not modelled. *)
Definition run_step2 (lower strip : string -> string)
    (player_get : Exc (Response (list PlayerRaw)))
    (injury_get : Exc (Response (list (option EspnTeamEntry))))
    (chatbot_data : ChatbotData) (profiles_data : ProfilesData) :
    Exc (ChatbotData * ProfilesData) :=
  try! fetched := fetch_player_stats player_get in
  let player_df := fetched.1 in
  let injury_df := fetch_injuries_espn injury_get in
  match player_df with
  | [] => ret (chatbot_data, profiles_data)
  | _ =>
      let merged_df := merge_injury_impact lower strip player_df injury_df in
      let team_summary := build_team_summary merged_df TOURNAMENT_TEAMS in
      let patch pred :=
        let t1 := strip (lower (default "" (t1_name pred))) in
        let t2 := strip (lower (default "" (t2_name pred))) in
        patch_prediction strip (lookup_get lower strip team_summary t1)
                         (lookup_get lower strip team_summary t2) pred in
      ret ({| predictions := patch <$> predictions chatbot_data;
              injury_data_included := Some true |},
           {| profiles := patch_profile lower strip team_summary <$> profiles profiles_data;
              profiles_injury_data_included := Some true |})
  end.


(** *** Step 1: matchup rows and export labels *)

(** The columns of a row of [td] written before the merges
    ([build_matchup_features], first loop, and the ['Round'] column). *)
Record BaseRow : Type := mkBaseRow {
  b_Season : Z;
  b_T1_TeamID : Z;
  b_T2_TeamID : Z;
  b_PointDiff : Z;
  b_T1_won : Z;
  b_DayNum : option Z;
  b_Round : Z
}.

(** [infer_round(day)]; [None] is a NaN day. *)
Definition infer_round (day : option Z) : Z :=
  match day with
  | None => 0
  | Some d =>
      if d <=? 135 then 1
      else if d <=? 137 then 2
      else if d <=? 139 then 3
      else if d <=? 141 then 4
      else if d <=? 143 then 5
      else 6
  end.

Definition matchup_base_row (g : Game) : BaseRow :=
  let w := WTeamID g in
  let l := LTeamID g in
  let t1 := Z.min w l in
  let t2 := Z.max w l in
  {| b_Season := Season g;
     b_T1_TeamID := t1;
     b_T2_TeamID := t2;
     b_PointDiff := if t1 =? w then WScore g - LScore g else LScore g - WScore g;
     b_T1_won := if t1 =? w then 1 else 0;
     b_DayNum := Some (DayNum g);
     b_Round := infer_round (Some (DayNum g)) |}.

(** [get_arch_edge(row)], given the two archetype labels of the row. *)
Definition get_arch_edge (arch_matrix : list (string * Cell)) (a1 a2 : string) : Q * Z :=
  let key := a1 +:+ "__vs__" +:+ a2 in
  match dict_get arch_matrix key with
  | Some entry => (win_rate entry, cell_total entry)
  | None => (0.5%Q, 0)
  end.

Definition get_confidence_tier (prob : Q) : string :=
  let p := py_max prob (1 - prob) in
  if Qle_bool 0.85 p then "LOCK"
  else if Qle_bool 0.72 p then "STRONG"
  else if Qle_bool 0.60 p then "LEAN"
  else if Qle_bool 0.52 p then "TOSS-UP"
  else "COIN FLIP".

Definition get_upset_flag (s1 s2 : Z) (prob : Q) : string :=
  let favorite_seed := Z.min s1 s2 in
  let underdog_seed := Z.max s1 s2 in
  let favorite_prob := if s1 <? s2 then prob else (1 - prob)%Q in
  if Qltb favorite_prob 0.50 then
    "🚨 UPSET ALERT: " +:+ pretty underdog_seed +:+ "-seed favored!"
  else if Qltb favorite_prob 0.60 then
    "⚠️ UPSET WATCH: " +:+ pretty underdog_seed +:+ "-seed has a real shot"
  else if (4 <=? underdog_seed - favorite_seed) && Qltb favorite_prob 0.70 then
    "👀 SLEEPER: " +:+ pretty underdog_seed +:+ "-seed dangerous"
  else "chalk".

End Unified.

(* --------------------------------------------------------------------- *)
(** ** Vocabulary of the statements, and sample inputs *)
(* --------------------------------------------------------------------- *)

(** Re-keying an ordered dict: [for k, v in d.items(): result[fk(k)] = fv(v)]. *)
Definition rekey {K K' V V' : Type} `{EqDecision K'} (fk : K -> K') (fv : V -> V')
    (d : list (K * V)) (r0 : list (K' * V')) : list (K' * V') :=
  fold_left (fun result kv => od_set (fk kv.1) (fv kv.2) result) d r0.

(** Whether a label contains the character the matrix keys are joined
    with. *)
Fixpoint has_underscore (s : string) : bool :=
  match s with
  | EmptyString => false
  | String c rest => if Ascii.eqb c "_"%char then true else has_underscore rest
  end.

(** [matrix[k]] as the [defaultdict] reads it. *)
Definition tally_val (m : list ((string * string) * Unified.Tally)) (k : string * string) :
    Unified.Tally :=
  default Unified.tally0 (dict_get m k).

(** The two labels [a1] and [a2] the loop reads from a row. *)
Definition row_a1 (row : Unified.TourneyRow) : string :=
  default "The Unknown" (Unified.T1_Archetype row).
Definition row_a2 (row : Unified.TourneyRow) : string :=
  default "The Unknown" (Unified.T2_Archetype row).

(** The invariant of the first loop. *)
Definition tally_inv (m : list ((string * string) * Unified.Tally)) : Prop :=
  NoDup m.*1 /\
  (forall A B,
      Unified.total (tally_val m (A, B)) = Unified.total (tally_val m (B, A)) /\
      Unified.wins (tally_val m (A, B)) + Unified.wins (tally_val m (B, A))
        = Unified.total (tally_val m (A, B))) /\
  (forall k, 0 <= Unified.total (tally_val m k)) /\
  (forall k, is_Some (dict_get m k) <-> 0 < Unified.total (tally_val m k)).

(** The archetype labels: the fixed label set and 'The Unknown', which
    [build_matchup_features] fills in for teams without a label. *)
Definition is_archetype (s : string) : Prop :=
  s ∈ "The Unknown" :: Unified.ARCHETYPE_LABELS.

(** Three tournament games between two archetypes. *)
Definition sample_tourney_df : list Unified.TourneyRow :=
  [ Unified.mkTourneyRow (Some "The Juggernaut") (Some "The Underdog") (Some 1);
    Unified.mkTourneyRow (Some "The Underdog") (Some "The Juggernaut") (Some 1);
    Unified.mkTourneyRow (Some "The Juggernaut") (Some "The Underdog") (Some 1) ].

(** A team's rating, an unseen team standing at the baseline. *)
Definition rating (base : Q) (elo : gmap Z Q) (t : Z) : Q := default base (elo !! t).

Definition Qsum (l : list Q) : Q := fold_right Qplus 0%Q l.

(** The sum of the ratings of a roster of teams. *)
Definition total_rating (base : Q) (elo : gmap Z Q) (teams : list Z) : Q :=
  Qsum (rating base elo <$> teams).

(** The two assignments [elo[w] += u; elo[l] -= u]. *)
Definition settle (base : Q) (w l : Z) (u : Q) (elo : gmap Z Q) : gmap Z Q :=
  let e1 := <[w := (rating base elo w + u)%Q]> elo in
  <[l := (rating base e1 l - u)%Q]> e1.

(** A home win of team 1101 over the unseen team 1102. *)
Definition sample_game : Game :=
  mkGame 2024 10 1101 70 1102 60 "H" (fun _ => 0) (fun _ => 0).

(** Ratings before that game, and the roster of the two teams. *)
Definition sample_elo : gmap Z Q := {[ 1101 := 1600%Q ]}.

Definition sample_teams : list Z := [1101; 1102].

(** The per-team penalty: the magnitude of the (non-positive) adjustment. *)
Definition penalty (row : option Unified.SummaryRow) : Q :=
  (- Unified.compute_injury_adj row)%Q.

(** A prediction as Step 1 exports it: probability 0.500004, seeds 8 and 9. *)
Definition sample_prediction : Unified.Prediction :=
  Unified.mkPrediction (Some "Duke") (Some "Yale") (Some 8) (Some 9) (Some 0.500004%Q)
    (Some "COIN FLIP") (Some "chalk") (Some "Duke")
    None None None None None None None.

(** The same matchup exported twice: the base probability written as two
    fractions of equal value, the stale tier, flag and winner differing. *)
Definition sample_prediction_again : Unified.Prediction :=
  Unified.mkPrediction (Some "Duke") (Some "Yale") (Some 8) (Some 9) (Some (125001 # 250000)%Q)
    (Some "LOCK") (Some "stale") (Some "Yale")
    (Some 0.9%Q) None None None None None None.

(** A team whose star, worth 60 % of its production, is out. *)
Definition sample_row : Unified.SummaryRow :=
  Unified.mkSummaryRow "duke" "C. Flagg" 8 30 19 60 80 10 true 1 1 0 2 2
    "C. Flagg" "C. Flagg (Out)" 50.


(** The two documents Step 1 hands to Step 2. *)
Definition sample_chatbot_data : Unified.ChatbotData :=
  Unified.mkChatbotData [sample_prediction] None.

Definition sample_profiles_data : Unified.ProfilesData :=
  Unified.mkProfilesData [Unified.mkProfile (Some "Duke") None None] None.

(** Every rate statistic of a [V2] feature record is a finite number. *)
Definition features_finite (f : V2.Features) : Prop :=
  is_finite (V2.win_ratio f) /\ is_finite (V2.avg_score f) /\
  is_finite (V2.avg_allowed f) /\ is_finite (V2.avg_margin f) /\
  is_finite (V2.fg_pct f) /\ is_finite (V2.fg3_pct f) /\ is_finite (V2.ft_pct f) /\
  is_finite (V2.efg f) /\ is_finite (V2.opp_efg f) /\ is_finite (V2.to_rate f) /\
  is_finite (V2.or_pct f) /\ is_finite (V2.dr_pct f) /\ is_finite (V2.ast_rate f) /\
  is_finite (V2.ft_rate f) /\ is_finite (V2.three_rate f) /\ is_finite (V2.blk_stl f) /\
  is_finite (V2.off_eff f) /\ is_finite (V2.def_eff f) /\ is_finite (V2.net_eff f) /\
  is_finite (V2.pyth f) /\ is_finite (V2.recent_wr f).

(** Well-formed results: no negative score. *)
Definition scores_nonneg (games : list Game) : Prop :=
  Forall (fun g => 0 <= WScore g /\ 0 <= LScore g) games.

(** A matchup frame with one row of season 2024 and one of season 2025. *)
Definition row_2024 : Unified.TdRow := Unified.mkTdRow 2024 1101 1102 10 1 [0.5%Q].
Definition row_2025 : Unified.TdRow := Unified.mkTdRow 2025 1101 1102 (-3) 0 [0.5%Q].
Definition sample_td : list Unified.TdRow := [row_2024; row_2025].

(** A regular-season game of the target season 2025. *)
Definition game_2025 : Game :=
  mkGame 2025 20 1101 70 1102 60 "N" (fun _ => 0) (fun _ => 0).

(** Learners that return the data they were handed. *)
Definition transcript_xgb (dtrain dtest : list Unified.TdRow) :
    list Unified.TdRow * list Unified.TdRow := (dtrain, dtest).
Definition transcript_fit (train : list Unified.TdRow) : list Unified.TdRow := train.

(** The ratings are balanced around [base]: every roster without
    duplicates that holds all the rated teams has mean rating [base]. *)
Definition balanced (base : Q) (elo : gmap Z Q) : Prop :=
  forall teams, NoDup teams -> (forall t, is_Some (elo !! t) -> t ∈ teams) ->
    (total_rating base elo teams == base * inject_Z (Z.of_nat (length teams)))%Q.

(** The rows of one season of a rating frame. *)
Definition season_rows (s : Z) (frame : list Unified.EloRow) : list Unified.EloRow :=
  filter (fun r => Unified.er_Season r = s) frame.

(** Two regular-season games of 2024 between three teams. *)
Definition sample_season : list Game :=
  [ mkGame 2024 10 1101 70 1102 60 "H" (fun _ => 0) (fun _ => 0);
    mkGame 2024 12 1103 81 1101 80 "N" (fun _ => 0) (fun _ => 0) ].

Definition sample_roster : list Z := [1101; 1102; 1103; 1104].

(** The sample season followed by a game of the backtest season 2025. *)
Definition sample_season_and_2025 : list Game := sample_season ++ [game_2025].

(** A matchup frame that stops before the backtest season 2025. *)
Definition sample_td_early : list Unified.TdRow :=
  [ Unified.mkTdRow 2022 1101 1102 4 1 [0.5%Q]; Unified.mkTdRow 2023 1101 1103 (-2) 0 [0.5%Q];
    Unified.mkTdRow 2023 1102 1103 7 1 [0.5%Q] ].

(** The tiers and tempo styles, numbered from the best rank down. *)
Definition tier_index (t : Unified.Tier) : Z :=
  match t with
  | Unified.Elite => 0 | Unified.Good => 1 | Unified.Average => 2
  | Unified.BelowAverage => 3 | Unified.Weak => 4
  end.

Definition tempo_index (t : Unified.TempoStyle) : Z :=
  match t with Unified.Fast => 0 | Unified.Medium => 1 | Unified.Slow => 2 end.

(** The outcome the matrix reads from a row is 0 or 1. *)
Definition outcome_is_bit (row : Unified.TourneyRow) : Prop :=
  default 0 (Unified.T1_won row) = 0 \/ default 0 (Unified.T1_won row) = 1.

(** The wins of every entry of the tally lie between 0 and its total. *)
Definition tally_bounded (m : list ((string * string) * Unified.Tally)) : Prop :=
  forall k, 0 <= Unified.wins (tally_val m k) <= Unified.total (tally_val m k).

(** Every derived statistic of a [Unified] season row is a finite number. *)
Definition agg_finite (row : Unified.AggRow) : Prop :=
  is_finite (Unified.win_pct row) /\ is_finite (Unified.ppg row) /\
  is_finite (Unified.opp_ppg row) /\ is_finite (Unified.point_diff row) /\
  is_finite (Unified.pyth row) /\ is_finite (Unified.possessions row) /\
  is_finite (Unified.off_eff row) /\ is_finite (Unified.def_eff row) /\
  is_finite (Unified.net_eff row) /\ is_finite (Unified.efg_pct row) /\
  is_finite (Unified.to_rate row) /\ is_finite (Unified.ft_rate row) /\
  is_finite (Unified.oreb_pct row) /\ is_finite (Unified.three_rate row) /\
  is_finite (Unified.ast_rate row) /\ is_finite (Unified.blk_rate row) /\
  is_finite (Unified.stl_rate row) /\ is_finite (Unified.tempo row).

(** The statistics of a [Unified] season row other than the win and loss
    counts and the win percentage. *)
Definition efficiency_stats (row : Unified.AggRow) : list num :=
  [ Unified.ppg row; Unified.opp_ppg row; Unified.point_diff row; Unified.pyth row;
    Unified.possessions row; Unified.off_eff row; Unified.def_eff row; Unified.net_eff row;
    Unified.efg_pct row; Unified.to_rate row; Unified.ft_rate row; Unified.oreb_pct row;
    Unified.three_rate row; Unified.ast_rate row; Unified.blk_rate row;
    Unified.stl_rate row; Unified.tempo row ].

(** The games a team won, and the games it lost, in a season. *)
Definition games_won (regular : list Game) (season team : Z) : list Game :=
  filter (fun g => Season g = season /\ WTeamID g = team) regular.

Definition games_lost (regular : list Game) (season team : Z) : list Game :=
  filter (fun g => Season g = season /\ LTeamID g = team) regular.

(** The team of a game: its winner or its loser. *)
Definition plays_in (tid : Z) (g : Game) : Prop := WTeamID g = tid \/ LTeamID g = tid.

(** Team 1101 after the sample game, and after the same game followed by
    a loss to team 1103. *)
Definition sample_win_and_loss : list Game :=
  [ sample_game; mkGame 2024 12 1103 81 1101 80 "N" (fun _ => 0) (fun _ => 0) ].

(** The nine KenPom columns of a matchup. *)
Definition KP_FEATURES : list string :=
  [ "kp_adjoe_diff"; "kp_adjde_diff"; "kp_adjem_diff"; "kp_tempo_diff";
    "kp_t1_off_vs_t2_def"; "kp_t2_off_vs_t1_def"; "kp_t1_adjem"; "kp_t2_adjem";
    "kp_rank_diff" ].

(** The columns of a matchup that are differences T1 - T2. *)
Definition DIFF_FEATURES : list string :=
  [ "seed_diff"; "elo_diff"; "margin_diff"; "off_eff_diff"; "def_eff_diff";
    "net_eff_diff"; "efg_diff"; "pyth_diff"; "kp_adjoe_diff"; "kp_adjde_diff";
    "kp_adjem_diff"; "kp_tempo_diff"; "kp_rank_diff" ].

(** The columns of a matchup that describe one team, paired with the
    column that describes the other team the same way. *)
Definition TEAM_FEATURES : list (string * string) :=
  [ ("t1_win_ratio", "t2_win_ratio"); ("t1_avg_margin", "t2_avg_margin");
    ("t1_off_eff", "t2_off_eff"); ("t1_def_eff", "t2_def_eff");
    ("t1_net_eff", "t2_net_eff"); ("t1_efg", "t2_efg"); ("t1_opp_efg", "t2_opp_efg");
    ("t1_to_rate", "t2_to_rate"); ("t1_or_pct", "t2_or_pct"); ("t1_dr_pct", "t2_dr_pct");
    ("t1_ft_rate", "t2_ft_rate"); ("t1_three_rate", "t2_three_rate");
    ("t1_blk_stl", "t2_blk_stl"); ("t1_pyth", "t2_pyth"); ("t1_recent_wr", "t2_recent_wr");
    ("kp_t1_off_vs_t2_def", "kp_t2_off_vs_t1_def"); ("kp_t1_adjem", "kp_t2_adjem") ].

(** [x] and [y] are present and opposite numbers (or both NaN). *)
Definition opposite (x y : option num) : Prop :=
  match x, y with
  | Some (Some a), Some (Some b) => (a == - b)%Q
  | Some None, Some None => True
  | _, _ => False
  end.

(** A tournament game of 2024 won by the team with the higher id. *)
Definition sample_tourney_game : Game :=
  mkGame 2024 136 1200 75 1100 70 "N" (fun _ => 0) (fun _ => 0).

(** The confidence labels of [V2], numbered from the weakest. *)
Definition confidence_index (c : string) : Z :=
  if String.eqb c "tossup" then 0
  else if String.eqb c "slight" then 1
  else if String.eqb c "lean" then 2
  else if String.eqb c "confident" then 3
  else 4.

(** The confidence tiers of Step 2 with the tier Step 1 writes for the
    same band. *)
Definition TIER_NAMES : list (string * string) :=
  [ ("lock", "LOCK"); ("strong", "STRONG"); ("lean", "LEAN"); ("toss-up", "TOSS-UP");
    ("coin-flip", "COIN FLIP") ].

(** The key a prediction is looked up by: its ordered pair of team ids. *)
Definition pred_key (p : V2.Pred) : Z * Z := (V2.pred_t1_id p, V2.pred_t2_id p).

(** Three seeds of 2025 (team 1200 listed twice) and one of 2024. *)
Definition sample_seeds : list V2.SeedRow :=
  [ V2.mkSeedRow 2025 1200 1; V2.mkSeedRow 2025 1100 16; V2.mkSeedRow 2025 1300 8;
    V2.mkSeedRow 2025 1200 1; V2.mkSeedRow 2024 1400 2 ].

(** The state the scoring loop starts from. *)
Definition score0 : V2.ScoreState := V2.mkScoreState 0 0 0%Q 0 0 [].

(** The wrong picks among the entries of [results_detail]. *)
Definition wrong_picks (details : list V2.Detail) : list V2.Detail :=
  List.filter (fun r => negb (V2.detail_correct r)) details.

(** The invariant of the scoring loop after at most [n] predictions. *)
Definition score_inv (n : Z) (st : V2.ScoreState) : Prop :=
  0 <= V2.correct st <= V2.total st /\ V2.total st <= n /\
  0 <= V2.upsets_detected st <= V2.upsets_total st /\
  V2.upsets_total st <= V2.total st /\
  Z.of_nat (length (wrong_picks (V2.results_detail st))) = V2.total st - V2.correct st /\
  (0 <= V2.brier_sum st)%Q.

(** Every stored probability is a probability. *)
Definition probs_in_unit (predictions : list V2.Pred) : Prop :=
  Forall (fun p => (0 <= V2.model_win_prob p /\ V2.model_win_prob p <= 1)%Q) predictions.

(** A prediction reduced to the keys the scoring reads. *)
Definition sample_pred (t1 t2 s1 s2 : Z) (prob : Q) (flag : string) : V2.Pred :=
  V2.mkPred 2025 t1 t2 "" "" s1 s2 prob prob prob 0 0 0.5 "lean" flag true "".

(** Two predictions and the 2025 tournament game that settles the first. *)
Definition sample_predictions : list V2.Pred :=
  [ sample_pred 1100 1200 16 1 0.3 "chalk"; sample_pred 1100 1300 16 8 0.6 "upset" ].

Definition sample_trn : list Game :=
  [ mkGame 2025 136 1200 75 1100 70 "N" (fun _ => 0) (fun _ => 0) ].

(** Whether the pick of a prediction is right for a result, as both
    scoring loops decide it. *)
Definition pick_ok (p : V2.Pred) (result : V2.Actual) : bool :=
  eqb (V2.Qlt_bool 0.5 (V2.model_win_prob p)) (V2.winner result =? V2.pred_t1_id p).

(** What a prediction adds to [correct]. *)
Definition correct_of (actual : list ((Z * Z) * V2.Actual)) (p : V2.Pred) : Z :=
  match dict_get actual (pred_key p) with
  | Some result => if pick_ok p result then 1 else 0
  | None => 0
  end.

(** What a played game adds to the ESPN score, in units of 10 points. *)
Definition espn_of (predictions : list V2.Pred) (kv : (Z * Z) * V2.Actual) : Z :=
  match List.find (fun p => (V2.pred_t1_id p =? kv.1.1) && (V2.pred_t2_id p =? kv.1.2))
                  predictions with
  | Some pred =>
      if eqb (V2.Qlt_bool 0.5 (V2.model_win_prob pred)) (V2.winner kv.2 =? kv.1.1)
      then 1 else 0
  | None => 0
  end.

(** The name a player or an injury record is matched by. *)
Definition name_key (lower strip : string -> string) (s : string) : string :=
  strip (lower s).

(** An injury feed that lists one player under a status the severity map
    does not know. *)
Definition sample_feed : Unified.Exc (Unified.Response (list (option Unified.EspnTeamEntry))) :=
  inr (Unified.mkResponse 200
         (Some [ Some (Unified.mkEspnTeamEntry "Duke" "DUKE"
                         [ Some (Unified.mkEspnInjury "C. Flagg" "F" "Probable"
                                   "Ankle" "" "" "") ]) ])).

(** Two players of one team. *)
Definition sample_team_dep : Unified.TeamDep :=
  Unified.mkTeamDep "Duke" 10 "C. Flagg" 6 30 19 60 90.

Definition sample_player_df : list Unified.PlayerRow :=
  [ Unified.mkPlayerRow "c. flagg " "Duke" 8 30 19 6 sample_team_dep;
    Unified.mkPlayerRow "K. Knueppel" "Duke" 5 22 14 3 sample_team_dep ].

(** What Step 2 writes into a prediction [pred'] made from [pred] when
    neither team is penalised. *)
Definition unpenalised (pred pred' : Unified.Prediction) : Prop :=
  let base := default 0.5%Q (Unified.model_win_prob pred) in
  Unified.model_win_prob pred' = Some (py_round (clip base 0.02 0.98) 5) /\
  Unified.model_win_prob_original pred' = Some base /\
  Unified.injury_adjusted pred' = Some false /\
  (exists a, Unified.t1_injury_adj pred' = Some a /\ (a == 0)%Q) /\
  (exists a, Unified.t2_injury_adj pred' = Some a /\ (a == 0)%Q).

(** A summary row without any injury. *)
Definition healthy (row : Unified.SummaryRow) : Prop :=
  Unified.star_is_injured row = false /\ Unified.n_injured row = 0 /\
  (Unified.team_total_injury_bpm row == 0)%Q.

(** A player payload with two players of one tournament team. *)
Definition sample_player_get : Unified.Exc (Unified.Response (list Unified.PlayerRaw)) :=
  inr (Unified.mkResponse 200
         (Some [ Unified.mkPlayerRaw "C. Flagg" "Duke" 8 80 30 19;
                 Unified.mkPlayerRaw "K. Knueppel" "Duke" 5 75 22 14 ])).

(** An injury feed that lists the star of the sample payload as out. *)
Definition sample_feed_out :
    Unified.Exc (Unified.Response (list (option Unified.EspnTeamEntry))) :=
  inr (Unified.mkResponse 200
         (Some [ Some (Unified.mkEspnTeamEntry "Duke Blue Devils" "DUKE"
                         [ Some (Unified.mkEspnInjury "C. Flagg" "F" "Out"
                                   "Ankle" "" "" "") ]) ])).

(** The document of Step 1 for one matchup: Duke, seed 4, is given a
    chance of 0.65 against Yale, seed 13. *)
Definition sample_step1_data : Unified.ChatbotData :=
  Unified.mkChatbotData
    [ Unified.mkPrediction (Some "Duke") (Some "Yale") (Some 4) (Some 13) (Some 0.65%Q)
        (Some "LEAN") (Some "chalk") (Some "Duke") None None None None None None None ]
    None.

(** What a document says of each matchup: the probability it calls the
    original one, the adjusted probability and the predicted winner. *)
Definition audit_trail (doc : Unified.ChatbotData) :
    list (option Q * option Q * option string) :=
  (fun pred => (Unified.model_win_prob_original pred, Unified.model_win_prob pred,
                Unified.predicted_winner_name pred)) <$> Unified.predictions doc.

(* ===================================================================== *)
(** *                  Part II: lemmas and theorems                       *)
(* ===================================================================== *)

(** ** Seed-implied probability *)

Lemma dict_get_diag_none (d : list ((Z * Z) * Q)) (s : Z) :
  Forall (fun e => fst (fst e) <> snd (fst e)) d -> dict_get d (s, s) = None.
Proof.
  induction 1 as [|[[a b] v] d Hab _ IH]; simpl; [reflexivity|].
  destruct (decide ((a, b) = (s, s))) as [E|_]; [|exact IH].
  inversion E; subst. simpl in Hab. congruence.
Qed.

Lemma V2_seed_probs_offdiag :
  Forall (fun e => fst (fst e) <> snd (fst e)) V2.seed_probs.
Proof. unfold V2.seed_probs. repeat constructor; simpl; lia. Qed.

Lemma Unified_seed_rates_offdiag :
  Forall (fun e => fst (fst e) <> snd (fst e)) Unified.SEED_WIN_RATES.
Proof. unfold Unified.SEED_WIN_RATES. repeat constructor; simpl; lia. Qed.

Lemma V2_seed_reverse (a b : Z) :
  (V2.seed_implied_prob a b + V2.seed_implied_prob b a == 1)%Q.
Proof.
  unfold V2.seed_implied_prob.
  destruct (Z.ltb_spec a b) as [Hab|Hab]; destruct (Z.ltb_spec b a) as [Hba|Hba];
    try lia.
  - rewrite (Z.min_comm b a), (Z.max_comm b a). lra.
  - rewrite (Z.min_comm b a), (Z.max_comm b a). lra.
  - lra.
Qed.

Lemma Unified_seed_reverse (a b : Z) :
  (Unified.get_seed_prob (Some a) (Some b) + Unified.get_seed_prob (Some b) (Some a) == 1)%Q.
Proof.
  cbv [Unified.get_seed_prob default from_option id].
  destruct (Z.leb_spec a b) as [Hab|Hab]; destruct (Z.leb_spec b a) as [Hba|Hba];
    try lia.
  - assert (a = b) by lia; subst b.
    rewrite Z.min_id, Z.max_id.
    rewrite (dict_get_diag_none _ _ Unified_seed_rates_offdiag). lra.
  - rewrite (Z.min_comm b a), (Z.max_comm b a). lra.
  - rewrite (Z.min_comm b a), (Z.max_comm b a). lra.
Qed.

(** A reversed query: the 12 seed against the 5 seed. *)
Example V2_seed_12_vs_5 : (V2.seed_implied_prob 12 5 == 1 - 0.654)%Q.
Proof. reflexivity. Qed.

Example Unified_seed_unmapped_pair : (Unified.get_seed_prob (Some 5%Z) (Some 9%Z) == 0.5)%Q.
Proof. reflexivity. Qed.

(** C5. Seed-implied probability algebra, for both pipelines: the pair
    (1,16) yields the configured constant 0.993, every equal-seed pair
    yields exactly 0.5, and the values of a query and of its reversed
    query add up to exactly 1. *)
Theorem seed_implied_probability_algebra :
  (V2.seed_implied_prob 1 16 == 0.993)%Q /\
  (Unified.get_seed_prob (Some 1%Z) (Some 16%Z) == 0.993)%Q /\
  (forall s, V2.seed_implied_prob s s == 0.5)%Q /\
  (forall s, Unified.get_seed_prob (Some s) (Some s) == 0.5)%Q /\
  (forall a b, V2.seed_implied_prob a b + V2.seed_implied_prob b a == 1)%Q /\
  (forall a b, Unified.get_seed_prob (Some a) (Some b)
               + Unified.get_seed_prob (Some b) (Some a) == 1)%Q.
Proof.
  split; [reflexivity|].
  split; [reflexivity|].
  split.
  { intros s. unfold V2.seed_implied_prob. rewrite Z.ltb_irrefl. reflexivity. }
  split.
  { intros s. cbv [Unified.get_seed_prob default from_option id].
    rewrite Z.leb_refl, Z.min_id, Z.max_id.
    rewrite (dict_get_diag_none _ _ Unified_seed_rates_offdiag). reflexivity. }
  split; [exact V2_seed_reverse | exact Unified_seed_reverse].
Qed.

(** ** Archetype classifier *)

Lemma archetype_of_tiers_labelled (off_tier def_tier : Unified.Tier) (tempo : Unified.TempoStyle) :
  Unified.archetype_of_tiers off_tier def_tier tempo ∈ Unified.ARCHETYPE_LABELS /\
  Unified.archetype_of_tiers off_tier def_tier tempo <> "The Unknown".
Proof.
  destruct off_tier, def_tier, tempo;
    (split; [apply (bool_decide_unpack _); vm_compute; exact I
            | vm_compute; discriminate]).
Qed.

Lemma get_tier_onto (t : Unified.Tier) :
  exists rank, Unified.get_tier rank Unified.TIER_THRESHOLDS = t.
Proof.
  destruct t.
  - exists (Some 1%Q); reflexivity.
  - exists (Some 50%Q); reflexivity.
  - exists (Some 100%Q); reflexivity.
  - exists (Some 200%Q); reflexivity.
  - exists (Some 300%Q); reflexivity.
Qed.

Lemma get_tempo_onto (t : Unified.TempoStyle) :
  exists rank, Unified.get_tempo rank = t.
Proof.
  destruct t.
  - exists (Some 1%Q); reflexivity.
  - exists (Some 200%Q); reflexivity.
  - exists (Some 300%Q); reflexivity.
Qed.

(** C4. Archetype assignment is total: each of the 5 x 5 x 3 tier triples
    is produced by some row of ranks, is sent to one label of the fixed
    label set and never to 'The Unknown'; the triples missing from the
    table are exactly served by the three Weak-tier fallbacks; and every
    row of ranks (NaN included) therefore receives a label of the set. *)
Theorem archetype_assignment_total :
  (forall off_tier def_tier tempo,
      Unified.archetype_of_tiers off_tier def_tier tempo ∈ Unified.ARCHETYPE_LABELS /\
      Unified.archetype_of_tiers off_tier def_tier tempo <> "The Unknown") /\
  (forall off_tier def_tier tempo,
      exists row,
        Unified.get_tier (Unified.RankAdjOE row) Unified.TIER_THRESHOLDS = off_tier /\
        Unified.get_tier (Unified.RankAdjDE row) Unified.TIER_THRESHOLDS = def_tier /\
        Unified.get_tempo (Unified.RankAdjTempo row) = tempo /\
        Unified.assign_archetype row = Unified.archetype_of_tiers off_tier def_tier tempo) /\
  (forall row,
      Unified.assign_archetype row ∈ Unified.ARCHETYPE_LABELS /\
      Unified.assign_archetype row <> "The Unknown") /\
  (forall off_tier def_tier tempo,
      dict_get Unified.ARCHETYPE_MAP (off_tier, def_tier, tempo) = None ->
      Unified.archetype_of_tiers off_tier def_tier tempo =
        if bool_decide (off_tier = Unified.Weak) && bool_decide (def_tier = Unified.Weak)
        then "The Cinderella Hopeful"
        else if bool_decide (off_tier = Unified.Weak) then "The Defense-First"
        else "The Offense-Only").
Proof.
  split; [exact archetype_of_tiers_labelled|].
  split.
  { intros off_tier def_tier tempo.
    destruct (get_tier_onto off_tier) as [ro Ho].
    destruct (get_tier_onto def_tier) as [rd Hd].
    destruct (get_tempo_onto tempo) as [rt Ht].
    exists (Unified.mkRankRow ro rd rt). unfold Unified.assign_archetype; simpl.
    rewrite Ho, Hd, Ht. auto. }
  split.
  { intros row. unfold Unified.assign_archetype. apply archetype_of_tiers_labelled. }
  intros off_tier def_tier tempo.
  destruct off_tier, def_tier, tempo; vm_compute; intros H;
    first [discriminate H | reflexivity].
Qed.

(** The theorem has a hypothesis in its last part; this instance runs it on
    the unmapped triple (Weak, Average, Fast). *)
Lemma archetype_assignment_total_witness :
  Unified.archetype_of_tiers Unified.Weak Unified.Average Unified.Fast = "The Defense-First".
Proof.
  exact (proj2 (proj2 (proj2 archetype_assignment_total))
           Unified.Weak Unified.Average Unified.Fast eq_refl).
Defined.

(** ** Ordered dictionaries *)

Section OrderedDict.
Context {K V : Type} `{EqDecision K}.

Lemma dict_get_od_alter (f : V -> V) (dflt : V) (k k' : K) (d : list (K * V)) :
  dict_get (od_alter f dflt k d) k' =
  if decide (k = k') then Some (f (default dflt (dict_get d k))) else dict_get d k'.
Proof.
  induction d as [|[k0 v] d IH]; simpl.
  - destruct (decide (k = k')); reflexivity.
  - destruct (decide (k0 = k)) as [->|Hne]; simpl.
    + destruct (decide (k = k')); reflexivity.
    + rewrite IH. destruct (decide (k0 = k')) as [->|Hne'].
      * destruct (decide (k = k')); [congruence|reflexivity].
      * reflexivity.
Qed.

Lemma od_alter_keys (f : V -> V) (dflt : V) (k : K) (d : list (K * V)) :
  (od_alter f dflt k d).*1 = if decide (k ∈ d.*1) then d.*1 else d.*1 ++ [k].
Proof.
  induction d as [|[k0 v] d IH]; [reflexivity|].
  cbn [od_alter]. rewrite (fmap_cons fst (k0, v) d). cbn [fst].
  destruct (decide (k0 = k)) as [->|Hne].
  - rewrite fmap_cons. cbn [fst].
    destruct (decide (k ∈ k :: d.*1)) as [_|Hn]; [reflexivity|].
    exfalso; apply Hn; left.
  - rewrite fmap_cons, IH. cbn [fst].
    destruct (decide (k ∈ d.*1)) as [Hin|Hnin];
      destruct (decide (k ∈ k0 :: d.*1)) as [Hin'|Hnin']; try reflexivity.
    + exfalso; apply Hnin'; right; exact Hin.
    + exfalso. apply elem_of_cons in Hin' as [E|Hin']; [congruence|contradiction].
Qed.

Lemma od_alter_NoDup (f : V -> V) (dflt : V) (k : K) (d : list (K * V)) :
  NoDup d.*1 -> NoDup (od_alter f dflt k d).*1.
Proof.
  intros Hnd. rewrite od_alter_keys.
  destruct (decide (k ∈ d.*1)) as [Hin|Hnin]; [exact Hnd|].
  apply NoDup_app. split; [exact Hnd|]. split.
  - intros x Hx Hx'. apply list_elem_of_singleton in Hx'. subst; auto.
  - apply NoDup_singleton.
Qed.

Lemma dict_get_Some_key (d : list (K * V)) (k : K) (v : V) :
  dict_get d k = Some v -> k ∈ d.*1.
Proof.
  induction d as [|[k0 v0] d IH]; simpl; [discriminate|].
  destruct (decide (k0 = k)) as [->|Hne]; intros Hg.
  - left.
  - right. auto.
Qed.

Lemma dict_get_None_key (d : list (K * V)) (k : K) :
  dict_get d k = None -> k ∉ d.*1.
Proof.
  induction d as [|[k0 v0] d IH]; simpl.
  - intros _ Hin; inversion Hin.
  - destruct (decide (k0 = k)) as [->|Hne]; [discriminate|].
    intros Hg Hin. apply list_elem_of_In in Hin. destruct Hin as [E|Hin]; [congruence|].
    apply (IH Hg), list_elem_of_In, Hin.
Qed.

End OrderedDict.

(** Re-keying an ordered dict through a function that is injective on the
    keys in play: the second loop of [build_matchup_matrix]. *)
Section Rekey.
Context {K K' V V' : Type} `{EqDecision K} `{EqDecision K'}.
Variables (fk : K -> K') (fv : V -> V').

Lemma rekey_get (S : K -> Prop) (d : list (K * V)) (r0 : list (K' * V')) (k : K) :
  (forall a b, S a -> S b -> fk a = fk b -> a = b) ->
  S k -> Forall S d.*1 -> NoDup d.*1 ->
  dict_get (rekey fk fv d r0) (fk k) =
  match dict_get d k with
  | Some v => Some (fv v)
  | None => dict_get r0 (fk k)
  end.
Proof.
  intros Hinj Hk. unfold rekey. revert r0.
  induction d as [|[k0 v0] d IH]; intros r0 HS Hnd; simpl; [reflexivity|].
  simpl in HS, Hnd. apply Forall_cons in HS as [HS0 HS].
  apply NoDup_cons in Hnd as [Hnin Hnd].
  rewrite (IH _ HS Hnd).
  destruct (decide (k0 = k)) as [->|Hne].
  - destruct (dict_get d k) as [v|] eqn:Hg.
    + exfalso. apply Hnin. eapply dict_get_Some_key; eauto.
    + unfold od_set. rewrite dict_get_od_alter.
      destruct (decide (fk k = fk k)); [reflexivity|congruence].
  - destruct (dict_get d k); [reflexivity|].
    unfold od_set. rewrite dict_get_od_alter.
    destruct (decide (fk k0 = fk k)) as [E|_]; [|reflexivity].
    exfalso. apply Hne. apply Hinj; auto.
Qed.

End Rekey.

(** ** Archetype matchup matrix *)

Lemma append_nil_l (t : string) : "" +:+ t = t.
Proof. reflexivity. Qed.

Lemma append_cons (a : ascii) (s t : string) : String a s +:+ t = String a (s +:+ t).
Proof. reflexivity. Qed.

Lemma matchup_key_inj (A B C D : string) :
  has_underscore A = false -> has_underscore C = false ->
  Unified.matchup_key (A, B) = Unified.matchup_key (C, D) -> (A, B) = (C, D).
Proof.
  unfold Unified.matchup_key; cbn [fst snd]. revert C.
  induction A as [|a A IH]; intros [|c C] HA HC E;
    rewrite ?append_cons, ?append_nil_l in E; cbn [has_underscore] in HA, HC.
  - inversion E; reflexivity.
  - inversion E; subst c. discriminate.
  - inversion E; subst a. discriminate.
  - inversion E as [[Ec E']]; subst c.
    destruct (Ascii.eqb a "_"%char); [discriminate|].
    specialize (IH C HA HC E'). inversion IH; reflexivity.
Qed.

Lemma archetype_labels_no_underscore :
  Forall (fun s => has_underscore s = false) ("The Unknown" :: Unified.ARCHETYPE_LABELS).
Proof. repeat constructor. Qed.

Lemma tally_val_alter f k k' m :
  tally_val (od_alter f Unified.tally0 k m) k' =
  if decide (k = k') then f (tally_val m k) else tally_val m k'.
Proof.
  unfold tally_val. rewrite dict_get_od_alter.
  destruct (decide (k = k')); reflexivity.
Qed.

Lemma tally_row_val m row k :
  tally_val (Unified.tally_row m row) k =
  let won := default 0 (Unified.T1_won row) in
  let e := tally_val m k in
  let e := if decide ((row_a1 row, row_a2 row) = k)
           then Unified.add_wins won (Unified.add_total 1 e) else e in
  if decide ((row_a2 row, row_a1 row) = k)
  then Unified.add_wins (1 - won) (Unified.add_total 1 e) else e.
Proof.
  unfold Unified.tally_row. fold (row_a1 row) (row_a2 row).
  cbv zeta. rewrite !tally_val_alter.
  repeat (destruct (decide _)); try congruence; reflexivity.
Qed.

Lemma tally_row_present m row k :
  is_Some (dict_get (Unified.tally_row m row) k) <->
  (row_a1 row, row_a2 row) = k \/ (row_a2 row, row_a1 row) = k \/ is_Some (dict_get m k).
Proof.
  unfold Unified.tally_row. fold (row_a1 row) (row_a2 row).
  cbv zeta. rewrite !dict_get_od_alter.
  repeat (destruct (decide _)); subst; split; intros; eauto; try tauto.
Qed.

Lemma tally_inv_nil : tally_inv [].
Proof.
  split; [constructor|]. split; [intros; split; reflexivity|].
  split; [intros; simpl; lia|].
  intros k; simpl; split; [intros [? ?]; discriminate | unfold tally_val; simpl; lia].
Qed.

Lemma tally_inv_row m row : tally_inv m -> tally_inv (Unified.tally_row m row).
Proof.
  intros (Hnd & Hsym & Hnn & Hpres).
  split.
  { unfold Unified.tally_row. cbv zeta. do 4 apply od_alter_NoDup. exact Hnd. }
  split.
  { intros A B. rewrite !tally_row_val. cbv zeta.
    destruct (Hsym A B) as [Ht Hw].
    repeat (destruct (decide _)); simplify_eq; simpl; try lia;
      try (destruct (Hsym A A); lia). }
  split.
  { intros k. rewrite tally_row_val. cbv zeta. specialize (Hnn k).
    repeat (destruct (decide _)); simpl; lia. }
  intros k. rewrite tally_row_present, tally_row_val. cbv zeta.
  specialize (Hnn k). specialize (Hpres k).
  repeat (destruct (decide _)); simpl; split; intros; try tauto; try lia.
Qed.

Lemma tally_inv_fold rows m :
  tally_inv m -> tally_inv (fold_left Unified.tally_row rows m).
Proof.
  revert m. induction rows as [|row rows IH]; intros m Hm; simpl; [exact Hm|].
  apply IH, tally_inv_row, Hm.
Qed.

Lemma tally_keys_fold (P : string -> Prop) rows m :
  Forall (fun row => P (row_a1 row) /\ P (row_a2 row)) rows ->
  Forall (fun k => P k.1 /\ P k.2) m.*1 ->
  Forall (fun k => P k.1 /\ P k.2) (fold_left Unified.tally_row rows m).*1.
Proof.
  intros Hrows. revert m.
  induction Hrows as [|row rows [H1 H2] _ IH]; intros m Hm; simpl; [exact Hm|].
  apply IH. unfold Unified.tally_row. fold (row_a1 row) (row_a2 row). cbv zeta.
  assert (Hstep : forall f k d, (P k.1 /\ P k.2) ->
            Forall (fun k : string * string => P k.1 /\ P k.2) d.*1 ->
            Forall (fun k : string * string => P k.1 /\ P k.2)
                   (od_alter f Unified.tally0 k d).*1).
  { intros f k d Hk Hd. rewrite od_alter_keys.
    destruct (decide (k ∈ d.*1)); [exact Hd|].
    apply Forall_app; split; [exact Hd|]. repeat constructor; tauto. }
  repeat apply Hstep; simpl; auto.
Qed.

Lemma build_matchup_matrix_get tourney_df (A B : string) :
  Forall (fun row => has_underscore (row_a1 row) = false /\
                     has_underscore (row_a2 row) = false) tourney_df ->
  has_underscore A = false -> has_underscore B = false ->
  dict_get (Unified.build_matchup_matrix tourney_df) (Unified.matchup_key (A, B)) =
  Unified.with_win_rate <$> dict_get (fold_left Unified.tally_row tourney_df []) (A, B).
Proof.
  intros Hrows HA HB. unfold Unified.build_matchup_matrix.
  pose proof (tally_inv_fold tourney_df [] tally_inv_nil) as (Hnd & _).
  pose proof (tally_keys_fold (fun s => has_underscore s = false) tourney_df []
                Hrows ltac:(constructor)) as Hkeys.
  assert (Hinj : forall a b : string * string,
             has_underscore a.1 = false /\ has_underscore a.2 = false ->
             has_underscore b.1 = false /\ has_underscore b.2 = false ->
             Unified.matchup_key a = Unified.matchup_key b -> a = b).
  { intros [a1 a2] [b1 b2] [Ha _] [Hb _] E. apply matchup_key_inj; assumption. }
  pose proof (rekey_get Unified.matchup_key Unified.with_win_rate
                (fun k => has_underscore k.1 = false /\ has_underscore k.2 = false)
                (fold_left Unified.tally_row tourney_df []) [] (A, B)
                Hinj (conj HA HB) Hkeys Hnd) as Hr.
  unfold rekey in Hr. rewrite Hr.
  destruct (dict_get (fold_left Unified.tally_row tourney_df []) (A, B)); reflexivity.
Qed.

Lemma win_rates_complementary (w w' t : Z) :
  0 < t -> w + w' = t -> (inject_Z w / inject_Z t + inject_Z w' / inject_Z t == 1)%Q.
Proof.
  intros Ht Hw.
  assert (Hne : ~ (inject_Z t == 0)%Q).
  { unfold Qeq; simpl. lia. }
  assert (Hsum : (inject_Z w + inject_Z w' == inject_Z t)%Q).
  { rewrite <- inject_Z_plus, Hw. reflexivity. }
  unfold Qdiv. rewrite <- Qmult_plus_distr_l, Hsum. apply Qmult_inv_r, Hne.
Qed.

(** Complementarity for any labels that do not contain the character of
    the key separator. *)
Lemma matchup_matrix_complementarity_general
    (tourney_df : list Unified.TourneyRow) (A B : string) (cAB : Unified.Cell) :
  Forall (fun row => has_underscore (row_a1 row) = false /\
                     has_underscore (row_a2 row) = false) tourney_df ->
  has_underscore A = false -> has_underscore B = false ->
  dict_get (Unified.build_matchup_matrix tourney_df) (Unified.matchup_key (A, B)) = Some cAB ->
  0 < Unified.cell_total cAB /\
  (exists cBA,
      dict_get (Unified.build_matchup_matrix tourney_df) (Unified.matchup_key (B, A)) = Some cBA /\
      Unified.cell_total cBA = Unified.cell_total cAB /\
      Unified.cell_wins cAB + Unified.cell_wins cBA = Unified.cell_total cAB /\
      (Unified.win_rate cAB + Unified.win_rate cBA == 1)%Q) /\
  (A = B -> (Unified.win_rate cAB == 1 # 2)%Q).
Proof.
  intros Hrows HA HB Hget.
  rewrite build_matchup_matrix_get in Hget by assumption.
  pose proof (tally_inv_fold tourney_df [] tally_inv_nil) as (_ & Hsym & _ & Hpres).
  set (m := fold_left Unified.tally_row tourney_df []) in *.
  destruct (dict_get m (A, B)) as [e|] eqn:HeAB; [|discriminate].
  simpl in Hget. injection Hget as <-.
  assert (HvAB : tally_val m (A, B) = e) by (unfold tally_val; rewrite HeAB; reflexivity).
  assert (Hpos : 0 < Unified.total e).
  { rewrite <- HvAB. apply Hpres. rewrite HeAB. eexists; reflexivity. }
  destruct (Hsym A B) as [Htot Hwins]. rewrite HvAB in Htot, Hwins.
  assert (HsBA : is_Some (dict_get m (B, A))) by (apply Hpres; lia).
  destruct HsBA as [e' HeBA].
  assert (HvBA : tally_val m (B, A) = e') by (unfold tally_val; rewrite HeBA; reflexivity).
  rewrite HvBA in Htot, Hwins.
  assert (Hrate : (Unified.win_rate (Unified.with_win_rate e)
                   + Unified.win_rate (Unified.with_win_rate e') == 1)%Q).
  { unfold Unified.with_win_rate; simpl. rewrite <- Htot.
    destruct (Z.ltb_spec 0 (Unified.total e)) as [_|Hle]; [|lia].
    apply win_rates_complementary; assumption. }
  split; [exact Hpos|]. split.
  - exists (Unified.with_win_rate e'). split.
    + rewrite build_matchup_matrix_get by assumption. fold m. rewrite HeBA. reflexivity.
    + simpl. repeat split; auto.
  - intros ->. replace e' with e in Hrate by congruence.
    revert Hrate. generalize (Unified.win_rate (Unified.with_win_rate e)).
    intros q Hq. lra.
Qed.

Lemma is_archetype_no_underscore (s : string) : is_archetype s -> has_underscore s = false.
Proof.
  intros Hs. pose proof archetype_labels_no_underscore as H.
  rewrite Forall_forall in H. apply H, Hs.
Qed.

(** C10. In every matrix returned by [build_matchup_matrix] on rows
    labelled with archetypes, an entry recorded for the pair (A,B) has at
    least one game and comes with an entry for (B,A) that has the same
    total and the complementary wins, so the two win rates add up to 1;
    and an entry for (A,A) has win rate exactly 0.5. *)
Theorem matchup_matrix_complementarity
    (tourney_df : list Unified.TourneyRow) (A B : string) (cAB : Unified.Cell) :
  Forall (fun row => is_archetype (row_a1 row) /\ is_archetype (row_a2 row)) tourney_df ->
  is_archetype A -> is_archetype B ->
  dict_get (Unified.build_matchup_matrix tourney_df) (Unified.matchup_key (A, B)) = Some cAB ->
  0 < Unified.cell_total cAB /\
  (exists cBA,
      dict_get (Unified.build_matchup_matrix tourney_df) (Unified.matchup_key (B, A)) = Some cBA /\
      Unified.cell_total cBA = Unified.cell_total cAB /\
      Unified.cell_wins cAB + Unified.cell_wins cBA = Unified.cell_total cAB /\
      (Unified.win_rate cAB + Unified.win_rate cBA == 1)%Q) /\
  (A = B -> (Unified.win_rate cAB == 1 # 2)%Q).
Proof.
  intros Hrows HA HB. apply matchup_matrix_complementarity_general.
  - eapply Forall_impl; [exact Hrows|]. intros row [H1 H2].
    split; apply is_archetype_no_underscore; assumption.
  - apply is_archetype_no_underscore, HA.
  - apply is_archetype_no_underscore, HB.
Qed.

Lemma matchup_matrix_complementarity_witness :
  dict_get (Unified.build_matchup_matrix sample_tourney_df)
           (Unified.matchup_key ("The Juggernaut", "The Underdog"))
    = Some (Unified.mkCell 2 3 (2 # 3)) /\
  exists cBA,
    dict_get (Unified.build_matchup_matrix sample_tourney_df)
             (Unified.matchup_key ("The Underdog", "The Juggernaut")) = Some cBA /\
    Unified.cell_total cBA = 3 /\
    2 + Unified.cell_wins cBA = 3 /\
    ((2 # 3) + Unified.win_rate cBA == 1)%Q.
Proof.
  split; [reflexivity|].
  refine (proj1 (proj2 (matchup_matrix_complementarity sample_tourney_df
            "The Juggernaut" "The Underdog" (Unified.mkCell 2 3 (2 # 3)) _ _ _ _))).
  - repeat constructor; apply (bool_decide_unpack _); vm_compute; exact I.
  - apply (bool_decide_unpack _); vm_compute; exact I.
  - apply (bool_decide_unpack _); vm_compute; exact I.
  - reflexivity.
Defined.

(** ** Rating engine *)

Lemma rating_insert_base (base : Q) (elo : gmap Z Q) (a t : Z) :
  elo !! a = None -> rating base (<[a := base]> elo) t = rating base elo t.
Proof.
  intros Ha. unfold rating. destruct (decide (a = t)) as [->|Hne].
  - rewrite lookup_insert_eq, Ha. reflexivity.
  - rewrite lookup_insert_ne by assumption. reflexivity.
Qed.

Lemma settle_rating (base : Q) (w l : Z) (u : Q) (elo : gmap Z Q) (t : Z) :
  (rating base (settle base w l u elo) t ==
   rating base elo t + (if decide (t = w) then u else 0)
                     - (if decide (t = l) then u else 0))%Q.
Proof.
  unfold settle, rating.
  destruct (decide (t = l)) as [->|Hl].
  - rewrite lookup_insert_eq. simpl.
    destruct (decide (l = w)) as [->|Hw].
    + rewrite lookup_insert_eq. simpl. lra.
    + rewrite lookup_insert_ne by congruence. lra.
  - rewrite lookup_insert_ne by congruence.
    destruct (decide (t = w)) as [->|Hw].
    + rewrite lookup_insert_eq. simpl. lra.
    + rewrite lookup_insert_ne by congruence. lra.
Qed.

Lemma Qsum_indicator (a : Z) (u : Q) (ts : list Z) :
  NoDup ts ->
  (Qsum ((fun t => if decide (t = a) then u else 0) <$> ts) ==
   if decide (a ∈ ts) then u else 0)%Q.
Proof.
  unfold Qsum. induction 1 as [|t ts Hnin Hnd IH].
  - destruct (decide (a ∈ [])) as [Hin|_]; [inversion Hin|reflexivity].
  - rewrite fmap_cons. cbn [fold_right]. rewrite IH.
    destruct (decide (t = a)) as [->|Hne].
    + destruct (decide (a ∈ ts)); [contradiction|].
      destruct (decide (a ∈ a :: ts)) as [_|Hn]; [lra|]. exfalso; apply Hn; left.
    + destruct (decide (a ∈ ts)) as [Hin|Hnin'];
        destruct (decide (a ∈ t :: ts)) as [Hin'|Hnin'']; try lra.
      * exfalso; apply Hnin''; right; exact Hin.
      * exfalso. apply elem_of_cons in Hin' as [E|Hin']; [congruence|contradiction].
Qed.

Lemma Qsum_pointwise (f g h k : Z -> Q) (ts : list Z) :
  (forall t, f t == g t + h t - k t)%Q ->
  (Qsum (f <$> ts) == Qsum (g <$> ts) + Qsum (h <$> ts) - Qsum (k <$> ts))%Q.
Proof.
  intros Hf. unfold Qsum. induction ts as [|t ts IH]; [simpl; lra|].
  rewrite !fmap_cons. cbn [fold_right]. rewrite IH, (Hf t). lra.
Qed.

Lemma settle_total (base : Q) (w l : Z) (u : Q) (elo : gmap Z Q) (ts : list Z) :
  NoDup ts -> w ∈ ts -> l ∈ ts ->
  (total_rating base (settle base w l u elo) ts == total_rating base elo ts)%Q.
Proof.
  intros Hnd Hw Hl. unfold total_rating.
  rewrite (Qsum_pointwise _ (rating base elo)
             (fun t => if decide (t = w) then u else 0%Q)
             (fun t => if decide (t = l) then u else 0%Q))
    by (intros t; apply settle_rating).
  rewrite !Qsum_indicator by assumption.
  destruct (decide (w ∈ ts)); [|contradiction].
  destruct (decide (l ∈ ts)); [|contradiction]. lra.
Qed.

Lemma V2_play_game_settle pow10 ln (elo : gmap Z Q) (g : Game) :
  let elo0 := V2.init_team (LTeamID g) (V2.init_team (WTeamID g) elo) in
  V2.play_game pow10 ln elo g =
  settle 1500 (WTeamID g) (LTeamID g) (V2.game_update pow10 ln elo0 g) elo0.
Proof. reflexivity. Qed.

Lemma V2_init_team_rating (a : Z) (elo : gmap Z Q) (t : Z) :
  rating 1500 (V2.init_team a elo) t = rating 1500 elo t.
Proof.
  unfold V2.init_team. destruct (elo !! a) eqn:Ha; [reflexivity|].
  apply rating_insert_base, Ha.
Qed.

Lemma Unified_play_game_settle pow10 ln (elo : gmap Z Q) (g : Game) :
  let elo0 := Unified.touch (WTeamID g) (Unified.touch (LTeamID g) elo) in
  Unified.play_game pow10 ln elo g =
  settle Unified.ELO_BASE (WTeamID g) (LTeamID g) (Unified.game_update pow10 ln elo0 g) elo0.
Proof. reflexivity. Qed.

Lemma Unified_touch_rating (a : Z) (elo : gmap Z Q) (t : Z) :
  rating Unified.ELO_BASE (Unified.touch a elo) t = rating Unified.ELO_BASE elo t.
Proof.
  unfold Unified.touch. destruct (elo !! a) eqn:Ha; [reflexivity|].
  apply rating_insert_base, Ha.
Qed.

Lemma total_rating_ext (base : Q) (e1 e2 : gmap Z Q) (ts : list Z) :
  (forall t, rating base e1 t = rating base e2 t) ->
  total_rating base e1 ts = total_rating base e2 ts.
Proof.
  intros H. unfold total_rating. f_equal. apply list_fmap_ext. intros _ t _. apply H.
Qed.

(** The sample game with [10 ** x] and [np.log] both read as 1: the
    expected score is 1/2, the margin multiplier 2.2 / 2.3, the update
    32 * (2.2 / 2.3) / 2. *)
Example V2_sample_game_update :
  let elo' := V2.play_game (fun _ => 1%Q) (fun _ => 1%Q) sample_elo sample_game in
  (rating 1500 elo' 1101 == 1600 + (352 # 23))%Q /\
  (rating 1500 elo' 1102 == 1500 - (352 # 23))%Q.
Proof. split; vm_compute; reflexivity. Qed.

(** C2. Zero-sum rating updates, in both pipelines and for every game:
    with [u] the update computed for the game, the winner's rating moves
    by [+u] and the loser's by [-u] (an unseen team standing at the
    baseline), no other rating moves, and the sum of the ratings of any
    roster that holds both teams is unchanged. *)
Theorem elo_update_zero_sum (pow10 ln : Q -> Q) (elo : gmap Z Q) (g : Game) :
  let w := WTeamID g in
  let l := LTeamID g in
  (let u := V2.game_update pow10 ln (V2.init_team l (V2.init_team w elo)) g in
   let elo' := V2.play_game pow10 ln elo g in
   (w <> l -> (rating 1500 elo' w == rating 1500 elo w + u)%Q /\
              (rating 1500 elo' l == rating 1500 elo l - u)%Q) /\
   (forall t, t <> w -> t <> l -> (rating 1500 elo' t == rating 1500 elo t)%Q) /\
   (forall teams, NoDup teams -> w ∈ teams -> l ∈ teams ->
                  (total_rating 1500 elo' teams == total_rating 1500 elo teams)%Q)) /\
  (let base := Unified.ELO_BASE in
   let u := Unified.game_update pow10 ln (Unified.touch w (Unified.touch l elo)) g in
   let elo' := Unified.play_game pow10 ln elo g in
   (w <> l -> (rating base elo' w == rating base elo w + u)%Q /\
              (rating base elo' l == rating base elo l - u)%Q) /\
   (forall t, t <> w -> t <> l -> (rating base elo' t == rating base elo t)%Q) /\
   (forall teams, NoDup teams -> w ∈ teams -> l ∈ teams ->
                  (total_rating base elo' teams == total_rating base elo teams)%Q)).
Proof.
  intros w l. split.
  - intros u elo'. subst elo' u w l. rewrite V2_play_game_settle. cbv zeta.
    set (elo0 := V2.init_team (LTeamID g) (V2.init_team (WTeamID g) elo)).
    assert (H0 : forall t, rating 1500 elo0 t = rating 1500 elo t).
    { intros t. unfold elo0. rewrite !V2_init_team_rating. reflexivity. }
    split; [|split].
    + intros Hne. split; rewrite settle_rating, H0.
      * destruct (decide (WTeamID g = WTeamID g)); [|congruence].
        destruct (decide (WTeamID g = LTeamID g)); [congruence|]. lra.
      * destruct (decide (LTeamID g = WTeamID g)); [congruence|].
        destruct (decide (LTeamID g = LTeamID g)); [|congruence]. lra.
    + intros t Hw Hl. rewrite settle_rating, H0.
      destruct (decide (t = WTeamID g)); [congruence|].
      destruct (decide (t = LTeamID g)); [congruence|]. lra.
    + intros teams Hnd Hw Hl. rewrite settle_total by assumption.
      rewrite (total_rating_ext _ _ _ teams H0). reflexivity.
  - intros base u elo'. subst elo' u base w l. rewrite Unified_play_game_settle. cbv zeta.
    set (elo0 := Unified.touch (WTeamID g) (Unified.touch (LTeamID g) elo)).
    assert (H0 : forall t, rating Unified.ELO_BASE elo0 t = rating Unified.ELO_BASE elo t).
    { intros t. unfold elo0. rewrite !Unified_touch_rating. reflexivity. }
    split; [|split].
    + intros Hne. split; rewrite settle_rating, H0.
      * destruct (decide (WTeamID g = WTeamID g)); [|congruence].
        destruct (decide (WTeamID g = LTeamID g)); [congruence|]. lra.
      * destruct (decide (LTeamID g = WTeamID g)); [congruence|].
        destruct (decide (LTeamID g = LTeamID g)); [|congruence]. lra.
    + intros t Hw Hl. rewrite settle_rating, H0.
      destruct (decide (t = WTeamID g)); [congruence|].
      destruct (decide (t = LTeamID g)); [congruence|]. lra.
    + intros teams Hnd Hw Hl. rewrite settle_total by assumption.
      rewrite (total_rating_ext _ _ _ teams H0). reflexivity.
Qed.

Lemma elo_update_zero_sum_witness :
  NoDup sample_teams /\
  (total_rating 1500 (V2.play_game (fun _ => 1%Q) (fun _ => 1%Q) sample_elo sample_game)
                sample_teams
   == total_rating 1500 sample_elo sample_teams)%Q.
Proof.
  assert (Hnd : NoDup sample_teams) by (apply (bool_decide_unpack _); vm_compute; exact I).
  split; [exact Hnd|].
  refine (proj2 (proj2 (proj1 (elo_update_zero_sum (fun _ => 1%Q) (fun _ => 1%Q)
                                 sample_elo sample_game))) sample_teams Hnd _ _).
  - apply (bool_decide_unpack _); vm_compute; exact I.
  - apply (bool_decide_unpack _); vm_compute; exact I.
Defined.

Lemma V2_compute_elo_step pow10 ln (reg : list Game) (s : Z) :
  2003 <= s ->
  V2.compute_elo pow10 ln reg s =
  V2.play_season pow10 ln reg (V2.compute_elo pow10 ln reg (s - 1)) s.
Proof.
  intros Hs. unfold V2.compute_elo.
  replace (s + 1 - 2003) with ((s - 1 + 1 - 2003) + 1) by lia.
  rewrite seqZ_app by lia. rewrite fold_left_app.
  rewrite (seqZ_cons _ 1) by lia. rewrite (seqZ_nil _ (Z.pred 1)) by lia.
  simpl. f_equal. lia.
Qed.

(** C7. Season-boundary regression.  In both pipelines the decay constant
    lies strictly between 0 and 1; the ratings a season's games start from
    are the previous ratings with every known team replaced by
    baseline + decay * (rating - baseline) (baseline 1500, decay 0.75 in
    [V2]; [ELO_BASE], [ELO_DECAY] in [Unified]); regression creates no
    team; and a team unseen so far is entered at exactly the baseline. *)
Theorem season_boundary_regression (pow10 ln : Q -> Q) :
  ((0 < 0.75 /\ 0.75 < 1) /\ (0 < Unified.ELO_DECAY /\ Unified.ELO_DECAY < 1))%Q /\
  (forall reg s, 2003 <= s ->
     V2.compute_elo pow10 ln reg s =
     fold_left (V2.play_game pow10 ln) (sort_by_day (games_of_season reg s))
               (V2.regress_toward_mean (V2.compute_elo pow10 ln reg (s - 1)))) /\
  (forall (elo : gmap Z Q) t r, elo !! t = Some r ->
     exists r', V2.regress_toward_mean elo !! t = Some r' /\
                (r' == 1500 + 0.75 * (r - 1500))%Q) /\
  (forall (elo : gmap Z Q) t, elo !! t = None ->
     V2.regress_toward_mean elo !! t = None /\
     V2.init_team t elo !! t = Some 1500%Q) /\
  (forall regular backtest_season season rest elo season_elos,
     season < backtest_season ->
     Unified.season_loop pow10 ln regular backtest_season (season :: rest) elo season_elos =
     let elo' := fold_left (Unified.play_game pow10 ln)
                           (sort_by_day (games_of_season regular season))
                           (Unified.regress_toward_base elo) in
     Unified.season_loop pow10 ln regular backtest_season rest elo'
                         (season_elos ++ Unified.snapshot season elo')) /\
  (forall regular backtest_season,
     exists elo season_elos,
       Unified.season_loop pow10 ln regular backtest_season
                           (Unified.seasons_of regular) ∅ [] = (elo, season_elos) /\
       Unified.compute_elo pow10 ln regular backtest_season =
       season_elos ++ Unified.snapshot backtest_season (Unified.regress_toward_base elo)) /\
  (forall (elo : gmap Z Q) t r, elo !! t = Some r ->
     exists r', Unified.regress_toward_base elo !! t = Some r' /\
                (r' == Unified.ELO_BASE + Unified.ELO_DECAY * (r - Unified.ELO_BASE))%Q) /\
  (forall (elo : gmap Z Q) t, elo !! t = None ->
     Unified.regress_toward_base elo !! t = None /\
     Unified.touch t elo !! t = Some Unified.ELO_BASE).
Proof.
  split.
  { unfold Unified.ELO_DECAY. repeat split; lra. }
  split.
  { intros reg s Hs. rewrite V2_compute_elo_step by assumption. reflexivity. }
  split.
  { intros elo t r Ht. unfold V2.regress_toward_mean. rewrite lookup_fmap, Ht. simpl.
    eexists; split; [reflexivity|]. lra. }
  split.
  { intros elo t Ht. unfold V2.regress_toward_mean, V2.init_team.
    rewrite lookup_fmap, Ht. simpl. split; [reflexivity|]. apply lookup_insert_eq. }
  split.
  { intros regular bs season rest elo rows Hlt. simpl.
    destruct (Z.leb_spec bs season); [lia|reflexivity]. }
  split.
  { intros regular bs. unfold Unified.compute_elo.
    destruct (Unified.season_loop pow10 ln regular bs (Unified.seasons_of regular) ∅ [])
      as [elo rows]. exists elo, rows. split; reflexivity. }
  split.
  { intros elo t r Ht. unfold Unified.regress_toward_base. rewrite lookup_fmap, Ht. simpl.
    eexists; split; [reflexivity|]. lra. }
  intros elo t Ht. unfold Unified.regress_toward_base, Unified.touch.
  rewrite lookup_fmap, Ht. simpl. split; [reflexivity|]. apply lookup_insert_eq.
Qed.

Lemma season_boundary_regression_witness :
  sample_elo !! 1101 = Some 1600%Q /\
  exists r', V2.regress_toward_mean sample_elo !! 1101 = Some r' /\
             (r' == 1500 + 0.75 * (1600 - 1500))%Q.
Proof.
  assert (H : sample_elo !! 1101 = Some 1600%Q) by reflexivity.
  split; [exact H|].
  exact (proj1 (proj2 (proj2 (season_boundary_regression (fun _ => 1%Q) (fun _ => 1%Q))))
           sample_elo 1101 1600%Q H).
Defined.

(** *** [Unified.compute_elo] reads earlier seasons only *)

Lemma insert_season_elem (s x : Z) (l : list Z) :
  x ∈ Unified.insert_season s l <-> x = s \/ x ∈ l.
Proof.
  induction l as [|h t IH]; simpl.
  - rewrite list_elem_of_singleton. split; [auto|]. intros [?|H]; [auto|inversion H].
  - destruct (Z.ltb_spec s h).
    + rewrite !elem_of_cons. tauto.
    + destruct (Z.eqb_spec s h) as [->|Hne].
      * rewrite !elem_of_cons. tauto.
      * rewrite !elem_of_cons, IH. tauto.
Qed.

Lemma insert_season_sorted (s : Z) (l : list Z) :
  StronglySorted Z.lt l -> StronglySorted Z.lt (Unified.insert_season s l).
Proof.
  induction 1 as [|h t Hs IH Hh]; simpl.
  - repeat constructor.
  - destruct (Z.ltb_spec s h).
    + constructor; [constructor; assumption|].
      constructor; [assumption|]. eapply Forall_impl; [exact Hh|]. simpl; lia.
    + destruct (Z.eqb_spec s h) as [->|Hne]; [constructor; assumption|].
      constructor; [exact IH|].
      apply Forall_forall. intros x Hx. apply insert_season_elem in Hx as [->|Hx]; [lia|].
      eapply Forall_forall in Hh; eauto.
Qed.

Lemma seasons_of_sorted (regular : list Game) :
  StronglySorted Z.lt (Unified.seasons_of regular).
Proof.
  unfold Unified.seasons_of. induction regular as [|g r IH]; simpl; [constructor|].
  apply insert_season_sorted, IH.
Qed.

Lemma insert_season_front (s : Z) (l : list Z) :
  Forall (fun x => s < x) l -> Unified.insert_season s l = s :: l.
Proof.
  destruct 1 as [|h t Hh _]; simpl; [reflexivity|].
  destruct (Z.ltb_spec s h); [reflexivity|lia].
Qed.

Lemma filter_insert_season (b s : Z) (l : list Z) :
  StronglySorted Z.lt l ->
  filter (fun x => x < b) (Unified.insert_season s l) =
  if decide (s < b) then Unified.insert_season s (filter (fun x => x < b) l)
  else filter (fun x => x < b) l.
Proof.
  induction 1 as [|h t Hs IH Hh]; simpl.
  - rewrite filter_cons, filter_nil. destruct (decide (s < b)); reflexivity.
  - destruct (Z.ltb_spec s h) as [Hlt|Hge].
    + rewrite (filter_cons _ s). destruct (decide (s < b)) as [Hb|Hb]; [|reflexivity].
      rewrite insert_season_front; [reflexivity|].
      apply Forall_forall. intros x Hx. apply list_elem_of_filter in Hx as [_ Hx].
      apply elem_of_cons in Hx as [->|Hx]; [exact Hlt|].
      eapply Forall_forall in Hh; eauto. simpl in Hh. lia.
    + destruct (Z.eqb_spec s h) as [->|Hne].
      * rewrite !(filter_cons _ h). destruct (decide (h < b)); [|reflexivity].
        simpl. rewrite Z.ltb_irrefl, Z.eqb_refl. reflexivity.
      * rewrite !(filter_cons _ h), IH.
        destruct (decide (h < b)) as [Hhb|Hhb]; destruct (decide (s < b)) as [Hsb|Hsb];
          try reflexivity; try lia.
        simpl. destruct (Z.ltb_spec s h); [lia|].
        destruct (Z.eqb_spec s h); [lia|]. reflexivity.
Qed.

Lemma seasons_of_filter (regular : list Game) (b : Z) :
  Unified.seasons_of (filter (fun g => Season g < b) regular) =
  filter (fun x => x < b) (Unified.seasons_of regular).
Proof.
  unfold Unified.seasons_of. induction regular as [|g r IH]; [reflexivity|].
  rewrite fmap_cons. cbn [fold_right].
  rewrite filter_insert_season by apply seasons_of_sorted.
  rewrite filter_cons. destruct (decide (Season g < b)) as [Hb|Hb].
  - rewrite fmap_cons. cbn [fold_right]. rewrite IH. reflexivity.
  - exact IH.
Qed.

Lemma games_of_season_filter (regular : list Game) (b s : Z) :
  s < b ->
  games_of_season (filter (fun g => Season g < b) regular) s = games_of_season regular s.
Proof.
  intros Hs. unfold games_of_season. induction regular as [|g r IH]; [reflexivity|].
  rewrite (filter_cons _ g r). rewrite (filter_cons (fun g => Season g = s) g r).
  destruct (decide (Season g < b)) as [Hb|Hb].
  - rewrite filter_cons. destruct (decide (Season g = s)); rewrite IH; reflexivity.
  - destruct (decide (Season g = s)); [lia|exact IH].
Qed.

Lemma season_loop_filter pow10 ln (regular : list Game) (b : Z) (seasons : list Z)
    (elo : gmap Z Q) (rows : list Unified.EloRow) :
  StronglySorted Z.lt seasons ->
  Unified.season_loop pow10 ln regular b seasons elo rows =
  Unified.season_loop pow10 ln (filter (fun g => Season g < b) regular) b
                      (filter (fun x => x < b) seasons) elo rows.
Proof.
  intros Hs. revert elo rows.
  induction Hs as [|s rest Hs IH Hh]; intros elo rows; [reflexivity|].
  rewrite filter_cons. cbn [Unified.season_loop].
  destruct (Z.leb_spec b s) as [Hle|Hlt].
  - destruct (decide (s < b)); [lia|].
    assert (Hnil : filter (fun x => x < b) rest = []).
    { clear IH Hs. induction Hh as [|x rest' Hx _ IHh]; [reflexivity|].
      rewrite filter_cons. destruct (decide (x < b)); [lia|exact IHh]. }
    rewrite Hnil. reflexivity.
  - destruct (decide (s < b)); [|lia]. cbn [Unified.season_loop].
    destruct (Z.leb_spec b s); [lia|].
    rewrite games_of_season_filter by assumption. apply IH.
Qed.

(** The Elo frame of the unified pipeline is a function of the games of
    seasons strictly before the backtest season: dropping every other game
    from the input leaves it unchanged. *)
Lemma Unified_compute_elo_reads_earlier_seasons pow10 ln (regular : list Game) (b : Z) :
  Unified.compute_elo pow10 ln regular b =
  Unified.compute_elo pow10 ln (filter (fun g => Season g < b) regular) b.
Proof.
  unfold Unified.compute_elo.
  rewrite (season_loop_filter pow10 ln regular b) by apply seasons_of_sorted.
  rewrite <- seasons_of_filter.
  rewrite (season_loop_filter pow10 ln (filter (fun g => Season g < b) regular) b
             (Unified.seasons_of (filter (fun g => Season g < b) regular)))
    by apply seasons_of_sorted.
  rewrite list_filter_filter.
  rewrite <- (seasons_of_filter (filter (fun g => Season g < b) regular)).
  rewrite list_filter_filter.
  assert (Hf : filter (fun g => Season g < b /\ Season g < b) regular
               = filter (fun g => Season g < b) regular).
  { apply list_filter_iff. intros g. tauto. }
  rewrite Hf. reflexivity.
Qed.

(** ** Injury / context adjustment layer *)

Lemma pow10_pos (n : nat) : (0 < inject_Z (10 ^ Z.of_nat n))%Q.
Proof.
  assert (0 < 10 ^ Z.of_nat n) by (apply Z.pow_pos_nonneg; lia).
  unfold Qlt; simpl. lia.
Qed.

Lemma round_half_even_between (s : Q) (lo hi : Z) :
  (inject_Z lo <= s)%Q -> (s <= inject_Z hi)%Q ->
  lo <= round_half_even s <= hi.
Proof.
  intros Hlo Hhi. unfold round_half_even.
  assert (Hf1 : lo <= Qfloor s).
  { rewrite <- (Qfloor_Z lo). apply Qfloor_resp_le, Hlo. }
  assert (Hf2 : Qfloor s <= hi).
  { rewrite Zle_Qle. eapply Qle_trans; [apply Qfloor_le|exact Hhi]. }
  assert (Hup : (1 # 2 <= s - inject_Z (Qfloor s))%Q -> Qfloor s + 1 <= hi).
  { intros Hr. assert (Hlt : (inject_Z (Qfloor s) < inject_Z hi)%Q) by lra.
    rewrite <- Zlt_Qlt in Hlt. lia. }
  destruct (Qcompare_spec (s - inject_Z (Qfloor s)) (1 # 2)) as [He|Hl|Hg].
  - destruct (Z.even (Qfloor s)); [lia|]. split; [lia|]. apply Hup. lra.
  - lia.
  - split; [lia|]. apply Hup. lra.
Qed.

Lemma py_round_between (x : Q) (n : nat) (lo hi : Z) :
  (inject_Z lo / inject_Z (10 ^ Z.of_nat n) <= x)%Q ->
  (x <= inject_Z hi / inject_Z (10 ^ Z.of_nat n))%Q ->
  (inject_Z lo / inject_Z (10 ^ Z.of_nat n) <= py_round x n)%Q /\
  (py_round x n <= inject_Z hi / inject_Z (10 ^ Z.of_nat n))%Q.
Proof.
  intros Hlo Hhi. pose proof (pow10_pos n) as HP.
  set (P := inject_Z (10 ^ Z.of_nat n)) in *.
  assert (Hs1 : (inject_Z lo <= x * P)%Q).
  { apply (Qmult_le_r _ _ P) in Hlo; [|exact HP].
    eapply Qle_trans; [|exact Hlo]. apply Qle_lteq; right. field. lra. }
  assert (Hs2 : (x * P <= inject_Z hi)%Q).
  { apply (Qmult_le_r _ _ P) in Hhi; [|exact HP].
    eapply Qle_trans; [exact Hhi|]. apply Qle_lteq; right. field. lra. }
  destruct (round_half_even_between (x * P) lo hi Hs1 Hs2) as [Hk1 Hk2].
  unfold py_round. fold P.
  rewrite Zle_Qle in Hk1, Hk2.
  split; apply Qle_shift_div_l; try exact HP.
  - eapply Qle_trans; [|exact Hk1]. apply Qle_lteq; right. field. lra.
  - eapply Qle_trans; [|exact Hk2]. apply Qle_lteq; right. field. lra.
Qed.

Lemma round_half_even_comp (x x' : Q) :
  (x == x')%Q -> round_half_even x = round_half_even x'.
Proof.
  intros H. unfold round_half_even.
  rewrite (Qfloor_comp _ _ H).
  assert (Hc : ((x - inject_Z (Qfloor x') ?= 1 # 2) = (x' - inject_Z (Qfloor x') ?= 1 # 2))%Q).
  { apply Qcompare_comp; [rewrite H|]; reflexivity. }
  rewrite Hc. reflexivity.
Qed.

Lemma py_round_comp (x x' : Q) (n : nat) :
  (x == x')%Q -> (py_round x n == py_round x' n)%Q.
Proof.
  intros H. unfold py_round.
  rewrite (round_half_even_comp (x * inject_Z (10 ^ Z.of_nat n))
                                (x' * inject_Z (10 ^ Z.of_nat n))); [reflexivity|].
  rewrite H. reflexivity.
Qed.

Lemma clip_comp (x x' lo hi : Q) : (x == x')%Q -> (clip x lo hi == clip x' lo hi)%Q.
Proof. intros H. unfold clip. rewrite H. reflexivity. Qed.

Lemma clip_between (x lo hi : Q) : (lo <= hi)%Q -> (lo <= clip x lo hi /\ clip x lo hi <= hi)%Q.
Proof.
  intros Hle. unfold clip. split.
  - apply Q.min_glb; [apply Q.le_max_r|exact Hle].
  - apply Q.le_min_r.
Qed.

Lemma compute_injury_adj_bounds (row : option Unified.SummaryRow) :
  (- 0.15 <= Unified.compute_injury_adj row /\ Unified.compute_injury_adj row <= 0)%Q.
Proof.
  destruct row as [row|]; simpl; [|lra].
  match goal with |- context [py_round (clip ?a _ _) 4] => set (adj := a) end.
  destruct (clip_between adj (-0.15) 0.0) as [H1 H2]; [lra|].
  destruct (py_round_between (clip adj (-0.15) 0.0) 4 (-1500) 0) as [H3 H4].
  - eapply Qle_trans; [|exact H1]. apply Qle_lteq; right. reflexivity.
  - eapply Qle_trans; [exact H2|]. apply Qle_lteq; right. reflexivity.
  - split.
    + eapply Qle_trans; [|exact H3]. apply Qle_lteq; right. reflexivity.
    + eapply Qle_trans; [exact H4|]. apply Qle_lteq; right. reflexivity.
Qed.

(** C3, as amended.  Each team's penalty lies between 0 and the cap 0.15,
    so the net shift team2_penalty - team1_penalty lies within the cap
    too; the patched probability is clip(base + team2_penalty -
    team1_penalty, 0.02, 0.98) rounded to 5 decimal places (the penalties
    being rounded to 4), and it lies within [0.02, 0.98]; this for every
    base value and every pair of summary rows. *)
Theorem injury_adjustment_bounds (strip : string -> string)
    (r1 r2 : option Unified.SummaryRow) (pred : Unified.Prediction) :
  let base := default 0.5%Q (Unified.model_win_prob pred) in
  ((0 <= penalty r1 /\ penalty r1 <= 0.15) /\ (0 <= penalty r2 /\ penalty r2 <= 0.15))%Q /\
  (- 0.15 <= penalty r2 - penalty r1 /\ penalty r2 - penalty r1 <= 0.15)%Q /\
  exists adjusted,
    Unified.model_win_prob (Unified.patch_prediction strip r1 r2 pred) = Some adjusted /\
    (adjusted == py_round (clip (base + penalty r2 - penalty r1) 0.02 0.98) 5)%Q /\
    (0.02 <= adjusted /\ adjusted <= 0.98)%Q.
Proof.
  intros base.
  pose proof (compute_injury_adj_bounds r1) as [H1a H1b].
  pose proof (compute_injury_adj_bounds r2) as [H2a H2b].
  split.
  { unfold penalty. repeat split; lra. }
  split.
  { unfold penalty. split; lra. }
  eexists. split; [reflexivity|].
  fold base. unfold penalty.
  set (a1 := Unified.compute_injury_adj r1) in *.
  set (a2 := Unified.compute_injury_adj r2) in *.
  assert (Heq : (base + a1 - a2 == base + - a2 - - a1)%Q) by lra.
  set (y := clip (base + a1 - a2) 0.02 0.98).
  split.
  - apply py_round_comp. unfold y. apply clip_comp. exact Heq.
  - destruct (clip_between (base + a1 - a2) 0.02 0.98) as [Hc1 Hc2]; [lra|].
    destruct (py_round_between y 5 2000 98000) as [H3 H4].
    + eapply Qle_trans; [|exact Hc1]. apply Qle_lteq; right. reflexivity.
    + eapply Qle_trans; [exact Hc2|]. apply Qle_lteq; right. reflexivity.
    + split.
      * eapply Qle_trans; [|exact H3]. apply Qle_lteq; right. reflexivity.
      * eapply Qle_trans; [exact H4|]. apply Qle_lteq; right. reflexivity.
Qed.

Example sample_prediction_patched (strip : string -> string) :
  Unified.model_win_prob (Unified.patch_prediction strip None None sample_prediction)
  = Some (py_round (clip (0.500004 + 0 - 0) 0.02 0.98) 5) /\
  (py_round (clip (0.500004 + 0 - 0) 0.02 0.98) 5 == 0.5)%Q /\
  (clip (0.500004 + penalty None - penalty None) 0.02 0.98 == 0.500004)%Q.
Proof. split; [reflexivity|]. split; reflexivity. Qed.

(** C3 as first stated fails: with no injury on either side and base
    probability 0.500004 the patched probability is 0.5, not
    clip(0.500004, 0.02, 0.98) = 0.500004. *)
Lemma injury_adjustment_not_exact_clip :
  ~ (forall (strip : string -> string)
            (r1 r2 : option Unified.SummaryRow) (pred : Unified.Prediction),
       let base := default 0.5%Q (Unified.model_win_prob pred) in
       (0 <= base /\ base <= 1)%Q ->
       exists adjusted,
         Unified.model_win_prob (Unified.patch_prediction strip r1 r2 pred) = Some adjusted /\
         (adjusted == clip (base + penalty r2 - penalty r1) 0.02 0.98)%Q).
Proof.
  intros H.
  destruct (H Unified.ascii_strip None None sample_prediction) as (adjusted & Hget & Heq).
  { simpl. split; lra. }
  injection Hget as <-.
  vm_compute in Heq. discriminate Heq.
Qed.

Lemma py_round_eq (x x' : Q) (n : nat) : (x == x')%Q -> py_round x n = py_round x' n.
Proof.
  intros H. unfold py_round.
  rewrite (round_half_even_comp (x * inject_Z (10 ^ Z.of_nat n))
                                (x' * inject_Z (10 ^ Z.of_nat n))); [reflexivity|].
  rewrite H. reflexivity.
Qed.

Lemma Qltb_comp (a x x' : Q) : (x == x')%Q -> Unified.Qltb a x = Unified.Qltb a x'.
Proof.
  intros H. unfold Unified.Qltb. f_equal.
  destruct (Qle_bool x a) eqn:E1; destruct (Qle_bool x' a) eqn:E2; try reflexivity.
  - apply Qle_bool_iff in E1. rewrite H in E1. apply Qle_bool_iff in E1. congruence.
  - apply Qle_bool_iff in E2. rewrite <- H in E2. apply Qle_bool_iff in E2. congruence.
Qed.

(** One application of the patch is a function of the base probability
    (as a number), the two seeds, the two team names and the two summary
    rows: two predictions that agree on these receive the same adjusted
    probability, confidence tier, upset flag, per-team adjustments,
    contexts and flip mark, whatever their other keys hold; and the
    patched prediction stores the probability it was given under
    'model_win_prob_original' next to the adjusted 'model_win_prob'. *)
Theorem injury_adjustment_deterministic (strip : string -> string)
    (r1 r2 : option Unified.SummaryRow) (pred pred' : Unified.Prediction) :
  (default 0.5 (Unified.model_win_prob pred)
   == default 0.5 (Unified.model_win_prob pred'))%Q ->
  Unified.t1_seed pred = Unified.t1_seed pred' ->
  Unified.t2_seed pred = Unified.t2_seed pred' ->
  Unified.t1_name pred = Unified.t1_name pred' ->
  Unified.t2_name pred = Unified.t2_name pred' ->
  let out := Unified.patch_prediction strip r1 r2 pred in
  let out' := Unified.patch_prediction strip r1 r2 pred' in
  (Unified.model_win_prob out = Unified.model_win_prob out' /\
   Unified.confidence out = Unified.confidence out' /\
   Unified.upset_flag out = Unified.upset_flag out' /\
   Unified.t1_injury_adj out = Unified.t1_injury_adj out' /\
   Unified.t2_injury_adj out = Unified.t2_injury_adj out' /\
   Unified.t1_injury out = Unified.t1_injury out' /\
   Unified.t2_injury out = Unified.t2_injury out' /\
   Unified.injury_adjusted out = Unified.injury_adjusted out' /\
   Unified.pick_flipped_by_injury out = Unified.pick_flipped_by_injury out') /\
  (Unified.model_win_prob_original out = Some (default 0.5%Q (Unified.model_win_prob pred)) /\
   Unified.model_win_prob out =
     Some (py_round (clip (default 0.5%Q (Unified.model_win_prob pred)
                           + Unified.compute_injury_adj r1
                           - Unified.compute_injury_adj r2) 0.02 0.98) 5)).
Proof.
  intros Hbase Hs1 Hs2 Hn1 Hn2 out out'. subst out out'.
  unfold Unified.patch_prediction; simpl.
  set (base := default 0.5%Q (Unified.model_win_prob pred)) in *.
  set (base' := default 0.5%Q (Unified.model_win_prob pred')) in *.
  set (a1 := Unified.compute_injury_adj r1).
  set (a2 := Unified.compute_injury_adj r2).
  assert (Hadj : py_round (clip (base + a1 - a2) 0.02 0.98) 5
                 = py_round (clip (base' + a1 - a2) 0.02 0.98) 5).
  { apply py_round_eq, clip_comp. rewrite Hbase. reflexivity. }
  rewrite <- Hadj, <- Hs1, <- Hs2, <- Hn1, <- Hn2.
  rewrite (Qltb_comp 0.5 base base' Hbase).
  repeat split; reflexivity.
Qed.

Lemma injury_adjustment_deterministic_witness :
  let patch := Unified.patch_prediction Unified.ascii_strip (Some sample_row) None in
  Unified.model_win_prob (patch sample_prediction)
  = Unified.model_win_prob (patch sample_prediction_again) /\
  Unified.upset_flag (patch sample_prediction)
  = Unified.upset_flag (patch sample_prediction_again).
Proof.
  assert (Hb : (default 0.5 (Unified.model_win_prob sample_prediction)
                == default 0.5 (Unified.model_win_prob sample_prediction_again))%Q)
    by reflexivity.
  destruct (injury_adjustment_deterministic Unified.ascii_strip (Some sample_row) None
              sample_prediction sample_prediction_again
              Hb eq_refl eq_refl eq_refl eq_refl) as [(H1 & _ & H3 & _) _].
  split; [exact H1|exact H3].
Defined.

(** The seeds are an input of the upset classification.  Same base
    probability 0.65, same (absent) context rows, same team names; seeds
    (1,16) flag a sleeper, seeds (8,9) are chalk. *)
Lemma upset_flag_depends_on_seeds :
  ~ (forall (strip : string -> string)
            (r1 r2 : option Unified.SummaryRow) (pred pred' : Unified.Prediction),
       Unified.model_win_prob pred = Unified.model_win_prob pred' ->
       Unified.t1_name pred = Unified.t1_name pred' ->
       Unified.t2_name pred = Unified.t2_name pred' ->
       Unified.upset_flag (Unified.patch_prediction strip r1 r2 pred)
       = Unified.upset_flag (Unified.patch_prediction strip r1 r2 pred')).
Proof.
  intros H.
  specialize (H Unified.ascii_strip None None
    (Unified.mkPrediction (Some "Duke") (Some "Yale") (Some 1) (Some 16) (Some 0.65%Q)
       None None None None None None None None None None)
    (Unified.mkPrediction (Some "Duke") (Some "Yale") (Some 8) (Some 9) (Some 0.65%Q)
       None None None None None None None None None None)
    eq_refl eq_refl eq_refl).
  vm_compute in H. discriminate H.
Qed.

(** C8. The adjustment layer does not keep the Step 1 probability, and
    two runs on the same injury data do not give the same result.
    [run_step2] patches the predictions in place and saves them to
    chatbot_predictions_base.json, the file the daily run with
    --skip-step1 loads; the second run therefore takes the adjusted
    probability for the base.  With the star of Duke out in both runs
    (penalty 0.1157), the first run keeps 0.65 as the original and
    stores 0.5343; the second run, on the same player and injury data,
    records 0.5343 as the original, stores 0.4186 and turns the pick
    from Duke to Yale.  The Step 1 probability 0.65 is then nowhere in
    the document. *)
Theorem rerun_loses_step1_probability :
  let run := Unified.run_step2 Unified.ascii_lower Unified.ascii_strip
               sample_player_get sample_feed_out in
  exists first second,
    run sample_step1_data sample_profiles_data = inr first /\
    run first.1 first.2 = inr second /\
    audit_trail sample_step1_data = [(None, Some 0.65%Q, Some "Duke")] /\
    audit_trail first.1 = [(Some 0.65%Q, Some 0.53430%Q, Some "Duke")] /\
    audit_trail second.1 = [(Some 0.53430%Q, Some 0.41860%Q, Some "Yale")].
Proof.
  cbv zeta. eexists _, _.
  split; [vm_compute; reflexivity|].
  split; [vm_compute; reflexivity|].
  cbn [fst]. split; [reflexivity|]. split; vm_compute; reflexivity.
Qed.

(** ** Auxiliary fetches *)




(** A decoded injury feed is read up to its first malformed element: the
    records appended before it are kept (this is not a failure of the
    fetch). *)
Example injury_feed_read_up_to_malformed_element :
  let injury := Unified.mkEspnInjury "A. Smith" "G" "Out" "Knee" "" "" "" in
  let feed := [ Some (Unified.mkEspnTeamEntry "Duke" "DUKE" [Some injury; None; Some injury]) ] in
  length (Unified.fetch_injuries_espn (inr (Unified.mkResponse 200 (Some feed)))) = 1%nat.
Proof. reflexivity. Qed.

(** A player payload without any line makes Step 2 raise after the fetch. *)
Example empty_player_payload_raises (lower strip : string -> string) :
  Unified.run_step2 lower strip (inr (Unified.mkResponse 200 (Some []))) (inl Unified.ConnectionError)
                    sample_chatbot_data sample_profiles_data
  = inl (Unified.KeyError "team").
Proof. reflexivity. Qed.



(** ** Season statistics *)

Create HintDb finite.

Lemma finite_of_Z (z : Z) : is_finite (V2.of_Z z).
Proof. eexists; reflexivity. Qed.

Lemma finite_Some (q : Q) : is_finite (Some q).
Proof. eexists; reflexivity. Qed.

Lemma finite_nadd (x y : num) : is_finite x -> is_finite y -> is_finite (nadd x y).
Proof. intros [a ->] [b ->]. eexists; reflexivity. Qed.

Lemma finite_nsub (x y : num) : is_finite x -> is_finite y -> is_finite (nsub x y).
Proof. intros [a ->] [b ->]. eexists; reflexivity. Qed.

Lemma finite_nmul (x y : num) : is_finite x -> is_finite y -> is_finite (nmul x y).
Proof. intros [a ->] [b ->]. eexists; reflexivity. Qed.

Lemma finite_ndiv (x d : num) (q : Q) :
  is_finite x -> d = Some q -> ~ (q == 0)%Q -> is_finite (ndiv x d).
Proof.
  intros [a ->] -> Hq. unfold ndiv.
  destruct (Qeq_bool q 0) eqn:E; [|eexists; reflexivity].
  apply Qeq_bool_iff in E. contradiction.
Qed.

Lemma finite_ndiv_nmax (x d : num) (c : Q) :
  is_finite x -> is_finite d -> (0 < c)%Q -> is_finite (ndiv x (V2.nmax d c)).
Proof.
  intros Hx [a ->] Hc. unfold V2.nmax.
  eapply finite_ndiv; [exact Hx|reflexivity|].
  destruct (Qlt_le_dec a c); lra.
Qed.

Lemma finite_ndiv_of_Z (x : num) (n : Z) :
  is_finite x -> n <> 0 -> is_finite (ndiv x (V2.of_Z n)).
Proof.
  intros Hx Hn. eapply finite_ndiv; [exact Hx|reflexivity|].
  unfold Qeq; simpl. lia.
Qed.

#[local] Hint Resolve finite_of_Z finite_Some finite_nadd finite_nsub finite_nmul
  finite_ndiv_nmax finite_ndiv_of_Z : finite.

Lemma Zsum_nonneg (l : list Z) : Forall (fun z => 0 <= z) l -> 0 <= Zsum l.
Proof. induction 1; simpl; lia. Qed.

Lemma col_sum_nonneg (col : Game -> Z) (games : list Game) :
  Forall (fun g => 0 <= col g) games -> 0 <= V2.col_sum col games.
Proof.
  intros H. unfold V2.col_sum. apply Zsum_nonneg.
  induction H; simpl; constructor; auto.
Qed.

Lemma finite_fpow_avg rpow (pts n : Z) (p : Q) :
  0 <= pts -> 0 < n ->
  is_finite (V2.fpow rpow (ndiv (V2.of_Z pts) (V2.of_Z n)) p).
Proof.
  intros Hp Hn. unfold ndiv, V2.of_Z.
  destruct (Qeq_bool (inject_Z n) 0) eqn:E.
  { apply Qeq_bool_iff in E. unfold Qeq in E; simpl in E. lia. }
  unfold V2.fpow.
  assert (Hq : (0 <= inject_Z pts / inject_Z n)%Q).
  { apply Qle_shift_div_l; [unfold Qlt; simpl; lia|].
    rewrite Qmult_0_l. unfold Qle; simpl. lia. }
  apply Qle_bool_iff in Hq. rewrite Hq. eexists; reflexivity.
Qed.

Lemma scores_nonneg_filter (P : Game -> Prop) `{forall g, Decision (P g)} (games : list Game) :
  scores_nonneg games -> scores_nonneg (filter P games).
Proof.
  unfold scores_nonneg. intros Hs. apply Forall_forall. intros g Hg.
  apply list_elem_of_filter in Hg as [_ Hg]. eapply Forall_forall in Hs; eauto.
Qed.

Lemma team_features_finite rpow (rs : list Game) (tid : Z) (f : V2.Features) :
  scores_nonneg rs ->
  V2.team_features rpow rs tid = Some f -> features_finite f.
Proof.
  intros Hs. unfold V2.team_features.
  set (wins := filter (fun g => WTeamID g = tid) rs).
  set (losses := filter (fun g => LTeamID g = tid) rs).
  assert (Hw : scores_nonneg wins) by (apply scores_nonneg_filter, Hs).
  assert (Hl : scores_nonneg losses) by (apply scores_nonneg_filter, Hs).
  destruct (Z.eqb_spec (Z.of_nat (length wins) + Z.of_nat (length losses)) 0) as [|Hn];
    [discriminate|].
  assert (Hn' : 0 < Z.of_nat (length wins) + Z.of_nat (length losses)) by lia.
  assert (Hfor : 0 <= V2.col_sum WScore wins + V2.col_sum LScore losses).
  { assert (0 <= V2.col_sum WScore wins).
    { apply col_sum_nonneg. eapply Forall_impl; [exact Hw|]. simpl; tauto. }
    assert (0 <= V2.col_sum LScore losses).
    { apply col_sum_nonneg. eapply Forall_impl; [exact Hl|]. simpl; tauto. }
    lia. }
  assert (Hagainst : 0 <= V2.col_sum LScore wins + V2.col_sum WScore losses).
  { assert (0 <= V2.col_sum LScore wins).
    { apply col_sum_nonneg. eapply Forall_impl; [exact Hw|]. simpl; tauto. }
    assert (0 <= V2.col_sum WScore losses).
    { apply col_sum_nonneg. eapply Forall_impl; [exact Hl|]. simpl; tauto. }
    lia. }
  pose proof (finite_fpow_avg rpow _ _ 10.25%Q Hfor Hn') as Hp1.
  pose proof (finite_fpow_avg rpow _ _ 10.25%Q Hagainst Hn') as Hp2.
  intros Hf. apply (inj Some) in Hf. subst f. unfold features_finite.
  cbv [V2.win_ratio V2.avg_score V2.avg_allowed V2.avg_margin V2.fg_pct V2.fg3_pct
       V2.ft_pct V2.efg V2.opp_efg V2.to_rate V2.or_pct V2.dr_pct V2.ast_rate
       V2.ft_rate V2.three_rate V2.blk_stl V2.off_eff V2.def_eff V2.net_eff
       V2.pyth V2.recent_wr].
  assert (H1 : (0 < 1)%Q) by lra.
  assert (H2 : (0 < 0.001)%Q) by lra.
  repeat match goal with |- _ /\ _ => split end; auto 10 with finite.
  destruct rs as [|g0 rs']; auto 10 with finite.
Qed.

Lemma build_season_features_lookup rpow (reg : list Game) (season tid : Z) (f : V2.Features) :
  V2.build_season_features rpow reg season !! tid = Some f ->
  V2.team_features rpow (games_of_season reg season) tid = Some f.
Proof.
  unfold V2.build_season_features.
  set (rs := games_of_season reg season).
  generalize ((WTeamID <$> rs) ++ (LTeamID <$> rs)). intros teams.
  assert (Hinv : forall (m : gmap Z V2.Features),
            (forall t g, m !! t = Some g -> V2.team_features rpow rs t = Some g) ->
            forall t g,
              fold_left (fun features tid0 =>
                           match V2.team_features rpow rs tid0 with
                           | Some f0 => <[tid0 := f0]> features
                           | None => features
                           end) teams m !! t = Some g ->
              V2.team_features rpow rs t = Some g).
  { induction teams as [|t0 teams IH]; intros m Hm t g; simpl; [apply Hm|].
    apply IH. intros t' g'.
    destruct (V2.team_features rpow rs t0) as [f0|] eqn:E; [|apply Hm].
    destruct (decide (t0 = t')) as [->|Hne].
    - rewrite lookup_insert_eq. congruence.
    - rewrite lookup_insert_ne by assumption. apply Hm. }
  apply Hinv. intros t g Hg. rewrite lookup_empty in Hg. discriminate.
Qed.

(** In [V2] every rate statistic of every team of a season is finite,
    whatever its win/loss split (scores being non-negative). *)
Lemma V2_season_features_finite rpow (reg : list Game) (season tid : Z) (f : V2.Features) :
  scores_nonneg reg ->
  V2.build_season_features rpow reg season !! tid = Some f ->
  features_finite f.
Proof.
  intros Hs Hf. apply build_season_features_lookup in Hf.
  eapply team_features_finite; [|exact Hf].
  apply scores_nonneg_filter, Hs.
Qed.

(** In [Unified] a team without a win has NaN points per game, opponent
    points per game and point differential, and a win percentage of 0.5. *)
Lemma Unified_winless_row (regular : list Game) (season team : Z) (row : Unified.AggRow) :
  Unified.season_team_row regular season team = Some row ->
  filter (fun g => Season g = season /\ WTeamID g = team) regular = [] ->
  Unified.ppg row = None /\ Unified.opp_ppg row = None /\
  Unified.point_diff row = None /\ Unified.win_pct row = Some 0.5%Q.
Proof.
  unfold Unified.season_team_row. intros Hrow Hw. rewrite Hw in Hrow.
  destruct (filter (fun g => Season g = season /\ LTeamID g = team) regular)
    as [|g lgrp]; [discriminate|].
  apply (inj Some) in Hrow. subst row. repeat split; reflexivity.
Qed.

(** C6 on the failing input: a season made of the single game 1101 70-60
    1102.  [Unified.compute_season_stats] returns a row for the winless
    team 1102 whose points per game, opponent points per game and point
    differential are NaN, whereas [V2.build_season_features] gives the
    same team finite statistics throughout. *)
Theorem winless_team_statistics (rpow : Q -> Q -> Q) :
  (exists row1101 row1102,
      Unified.compute_season_stats [sample_game] = [row1101; row1102] /\
      Unified.agg_TeamID row1102 = 1102 /\
      Unified.stat_wins row1102 = None /\
      Unified.ppg row1102 = None /\
      Unified.opp_ppg row1102 = None /\
      Unified.point_diff row1102 = None /\
      ~ is_finite (Unified.ppg row1102)) /\
  (exists f,
      V2.build_season_features rpow [sample_game] 2024 !! 1102 = Some f /\
      features_finite f).
Proof.
  split.
  - eexists _, _. split; [reflexivity|].
    repeat match goal with |- _ /\ _ => split end; try reflexivity.
    intros [q Hq]. discriminate Hq.
  - assert (Hs : scores_nonneg [sample_game]).
    { repeat constructor; simpl; lia. }
    destruct (V2.build_season_features rpow [sample_game] 2024 !! 1102) as [f|] eqn:E.
    + exists f. split; [reflexivity|]. eapply V2_season_features_finite; eauto.
    + exfalso. vm_compute in E. discriminate E.
Qed.

(** ** Temporal separation of fitting and evaluation *)

Section EnsembleFacts.
Context {Booster Classifier LeafModel MetaModel : Type}.
Variable xgb_train : list Unified.TdRow -> list Unified.TdRow -> Booster.
Variable fit_classifier : list Unified.TdRow -> Classifier.
Variable fit_leaf_logistic : Booster -> list Unified.TdRow -> LeafModel.
Variable fit_meta : Booster -> Classifier -> LeafModel -> list Unified.TdRow -> MetaModel.

Lemma split_seasons_train_before (td : list Unified.TdRow) (backtest_season : Z) :
  Forall (fun r => Unified.td_Season r < backtest_season)
         (Unified.split_seasons td backtest_season).1.
Proof.
  unfold Unified.split_seasons.
  set (train := filter (fun r => Unified.td_Season r < backtest_season) td).
  assert (Htrain : Forall (fun r => Unified.td_Season r < backtest_season) train).
  { apply Forall_forall. intros r Hr. apply list_elem_of_filter in Hr. tauto. }
  destruct (filter (fun r => Unified.td_Season r = backtest_season) td); [|exact Htrain].
  destruct train as [|r0 train'] eqn:E; [constructor|].
  apply Forall_forall. intros r Hr. apply list_elem_of_filter in Hr as [_ Hr].
  eapply Forall_forall in Htrain; eauto.
Qed.

Lemma split_seasons_target (td : list Unified.TdRow) (backtest_season : Z) (r : Unified.TdRow) :
  r ∈ td -> Unified.td_Season r = backtest_season ->
  Unified.split_seasons td backtest_season =
  (filter (fun r => Unified.td_Season r < backtest_season) td,
   filter (fun r => Unified.td_Season r = backtest_season) td).
Proof.
  intros Hin Hs. unfold Unified.split_seasons.
  destruct (filter (fun r => Unified.td_Season r = backtest_season) td) eqn:E; [|reflexivity].
  exfalso. assert (Hr : r ∈ filter (fun r => Unified.td_Season r = backtest_season) td)
    by (apply list_elem_of_filter; auto).
  rewrite E in Hr. inversion Hr.
Qed.

(** The second base model, the leaf-logistic model and the meta-learner
    are fitted on rows of earlier seasons only. *)
Lemma later_fits_read_earlier_seasons (td : list Unified.TdRow) (backtest_season : Z) :
  let out := Unified.train_model xgb_train fit_classifier fit_leaf_logistic fit_meta
               td backtest_season in
  Forall (fun r => Unified.td_Season r < backtest_season) (Unified.train_data out) /\
  Unified.base_model_2 out = fit_classifier (Unified.train_data out) /\
  Unified.leaf_lr out = fit_leaf_logistic (Unified.xgb_model out) (Unified.train_data out) /\
  Unified.meta_lr out = fit_meta (Unified.xgb_model out) (Unified.base_model_2 out)
                                 (Unified.leaf_lr out) (Unified.train_data out).
Proof.
  intros out. subst out. unfold Unified.train_model.
  pose proof (split_seasons_train_before td backtest_season) as H.
  destruct (Unified.split_seasons td backtest_season) as [train test]. simpl in *.
  repeat split; auto.
Qed.

(** The margin regressor is fitted with the target season as its
    early-stopping set: every target-season row of [td] is handed to
    [xgb.train]. *)
Lemma xgb_evaluates_target_season (td : list Unified.TdRow) (backtest_season : Z)
    (r : Unified.TdRow) :
  r ∈ td -> Unified.td_Season r = backtest_season ->
  Unified.xgb_model (Unified.train_model xgb_train fit_classifier fit_leaf_logistic fit_meta
                       td backtest_season)
  = xgb_train (filter (fun r => Unified.td_Season r < backtest_season) td)
              (filter (fun r => Unified.td_Season r = backtest_season) td) /\
  r ∈ filter (fun r => Unified.td_Season r = backtest_season) td.
Proof.
  intros Hin Hs. unfold Unified.train_model.
  rewrite (split_seasons_target td backtest_season r Hin Hs). simpl.
  split; [reflexivity|]. apply list_elem_of_filter; auto.
Qed.

End EnsembleFacts.

(** C1 on the failing inputs.  With backtest season 2025,
    [Unified.train_model] hands the 2025 row (label included) to
    [xgb.train] as its early-stopping set, while the three later fits get
    the 2024 row only; and [V2.main], predicting 2025, accumulates Elo
    over a 2025 game: the game creates both teams' ratings, which without
    it do not exist, and (reading [10 ** x] and [np.log] as 1) moves the
    ['elo_diff'] feature of a training row of the two teams from 0 to 32. *)
Theorem target_season_observed_in_fitting (pow10 ln : Q -> Q) :
  (let out := Unified.train_model transcript_xgb transcript_fit
                (fun _ train => train) (fun _ _ _ train => train) sample_td 2025 in
   Unified.xgb_model out = ([row_2024], [row_2025]) /\
   Unified.base_model_2 out = [row_2024] /\
   Unified.leaf_lr out = [row_2024] /\
   Unified.meta_lr out = [row_2024]) /\
  (Season game_2025 = V2.TARGET_SEASON /\
   is_Some (V2.main_elo pow10 ln [game_2025] !! 1101) /\
   is_Some (V2.main_elo pow10 ln [game_2025] !! 1102) /\
   V2.main_elo pow10 ln [] = ∅ /\
   (V2.training_elo_diff (V2.main_elo (fun _ => 1) (fun _ => 1) [game_2025]) 1101 1102
    == 32)%Q /\
   (V2.training_elo_diff (V2.main_elo (fun _ => 1) (fun _ => 1) []) 1101 1102 == 0)%Q).
Proof.
  split.
  - cbv zeta. repeat split; reflexivity.
  - split; [reflexivity|].
    split; [|split].
    + destruct (V2.main_elo pow10 ln [game_2025] !! 1101) eqn:E; [eauto|].
      exfalso. vm_compute in E. discriminate E.
    + destruct (V2.main_elo pow10 ln [game_2025] !! 1102) eqn:E; [eauto|].
      exfalso. vm_compute in E. discriminate E.
    + split; [|split].
      * apply map_eq. intros t. vm_compute. reflexivity.
      * vm_compute. reflexivity.
      * vm_compute. reflexivity.
Qed.

(** ** The mean rating never moves *)

Lemma Qsum_const (c : Q) (ts : list Z) :
  (Qsum ((fun _ => c) <$> ts) == c * inject_Z (Z.of_nat (length ts)))%Q.
Proof.
  unfold Qsum. induction ts as [|t ts IH].
  - simpl. change (inject_Z (Z.of_nat 0)) with 0%Q. lra.
  - rewrite fmap_cons. cbn [fold_right length]. rewrite IH.
    rewrite Nat2Z.inj_succ, <- Z.add_1_r, inject_Z_plus. change (inject_Z 1) with 1%Q. lra.
Qed.

Lemma Qsum_affine (c d : Q) (f g : Z -> Q) (ts : list Z) :
  (forall t, f t == c + d * (g t - c))%Q ->
  (Qsum (f <$> ts) ==
   c * inject_Z (Z.of_nat (length ts))
   + d * (Qsum (g <$> ts) - c * inject_Z (Z.of_nat (length ts))))%Q.
Proof.
  intros Hf. unfold Qsum. induction ts as [|t ts IH].
  - simpl. change (inject_Z (Z.of_nat 0)) with 0%Q. lra.
  - rewrite !fmap_cons. cbn [fold_right length]. rewrite IH, (Hf t).
    rewrite Nat2Z.inj_succ, <- Z.add_1_r, inject_Z_plus. change (inject_Z 1) with 1%Q. lra.
Qed.

Lemma balanced_empty (base : Q) : balanced base ∅.
Proof.
  intros teams _ _. unfold total_rating.
  rewrite <- (Qsum_const base teams).
  replace (rating base ∅ <$> teams) with ((fun _ : Z => base) <$> teams); [reflexivity|].
  apply list_fmap_ext. intros _ t _. unfold rating. rewrite lookup_empty. reflexivity.
Qed.

Lemma balanced_settle (base : Q) (w l : Z) (u : Q) (elo elo0 : gmap Z Q) :
  (forall t, rating base elo0 t = rating base elo t) ->
  (forall t, is_Some (elo !! t) -> is_Some (elo0 !! t)) ->
  balanced base elo -> balanced base (settle base w l u elo0).
Proof.
  intros Hr Hdom Hb teams Hnd Hall.
  assert (Hw : w ∈ teams).
  { apply Hall. unfold settle. destruct (decide (w = l)) as [->|Hne].
    - rewrite lookup_insert_eq. eauto.
    - rewrite lookup_insert_ne by congruence. rewrite lookup_insert_eq. eauto. }
  assert (Hl : l ∈ teams).
  { apply Hall. unfold settle. rewrite lookup_insert_eq. eauto. }
  rewrite settle_total by assumption.
  rewrite (total_rating_ext _ _ _ teams Hr).
  apply Hb; [exact Hnd|].
  intros t Ht. apply Hall. unfold settle.
  apply lookup_insert_is_Some'. right. apply lookup_insert_is_Some'. right.
  apply Hdom, Ht.
Qed.

Lemma balanced_fmap (base d : Q) (f : Q -> Q) (elo : gmap Z Q) :
  (forall r, f r == base + d * (r - base))%Q ->
  balanced base elo -> balanced base (f <$> elo).
Proof.
  intros Hf Hb teams Hnd Hall.
  assert (E : (total_rating base elo teams
               == base * inject_Z (Z.of_nat (length teams)))%Q).
  { apply Hb; [exact Hnd|].
    intros t Ht. apply Hall. rewrite lookup_fmap. destruct Ht as [r ->]. simpl. eauto. }
  unfold total_rating in *.
  rewrite (Qsum_affine base d _ (rating base elo)).
  - rewrite E. lra.
  - intros t. unfold rating. rewrite lookup_fmap.
    destruct (elo !! t) as [r|]; simpl; [apply Hf|lra].
Qed.

Lemma V2_init_team_is_Some (a : Z) (elo : gmap Z Q) (t : Z) :
  is_Some (elo !! t) -> is_Some (V2.init_team a elo !! t).
Proof.
  intros Ht. unfold V2.init_team. destruct (elo !! a) eqn:Ha; [exact Ht|].
  apply lookup_insert_is_Some'. right. exact Ht.
Qed.

Lemma Unified_touch_is_Some (a : Z) (elo : gmap Z Q) (t : Z) :
  is_Some (elo !! t) -> is_Some (Unified.touch a elo !! t).
Proof.
  intros Ht. unfold Unified.touch. destruct (elo !! a) eqn:Ha; [exact Ht|].
  apply lookup_insert_is_Some'. right. exact Ht.
Qed.

Lemma V2_balanced_play_game pow10 ln (elo : gmap Z Q) (g : Game) :
  balanced 1500 elo -> balanced 1500 (V2.play_game pow10 ln elo g).
Proof.
  intros Hb. rewrite V2_play_game_settle. cbv zeta.
  apply (balanced_settle _ _ _ _ elo); [| |exact Hb].
  - intros t. rewrite !V2_init_team_rating. reflexivity.
  - intros t Ht. do 2 apply V2_init_team_is_Some. exact Ht.
Qed.

Lemma Unified_balanced_play_game pow10 ln (elo : gmap Z Q) (g : Game) :
  balanced Unified.ELO_BASE elo ->
  balanced Unified.ELO_BASE (Unified.play_game pow10 ln elo g).
Proof.
  intros Hb. rewrite Unified_play_game_settle. cbv zeta.
  apply (balanced_settle _ _ _ _ elo); [| |exact Hb].
  - intros t. rewrite !Unified_touch_rating. reflexivity.
  - intros t Ht. do 2 apply Unified_touch_is_Some. exact Ht.
Qed.

Lemma balanced_fold_left (base : Q) (step : gmap Z Q -> Game -> gmap Z Q) (games : list Game) :
  (forall elo g, balanced base elo -> balanced base (step elo g)) ->
  forall elo, balanced base elo -> balanced base (fold_left step games elo).
Proof.
  intros Hstep. induction games as [|g games IH]; intros elo Hb; simpl; [exact Hb|].
  apply IH, Hstep, Hb.
Qed.

Lemma V2_balanced_play_season pow10 ln (reg : list Game) (elo : gmap Z Q) (s : Z) :
  balanced 1500 elo -> balanced 1500 (V2.play_season pow10 ln reg elo s).
Proof.
  intros Hb. unfold V2.play_season.
  apply balanced_fold_left; [intros; apply V2_balanced_play_game; assumption|].
  unfold V2.regress_toward_mean. apply (balanced_fmap _ 0.75); [intros r; lra|exact Hb].
Qed.

Lemma V2_balanced_compute_elo pow10 ln (reg : list Game) (through_season : Z) :
  balanced 1500 (V2.compute_elo pow10 ln reg through_season).
Proof.
  unfold V2.compute_elo.
  generalize (seqZ 2003 (through_season + 1 - 2003)).
  intros seasons. generalize (balanced_empty 1500). generalize (∅ : gmap Z Q).
  induction seasons as [|s seasons IH]; intros elo Hb; simpl; [exact Hb|].
  apply IH, V2_balanced_play_season, Hb.
Qed.

(** X1. In the [V2] rating engine the mean rating never moves: after any
    number of seasons, the ratings of any roster without duplicates that
    holds every rated team add up to 1500 per team (a team never seen
    counting for 1500). *)
Theorem V2_mean_rating_is_1500 (pow10 ln : Q -> Q) (reg : list Game) (through_season : Z)
    (teams : list Z) :
  NoDup teams ->
  (forall t, is_Some (V2.compute_elo pow10 ln reg through_season !! t) -> t ∈ teams) ->
  (total_rating 1500 (V2.compute_elo pow10 ln reg through_season) teams
   == 1500 * inject_Z (Z.of_nat (length teams)))%Q.
Proof. intros Hnd Hall. apply V2_balanced_compute_elo; assumption. Qed.

Lemma V2_mean_rating_is_1500_witness :
  NoDup sample_roster /\
  (total_rating 1500 (V2.compute_elo (fun _ => 1%Q) (fun _ => 1%Q) sample_season 2024)
                sample_roster == 1500 * 4)%Q.
Proof.
  assert (Hnd : NoDup sample_roster) by (apply (bool_decide_unpack _); vm_compute; exact I).
  split; [exact Hnd|].
  refine (V2_mean_rating_is_1500 (fun _ => 1%Q) (fun _ => 1%Q) sample_season 2024
            sample_roster Hnd _).
  assert (Hm : map_Forall (fun k _ => k ∈ sample_roster)
                 (V2.compute_elo (fun _ => 1%Q) (fun _ => 1%Q) sample_season 2024))
    by (apply (bool_decide_unpack _); vm_compute; exact I).
  intros t [r Hr]. exact (Hm t r Hr).
Defined.

Lemma snapshot_balanced (season : Z) (elo : gmap Z Q) :
  balanced Unified.ELO_BASE elo ->
  (Qsum (Unified.er_elo <$> Unified.snapshot season elo)
   == Unified.ELO_BASE * inject_Z (Z.of_nat (length (Unified.snapshot season elo))))%Q.
Proof.
  intros Hb. unfold Unified.snapshot.
  rewrite length_fmap, <- list_fmap_compose.
  specialize (Hb (map_to_list elo).*1 (NoDup_fst_map_to_list elo)).
  rewrite length_fmap in Hb. rewrite <- Hb.
  - unfold total_rating. rewrite <- list_fmap_compose. f_equiv.
    apply list_fmap_ext. intros i [k v] Hi. simpl. unfold rating.
    apply list_elem_of_lookup_2, elem_of_map_to_list in Hi. rewrite Hi. reflexivity.
  - intros t [r Hr]. apply list_elem_of_fmap. exists (t, r). split; [reflexivity|].
    apply elem_of_map_to_list, Hr.
Qed.

Lemma season_rows_snapshot (s season : Z) (elo : gmap Z Q) :
  season_rows s (Unified.snapshot season elo) =
  if decide (season = s) then Unified.snapshot season elo else [].
Proof.
  unfold season_rows, Unified.snapshot.
  induction (map_to_list elo) as [|kv l IH]; [destruct (decide _); reflexivity|].
  rewrite fmap_cons, filter_cons. cbn [Unified.er_Season]. rewrite IH.
  destruct (decide (season = s)); reflexivity.
Qed.

Lemma Qsum_app (a b : list Q) : (Qsum (a ++ b) == Qsum a + Qsum b)%Q.
Proof.
  unfold Qsum. induction a as [|q a IH]; simpl; [lra|]. rewrite IH. lra.
Qed.

Lemma season_rows_app_snapshot (s season : Z) (elo : gmap Z Q) (frame : list Unified.EloRow) :
  balanced Unified.ELO_BASE elo ->
  (Qsum (Unified.er_elo <$> season_rows s frame)
   == Unified.ELO_BASE * inject_Z (Z.of_nat (length (season_rows s frame))))%Q ->
  (Qsum (Unified.er_elo <$> season_rows s (frame ++ Unified.snapshot season elo))
   == Unified.ELO_BASE
      * inject_Z (Z.of_nat (length (season_rows s (frame ++ Unified.snapshot season elo)))))%Q.
Proof.
  intros Hb Hf.
  assert (E : season_rows s (frame ++ Unified.snapshot season elo)
              = season_rows s frame ++ season_rows s (Unified.snapshot season elo))
    by apply filter_app.
  rewrite E, season_rows_snapshot.
  destruct (decide (season = s)) as [_|_]; [|rewrite app_nil_r; exact Hf].
  rewrite fmap_app, length_app, Qsum_app, Hf, (snapshot_balanced season elo Hb).
  rewrite Nat2Z.inj_add, inject_Z_plus. lra.
Qed.

Lemma Unified_balanced_regress (elo : gmap Z Q) :
  balanced Unified.ELO_BASE elo -> balanced Unified.ELO_BASE (Unified.regress_toward_base elo).
Proof.
  intros Hb. unfold Unified.regress_toward_base.
  apply (balanced_fmap _ Unified.ELO_DECAY); [intros r; lra|exact Hb].
Qed.

Lemma season_loop_balanced pow10 ln (regular : list Game) (b s : Z) (seasons : list Z) :
  forall elo frame,
    balanced Unified.ELO_BASE elo ->
    (Qsum (Unified.er_elo <$> season_rows s frame)
     == Unified.ELO_BASE * inject_Z (Z.of_nat (length (season_rows s frame))))%Q ->
    let out := Unified.season_loop pow10 ln regular b seasons elo frame in
    balanced Unified.ELO_BASE out.1 /\
    (Qsum (Unified.er_elo <$> season_rows s out.2)
     == Unified.ELO_BASE * inject_Z (Z.of_nat (length (season_rows s out.2))))%Q.
Proof.
  induction seasons as [|season rest IH]; intros elo frame Hb Hf; simpl.
  - split; assumption.
  - destruct (b <=? season); [split; assumption|].
    assert (Hb' : balanced Unified.ELO_BASE
                    (fold_left (Unified.play_game pow10 ln)
                       (sort_by_day (games_of_season regular season))
                       (Unified.regress_toward_base elo))).
    { apply balanced_fold_left; [intros; apply Unified_balanced_play_game; assumption|].
      apply Unified_balanced_regress, Hb. }
    apply IH; [exact Hb'|]. apply season_rows_app_snapshot; assumption.
Qed.

(** X2. In the frame [Unified.compute_elo] returns, the ratings of every
    season average exactly [ELO_BASE]: the ['elo'] column of the rows of a
    season adds up to [ELO_BASE] times their number. *)
Theorem Unified_season_mean_rating_is_base (pow10 ln : Q -> Q) (regular : list Game)
    (backtest_season s : Z) :
  let rows := season_rows s (Unified.compute_elo pow10 ln regular backtest_season) in
  (Qsum (Unified.er_elo <$> rows)
   == Unified.ELO_BASE * inject_Z (Z.of_nat (length rows)))%Q.
Proof.
  cbv zeta. unfold Unified.compute_elo.
  pose proof (season_loop_balanced pow10 ln regular backtest_season s
                (Unified.seasons_of regular) ∅ [] (balanced_empty _)) as H.
  destruct (Unified.season_loop pow10 ln regular backtest_season
              (Unified.seasons_of regular) ∅ []) as [elo frame].
  destruct H as [Hb Hf]; [unfold season_rows; rewrite filter_nil; vm_compute; reflexivity|].
  apply season_rows_app_snapshot; [|exact Hf].
  apply Unified_balanced_regress, Hb.
Qed.

(** ** The direction of a rating update *)

Lemma expected_share_bounds (p : Q) : (0 < p)%Q -> (0 < 1 / (1 + p) /\ 1 / (1 + p) < 1)%Q.
Proof.
  intros Hp. split.
  - apply Qlt_shift_div_l; lra.
  - apply Qlt_shift_div_r; lra.
Qed.

Lemma margin_log_arg (m : Z) : (1 <= inject_Z (Z.abs m + 1))%Q.
Proof. change 1%Q with (inject_Z 1). rewrite <- Zle_Qle. lia. Qed.

Lemma Unified_game_update_bounds pow10 ln (elo : gmap Z Q) (g : Game) :
  (forall x, 0 < pow10 x)%Q -> (forall x, 1 <= x -> 0 <= ln x)%Q ->
  (0 <= Unified.game_update pow10 ln elo g /\
   Unified.game_update pow10 ln elo g
     <= Unified.ELO_K * ln (inject_Z (Z.abs (WScore g - LScore g) + 1)))%Q.
Proof.
  intros Hpow Hln. unfold Unified.game_update. cbv zeta.
  set (p := pow10 _).
  pose proof (expected_share_bounds p (Hpow _)) as [He0 He1].
  pose proof (Hln _ (margin_log_arg (WScore g - LScore g))) as Hm.
  set (m := ln _) in *. set (e := (1 / (1 + p))%Q) in *.
  unfold Unified.ELO_K. split; nra.
Qed.

(** X3. In the [Unified] rating engine, whenever [10 ** x] is positive and
    [np.log] is non-negative from 1 on (as they are), a game between two
    different teams never lowers the winner's rating and never raises the
    loser's, and the winner gains at most [ELO_K * log(|margin| + 1)]. *)
Theorem Unified_win_never_lowers_rating (pow10 ln : Q -> Q) (elo : gmap Z Q) (g : Game) :
  (forall x, 0 < pow10 x)%Q -> (forall x, 1 <= x -> 0 <= ln x)%Q ->
  WTeamID g <> LTeamID g ->
  let base := Unified.ELO_BASE in
  let elo' := Unified.play_game pow10 ln elo g in
  (rating base elo (WTeamID g) <= rating base elo' (WTeamID g))%Q /\
  (rating base elo' (LTeamID g) <= rating base elo (LTeamID g))%Q /\
  (rating base elo' (WTeamID g) - rating base elo (WTeamID g)
   <= Unified.ELO_K * ln (inject_Z (Z.abs (WScore g - LScore g) + 1)))%Q.
Proof.
  intros Hpow Hln Hne base elo'. subst base elo'.
  rewrite Unified_play_game_settle. cbv zeta.
  set (elo0 := Unified.touch (WTeamID g) (Unified.touch (LTeamID g) elo)).
  assert (H0 : forall t, rating Unified.ELO_BASE elo0 t = rating Unified.ELO_BASE elo t).
  { intros t. unfold elo0. rewrite !Unified_touch_rating. reflexivity. }
  pose proof (Unified_game_update_bounds pow10 ln elo0 g Hpow Hln) as [Hu0 Hu1].
  set (u := Unified.game_update pow10 ln elo0 g) in *.
  rewrite !settle_rating, !H0.
  destruct (decide (WTeamID g = WTeamID g)); [|congruence].
  destruct (decide (WTeamID g = LTeamID g)); [congruence|].
  destruct (decide (LTeamID g = WTeamID g)); [congruence|].
  destruct (decide (LTeamID g = LTeamID g)); [|congruence].
  repeat split; lra.
Qed.

Lemma Unified_win_never_lowers_rating_witness :
  (rating Unified.ELO_BASE sample_elo 1101
   <= rating Unified.ELO_BASE
        (Unified.play_game (fun _ => 1%Q) (fun _ => 1%Q) sample_elo sample_game) 1101)%Q.
Proof.
  refine (proj1 (Unified_win_never_lowers_rating (fun _ => 1%Q) (fun _ => 1%Q)
                   sample_elo sample_game _ _ _)).
  - intros x. reflexivity.
  - intros x _. discriminate.
  - simpl. lia.
Defined.

Lemma Qdiv_pos_neg (a b : Q) : (0 < a)%Q -> (b < 0)%Q -> (a / b < 0)%Q.
Proof.
  intros Ha Hb.
  assert (E : (a / b == - (a / (- b)))%Q) by (field; lra).
  rewrite E. assert (0 < a / (- b))%Q by (apply Qlt_shift_div_l; lra). lra.
Qed.

Lemma V2_game_update_sign pow10 ln (elo : gmap Z Q) (g : Game) :
  (forall x, 0 < pow10 x)%Q -> (forall x, 1 <= x -> 0 <= ln x)%Q ->
  let gap := (V2.elo_at elo (WTeamID g) - V2.elo_at elo (LTeamID g))%Q in
  ((- 2200 < gap -> 0 <= V2.game_update pow10 ln elo g) /\
   (gap < - 2200 -> V2.game_update pow10 ln elo g <= 0))%Q.
Proof.
  intros Hpow Hln gap. unfold V2.game_update. cbv zeta. fold gap.
  set (p := pow10 _).
  pose proof (expected_share_bounds p (Hpow _)) as [He0 He1].
  pose proof (Hln _ (margin_log_arg (WScore g - LScore g))) as Hm.
  set (m := ln _) in *. set (e := (1 / (1 + p))%Q) in *.
  unfold V2.K. split; intros Hgap.
  - assert (Hd : (0 < 2.2 / (0.001 * gap + 2.2))%Q) by (apply Qlt_shift_div_l; lra).
    set (d := (2.2 / (0.001 * gap + 2.2))%Q) in *.
    assert (Hmd : (0 <= m * d)%Q) by nra.
    set (md := (m * d)%Q) in *. nra.
  - assert (Hd : (2.2 / (0.001 * gap + 2.2) < 0)%Q) by (apply Qdiv_pos_neg; lra).
    set (d := (2.2 / (0.001 * gap + 2.2))%Q) in *.
    assert (Hmd : (m * d <= 0)%Q) by nra.
    set (md := (m * d)%Q) in *. nra.
Qed.

(** X4. In the [V2] rating engine the margin multiplier carries the factor
    [2.2 / (0.001 * (elo_w - elo_l) + 2.2)], whose sign is that of
    [elo_w - elo_l + 2200]: a win never lowers the winner's rating as long
    as the winner stood less than 2200 points below the loser, and never
    raises it when the winner stood more than 2200 points below. *)
Theorem V2_win_rating_direction (pow10 ln : Q -> Q) (elo : gmap Z Q) (g : Game) :
  (forall x, 0 < pow10 x)%Q -> (forall x, 1 <= x -> 0 <= ln x)%Q ->
  WTeamID g <> LTeamID g ->
  let gap := (rating 1500 elo (WTeamID g) - rating 1500 elo (LTeamID g))%Q in
  let elo' := V2.play_game pow10 ln elo g in
  ((- 2200 < gap ->
    rating 1500 elo (WTeamID g) <= rating 1500 elo' (WTeamID g) /\
    rating 1500 elo' (LTeamID g) <= rating 1500 elo (LTeamID g)) /\
   (gap < - 2200 ->
    rating 1500 elo' (WTeamID g) <= rating 1500 elo (WTeamID g) /\
    rating 1500 elo (LTeamID g) <= rating 1500 elo' (LTeamID g)))%Q.
Proof.
  intros Hpow Hln Hne gap elo'. subst elo'.
  rewrite V2_play_game_settle. cbv zeta.
  set (elo0 := V2.init_team (LTeamID g) (V2.init_team (WTeamID g) elo)).
  assert (H0 : forall t, rating 1500 elo0 t = rating 1500 elo t).
  { intros t. unfold elo0. rewrite !V2_init_team_rating. reflexivity. }
  pose proof (V2_game_update_sign pow10 ln elo0 g Hpow Hln) as Hu. cbv zeta in Hu.
  change (V2.elo_at elo0) with (rating 1500 elo0) in Hu. rewrite !H0 in Hu. fold gap in Hu.
  set (u := V2.game_update pow10 ln elo0 g) in *.
  rewrite !settle_rating, !H0.
  destruct (decide (WTeamID g = WTeamID g)); [|congruence].
  destruct (decide (WTeamID g = LTeamID g)); [congruence|].
  destruct (decide (LTeamID g = WTeamID g)); [congruence|].
  destruct (decide (LTeamID g = LTeamID g)); [|congruence].
  destruct Hu as [Hpos Hneg].
  split; intros Hgap; [specialize (Hpos Hgap)|specialize (Hneg Hgap)]; split; lra.
Qed.

Lemma V2_win_rating_direction_witness :
  (rating 1500 sample_elo 1101
   <= rating 1500 (V2.play_game (fun _ => 1%Q) (fun _ => 1%Q) sample_elo sample_game) 1101)%Q.
Proof.
  refine (proj1 (proj1 (V2_win_rating_direction (fun _ => 1%Q) (fun _ => 1%Q)
                          sample_elo sample_game _ _ _) _)).
  - intros x. reflexivity.
  - intros x _. discriminate.
  - simpl. lia.
  - reflexivity.
Defined.

(** ** Seasons read by the unified pipeline *)

(** X5. The Elo frame of the unified pipeline does not depend on the
    games of the backtest season or of any later season: two result
    tables that hold the same games of the seasons before the backtest
    season give the same frame, the rows of the backtest season
    included. *)
Theorem Unified_elo_ignores_backtest_season (pow10 ln : Q -> Q)
    (regular regular' : list Game) (backtest_season : Z) :
  filter (fun g => Season g < backtest_season) regular
  = filter (fun g => Season g < backtest_season) regular' ->
  Unified.compute_elo pow10 ln regular backtest_season
  = Unified.compute_elo pow10 ln regular' backtest_season.
Proof.
  intros H.
  rewrite (Unified_compute_elo_reads_earlier_seasons pow10 ln regular).
  rewrite (Unified_compute_elo_reads_earlier_seasons pow10 ln regular').
  rewrite H. reflexivity.
Qed.

Lemma Unified_elo_ignores_backtest_season_witness :
  Unified.compute_elo (fun _ => 1%Q) (fun _ => 1%Q) sample_season_and_2025 2025
  = Unified.compute_elo (fun _ => 1%Q) (fun _ => 1%Q) sample_season 2025.
Proof.
  apply (Unified_elo_ignores_backtest_season (fun _ => 1%Q) (fun _ => 1%Q)
           sample_season_and_2025 sample_season 2025).
  reflexivity.
Defined.

(** X6. The train/test split of [train_model] keeps the seasons apart,
    with or without its fallback on the last available season: every
    training row is of an earlier season than every test row, all test
    rows are of one season that is at most the backtest season, and the
    test rows are exactly the rows of the backtest season whenever the
    frame has one. *)
Theorem train_seasons_precede_test_season (td : list Unified.TdRow) (backtest_season : Z) :
  let split := Unified.split_seasons td backtest_season in
  (forall r r', r ∈ split.1 -> r' ∈ split.2 -> Unified.td_Season r < Unified.td_Season r') /\
  (forall r r', r ∈ split.2 -> r' ∈ split.2 -> Unified.td_Season r = Unified.td_Season r') /\
  (forall r, r ∈ split.2 -> Unified.td_Season r <= backtest_season) /\
  (forall r0, r0 ∈ td -> Unified.td_Season r0 = backtest_season ->
     forall r, r ∈ split.2 <-> r ∈ td /\ Unified.td_Season r = backtest_season).
Proof.
  cbv zeta. unfold Unified.split_seasons.
  set (train := filter (fun r => Unified.td_Season r < backtest_season) td).
  set (test := filter (fun r => Unified.td_Season r = backtest_season) td).
  assert (Htrain : forall r, r ∈ train -> Unified.td_Season r < backtest_season).
  { intros r Hr. apply list_elem_of_filter in Hr. tauto. }
  assert (Htest : forall r, r ∈ test <-> r ∈ td /\ Unified.td_Season r = backtest_season).
  { intros r. unfold test. rewrite list_elem_of_filter. tauto. }
  destruct test as [|t0 test'] eqn:Et.
  - assert (Hnone : forall r0, r0 ∈ td -> Unified.td_Season r0 = backtest_season -> False).
    { intros r0 Hin Hs. assert (H : r0 ∈ []) by (apply Htest; auto). inversion H. }
    destruct train as [|r0 train'] eqn:Etr; cbn [fst snd].
    + split; [|split; [|split]].
      * intros r r' Hr. inversion Hr.
      * intros r r' Hr. inversion Hr.
      * intros r Hr. inversion Hr.
      * intros r1 Hin Hs. exfalso. exact (Hnone r1 Hin Hs).
    + split; [|split; [|split]].
      * intros r r' Hr Hr'. apply list_elem_of_filter in Hr as [Hr _].
        apply list_elem_of_filter in Hr' as [Hr' _]. lia.
      * intros r r' Hr Hr'. apply list_elem_of_filter in Hr as [Hr _].
        apply list_elem_of_filter in Hr' as [Hr' _]. lia.
      * intros r Hr. apply list_elem_of_filter in Hr as [_ Hr].
        specialize (Htrain r Hr). lia.
      * intros r1 Hin Hs. exfalso. exact (Hnone r1 Hin Hs).
  - cbn [fst snd]. rewrite <- Et in *. split; [|split; [|split]].
    + intros r r' Hr Hr'. apply Htrain in Hr. apply Htest in Hr'. lia.
    + intros r r' Hr Hr'. apply Htest in Hr, Hr'. lia.
    + intros r Hr. apply Htest in Hr. lia.
    + intros r1 _ _ r. apply Htest.
Qed.

(** With no row of season 2025 the split falls back on 2023, the last
    season of the frame, and trains on 2022. *)
Example train_model_fallback_split :
  let split := Unified.split_seasons sample_td_early 2025 in
  Unified.td_Season <$> split.1 = [2022] /\ Unified.td_Season <$> split.2 = [2023; 2023].
Proof. split; reflexivity. Qed.

(** ** Tiers follow the ranks *)

(** X7. Tiers follow the ranks: with the thresholds of the pipeline a
    better (smaller) rank never gives a worse tier, and a better tempo
    rank never gives a slower tempo style. *)
Theorem tiers_monotone_in_rank (r r' : Q) :
  (r <= r')%Q ->
  tier_index (Unified.get_tier (Some r) Unified.TIER_THRESHOLDS)
    <= tier_index (Unified.get_tier (Some r') Unified.TIER_THRESHOLDS) /\
  tempo_index (Unified.get_tempo (Some r)) <= tempo_index (Unified.get_tempo (Some r')).
Proof.
  intros Hr. unfold Unified.get_tier, Unified.get_tempo. simpl.
  repeat match goal with
         | |- context [Qle_bool ?a ?b] =>
             let E := fresh "E" in
             destruct (Qle_bool a b) eqn:E;
             [apply Qle_bool_iff in E | apply not_true_iff_false in E;
                                        rewrite Qle_bool_iff in E]
         end; simpl; split; try lia; exfalso; lra.
Qed.

Lemma tiers_monotone_in_rank_witness :
  tier_index (Unified.get_tier (Some 10%Q) Unified.TIER_THRESHOLDS)
    <= tier_index (Unified.get_tier (Some 200%Q) Unified.TIER_THRESHOLDS).
Proof.
  refine (proj1 (tiers_monotone_in_rank 10 200 _)). discriminate.
Defined.

(** ** The cells of the matchup matrix are frequencies *)

Lemma rekey_get_origin {K K' V V' : Type} `{EqDecision K'} (fk : K -> K') (fv : V -> V')
    (d : list (K * V)) (r0 : list (K' * V')) (key : K') (c : V') :
  dict_get (rekey fk fv d r0) key = Some c ->
  dict_get r0 key = Some c \/ exists kv, kv ∈ d /\ c = fv kv.2.
Proof.
  unfold rekey. revert r0. induction d as [|kv d IH]; intros r0 Hg; simpl in Hg; [auto|].
  apply IH in Hg as [Hg|(kv' & Hin & ->)].
  - unfold od_set in Hg. rewrite dict_get_od_alter in Hg.
    destruct (decide (fk kv.1 = key)).
    + right. exists kv. split; [left|congruence].
    + left. exact Hg.
  - right. exists kv'. split; [right; exact Hin|reflexivity].
Qed.

Lemma dict_get_elem_NoDup {K V : Type} `{EqDecision K} (d : list (K * V)) (k : K) (v : V) :
  NoDup d.*1 -> (k, v) ∈ d -> dict_get d k = Some v.
Proof.
  induction d as [|[k0 v0] d IH]; intros Hnd Hin; [inversion Hin|].
  rewrite fmap_cons in Hnd. cbn [fst] in Hnd. apply NoDup_cons in Hnd as [Hnin Hnd].
  simpl. apply elem_of_cons in Hin as [E|Hin].
  - injection E as -> ->. destruct (decide (k0 = k0)); [reflexivity|congruence].
  - destruct (decide (k0 = k)) as [->|_]; [|auto].
    exfalso. apply Hnin. apply list_elem_of_fmap. exists (k, v). split; [reflexivity|exact Hin].
Qed.

Lemma tally_bounded_fold rows m :
  Forall outcome_is_bit rows -> tally_bounded m ->
  tally_bounded (fold_left Unified.tally_row rows m).
Proof.
  intros Hrows. revert m.
  induction Hrows as [|row rows Hrow _ IH]; intros m Hm; simpl; [exact Hm|].
  apply IH. intros k. rewrite tally_row_val. cbv zeta.
  specialize (Hm k). unfold outcome_is_bit in Hrow.
  repeat (destruct (decide _)); simpl; lia.
Qed.

Lemma with_win_rate_frequency (e : Unified.Tally) :
  1 <= Unified.total e -> 0 <= Unified.wins e <= Unified.total e ->
  let c := Unified.with_win_rate e in
  (Unified.win_rate c == inject_Z (Unified.cell_wins c) / inject_Z (Unified.cell_total c))%Q /\
  (0 <= Unified.win_rate c /\ Unified.win_rate c <= 1)%Q.
Proof.
  intros Ht Hw. unfold Unified.with_win_rate. simpl.
  destruct (Z.ltb_spec 0 (Unified.total e)) as [_|Hle]; [|lia].
  assert (Hpos : (0 < inject_Z (Unified.total e))%Q).
  { change 0%Q with (inject_Z 0). rewrite <- Zlt_Qlt. lia. }
  split; [reflexivity|]. split.
  - apply Qle_shift_div_l; [exact Hpos|]. rewrite Qmult_0_l.
    change 0%Q with (inject_Z 0). rewrite <- Zle_Qle. lia.
  - apply Qle_shift_div_r; [exact Hpos|]. rewrite Qmult_1_l. rewrite <- Zle_Qle. lia.
Qed.

(** X8. Whenever the recorded outcomes are 0 or 1, every entry of the
    matrix [build_matchup_matrix] returns is a frequency: it counts at
    least one game, its wins lie between 0 and its total, and its win rate
    is wins / total, a number between 0 and 1 (the fallback 0.5 of an
    empty entry is never stored). *)
Theorem matchup_matrix_cells_are_frequencies
    (tourney_df : list Unified.TourneyRow) (key : string) (c : Unified.Cell) :
  Forall outcome_is_bit tourney_df ->
  dict_get (Unified.build_matchup_matrix tourney_df) key = Some c ->
  1 <= Unified.cell_total c /\
  0 <= Unified.cell_wins c <= Unified.cell_total c /\
  (Unified.win_rate c == inject_Z (Unified.cell_wins c) / inject_Z (Unified.cell_total c))%Q /\
  (0 <= Unified.win_rate c /\ Unified.win_rate c <= 1)%Q.
Proof.
  intros Hrows Hget. unfold Unified.build_matchup_matrix in Hget.
  apply (rekey_get_origin Unified.matchup_key Unified.with_win_rate) in Hget
    as [Hget|([k e] & Hin & ->)]; [discriminate|].
  pose proof (tally_inv_fold tourney_df [] tally_inv_nil) as (Hnd & _ & _ & Hpres).
  assert (Hb : tally_bounded (fold_left Unified.tally_row tourney_df [])).
  { apply tally_bounded_fold; [exact Hrows|]. intros k'. unfold tally_val. simpl. lia. }
  set (m := fold_left Unified.tally_row tourney_df []) in *.
  pose proof (dict_get_elem_NoDup m k e Hnd Hin) as Hk.
  assert (Hv : tally_val m k = e) by (unfold tally_val; rewrite Hk; reflexivity).
  assert (Ht : 1 <= Unified.total e).
  { rewrite <- Hv. assert (0 < Unified.total (tally_val m k)); [|lia].
    apply Hpres. rewrite Hk. eauto. }
  assert (Hw : 0 <= Unified.wins e <= Unified.total e) by (rewrite <- Hv; apply Hb).
  cbn [snd]. pose proof (with_win_rate_frequency e Ht Hw) as Hf. cbv zeta in Hf.
  split; [exact Ht|]. split; [exact Hw|]. exact Hf.
Qed.

Lemma matchup_matrix_cells_are_frequencies_witness :
  1 <= Unified.cell_total (Unified.mkCell 2 3 (2 # 3)).
Proof.
  refine (proj1 (matchup_matrix_cells_are_frequencies sample_tourney_df
                   "The Juggernaut__vs__The Underdog" (Unified.mkCell 2 3 (2 # 3)) _ _)).
  - repeat constructor; right; reflexivity.
  - reflexivity.
Defined.

(** X9. The archetype edge is antisymmetric.  On a matrix built from rows
    labelled with archetypes, [get_arch_edge] reports for the pair (A,B)
    and for the pair (B,A) the same number of games and win rates that add
    up to 1, a pair never seen reading the default (0.5, 0) both ways; so
    the feature [arch_matchup_edge = win rate - 0.5] changes sign when the
    two teams are swapped. *)
Theorem arch_edge_antisymmetric (tourney_df : list Unified.TourneyRow) (A B : string) :
  Forall (fun row => is_archetype (row_a1 row) /\ is_archetype (row_a2 row)) tourney_df ->
  is_archetype A -> is_archetype B ->
  let arch_matrix := Unified.build_matchup_matrix tourney_df in
  let ab := Unified.get_arch_edge arch_matrix A B in
  let ba := Unified.get_arch_edge arch_matrix B A in
  (ab.1 + ba.1 == 1)%Q /\ ab.2 = ba.2 /\ (ab.1 - 0.5 == - (ba.1 - 0.5))%Q.
Proof.
  intros Hrows HA HB arch_matrix ab ba.
  assert (Hrows' : Forall (fun row => has_underscore (row_a1 row) = false /\
                                      has_underscore (row_a2 row) = false) tourney_df).
  { eapply Forall_impl; [exact Hrows|]. intros row [H1 H2].
    split; apply is_archetype_no_underscore; assumption. }
  apply is_archetype_no_underscore in HA, HB.
  assert (Hsum : (ab.1 + ba.1 == 1)%Q /\ ab.2 = ba.2).
  { subst ab ba. unfold Unified.get_arch_edge. cbv zeta.
    change (A +:+ "__vs__" +:+ B) with (Unified.matchup_key (A, B)).
    change (B +:+ "__vs__" +:+ A) with (Unified.matchup_key (B, A)).
    destruct (dict_get arch_matrix (Unified.matchup_key (A, B))) as [cAB|] eqn:HAB.
    - destruct (matchup_matrix_complementarity_general tourney_df A B cAB Hrows' HA HB HAB)
        as (_ & (cBA & HBA & Htot & _ & Hrate) & _).
      fold arch_matrix in HBA. rewrite HBA. simpl. split; [exact Hrate|congruence].
    - destruct (dict_get arch_matrix (Unified.matchup_key (B, A))) as [cBA|] eqn:HBA.
      + destruct (matchup_matrix_complementarity_general tourney_df B A cBA Hrows' HB HA HBA)
          as (_ & (cAB & HAB' & _) & _).
        fold arch_matrix in HAB'. congruence.
      + simpl. split; [reflexivity|reflexivity]. }
  destruct Hsum as [Hs Hn]. split; [exact Hs|]. split; [exact Hn|]. lra.
Qed.

Lemma arch_edge_antisymmetric_witness :
  let arch_matrix := Unified.build_matchup_matrix sample_tourney_df in
  ((Unified.get_arch_edge arch_matrix "The Juggernaut" "The Underdog").1
   + (Unified.get_arch_edge arch_matrix "The Underdog" "The Juggernaut").1 == 1)%Q.
Proof.
  refine (proj1 (arch_edge_antisymmetric sample_tourney_df
                   "The Juggernaut" "The Underdog" _ _ _)).
  - repeat constructor; apply (bool_decide_unpack _); vm_compute; exact I.
  - apply (bool_decide_unpack _); vm_compute; exact I.
  - apply (bool_decide_unpack _); vm_compute; exact I.
Defined.

(** ** Season statistics of the unified pipeline *)

Lemma col_mean_finite (l : list Z) : l <> [] -> is_finite (col_mean l).
Proof. destruct l; [congruence|]. intros _. eexists; reflexivity. Qed.

Lemma finite_guarded_ndiv (x d : num) (q : Q) :
  is_finite x -> is_finite (np_where (ngt0 d) (ndiv x d) (Some q)).
Proof.
  intros [a ->]. destruct d as [b|]; simpl; [|eexists; reflexivity].
  destruct (Qle_bool b 0) eqn:E; simpl; [eexists; reflexivity|].
  destruct (Qeq_bool b 0) eqn:E0; [|eexists; reflexivity].
  apply Qeq_bool_iff in E0. apply not_true_iff_false in E. rewrite Qle_bool_iff in E.
  exfalso. apply E. lra.
Qed.

Lemma finite_guarded_ndiv_scaled (x d : num) (k q : Q) :
  is_finite x -> is_finite (np_where (ngt0 d) (nmul (ndiv x d) (Some k)) (Some q)).
Proof.
  intros Hx. pose proof (finite_guarded_ndiv x d q Hx) as H.
  destruct (ngt0 d); simpl in *; [|exact H].
  destruct H as [r ->]. eexists; reflexivity.
Qed.

Lemma Qpow8_zero (a : Q) : (0 <= a ^ 8)%Q /\ ((a ^ 8 == 0)%Q -> (a == 0)%Q).
Proof.
  assert (E : (a ^ 8 == ((a * a) * (a * a)) * ((a * a) * (a * a)))%Q) by (simpl; ring).
  rewrite E. split; [nra|].
  intros H. apply Qmult_integral in H as [H|H];
    apply Qmult_integral in H as [H|H];
    apply Qmult_integral in H as [H|H]; exact H.
Qed.

Lemma finite_pyth (ppg opp_ppg : num) :
  is_finite ppg -> is_finite opp_ppg ->
  is_finite (np_where (ngt0 (nadd ppg opp_ppg))
               (ndiv (Unified.npow8 ppg) (nadd (Unified.npow8 ppg) (Unified.npow8 opp_ppg)))
               (Some 0.5%Q)).
Proof.
  intros [a ->] [b ->]. unfold np_where, ngt0, nadd, nlift2, ndiv, Unified.npow8.
  destruct (Qle_bool (a + b) 0) eqn:E; cbn [negb]; [eexists; reflexivity|].
  destruct (Qeq_bool (a ^ 8 + b ^ 8) 0) eqn:E0; [|eexists; reflexivity].
  apply Qeq_bool_iff in E0. apply not_true_iff_false in E. rewrite Qle_bool_iff in E.
  destruct (Qpow8_zero a) as [Ha Ha0]. destruct (Qpow8_zero b) as [Hb Hb0].
  exfalso. apply E.
  assert (a == 0)%Q by (apply Ha0; lra).
  assert (b == 0)%Q by (apply Hb0; lra). lra.
Qed.

(** X10. In the unified season statistics a team that won at least one
    game of the season has only finite statistics: NaN entries arise for
    winless teams alone. *)
Theorem Unified_statistics_finite_after_a_win
    (regular : list Game) (season team : Z) (row : Unified.AggRow) :
  Unified.season_team_row regular season team = Some row ->
  games_won regular season team <> [] ->
  agg_finite row.
Proof.
  unfold Unified.season_team_row, games_won.
  set (wgrp := filter (fun g => Season g = season /\ WTeamID g = team) regular).
  set (lgrp := filter (fun g => Season g = season /\ LTeamID g = team) regular).
  intros Hrow Hw.
  destruct wgrp as [|g0 wgrp']; [congruence|]. cbv beta iota in Hrow.
  apply (inj Some) in Hrow. subst row.
  assert (Hmean : forall col : Game -> Z, is_finite (col_mean (col <$> g0 :: wgrp'))).
  { intros col. apply col_mean_finite. discriminate. }
  assert (Hlen : is_finite (Unified.group_len (g0 :: wgrp'))) by (eexists; reflexivity).
  unfold agg_finite.
  cbv [Unified.win_pct Unified.ppg Unified.opp_ppg Unified.point_diff Unified.pyth
       Unified.possessions Unified.off_eff Unified.def_eff Unified.net_eff
       Unified.efg_pct Unified.to_rate Unified.ft_rate Unified.oreb_pct
       Unified.three_rate Unified.ast_rate Unified.blk_rate Unified.stl_rate Unified.tempo].
  repeat match goal with |- _ /\ _ => split end;
    auto 10 using finite_guarded_ndiv, finite_guarded_ndiv_scaled, finite_pyth with finite.
Qed.

Lemma Unified_statistics_finite_after_a_win_witness :
  exists row, Unified.season_team_row [sample_game] 2024 1101 = Some row /\ agg_finite row.
Proof.
  eexists. split; [reflexivity|].
  eapply (Unified_statistics_finite_after_a_win [sample_game] 2024 1101);
    [reflexivity|]. vm_compute. discriminate.
Defined.

Lemma group_len_cons (g : Game) (grp : list Game) :
  Unified.group_len (g :: grp) = Some (inject_Z (Z.of_nat (length (g :: grp)))).
Proof. reflexivity. Qed.

(** X11. The win percentage of the unified season statistics is
    wins / (wins + losses) only for a team that has both a win and a loss
    in the season; a team without a loss (and likewise a team without a
    win) has one count missing and gets the fallback 0.5, so an undefeated
    team is recorded at 0.5. *)
Theorem Unified_win_pct_values
    (regular : list Game) (season team : Z) (row : Unified.AggRow) :
  Unified.season_team_row regular season team = Some row ->
  let w := Z.of_nat (length (games_won regular season team)) in
  let l := Z.of_nat (length (games_lost regular season team)) in
  (w = 0 \/ l = 0 -> Unified.win_pct row = Some 0.5%Q) /\
  (0 < w -> 0 < l ->
   exists q, Unified.win_pct row = Some q /\ (q == inject_Z w / inject_Z (w + l))%Q /\
             (0 < q /\ q < 1)%Q).
Proof.
  cbv zeta. unfold Unified.season_team_row, games_won, games_lost.
  set (wgrp := filter (fun g => Season g = season /\ WTeamID g = team) regular).
  set (lgrp := filter (fun g => Season g = season /\ LTeamID g = team) regular).
  intros Hrow.
  destruct wgrp as [|g0 wgrp'], lgrp as [|g1 lgrp']; cbv beta iota in Hrow;
    [discriminate| | |]; apply (inj Some) in Hrow; subst row; cbv [Unified.win_pct].
  - split; [reflexivity|]. intros Hw _. cbn [length] in Hw. lia.
  - split; [reflexivity|]. intros _ Hl. cbn [length] in Hl. lia.
  - split; [intros [H|H]; cbn [length] in H; lia|]. intros _ _.
    rewrite !group_len_cons.
    assert (Hw0 : 0 < Z.of_nat (length (g0 :: wgrp'))) by (cbn [length]; lia).
    assert (Hl0 : 0 < Z.of_nat (length (g1 :: lgrp'))) by (cbn [length]; lia).
    set (w := Z.of_nat (length (g0 :: wgrp'))) in *.
    set (l := Z.of_nat (length (g1 :: lgrp'))) in *.
    assert (Hw' : (0 < inject_Z w)%Q) by (change 0%Q with (inject_Z 0); rewrite <- Zlt_Qlt; lia).
    assert (Hl' : (0 < inject_Z l)%Q) by (change 0%Q with (inject_Z 0); rewrite <- Zlt_Qlt; lia).
    unfold np_where, ngt0, nadd, nlift2, ndiv.
    destruct (Qle_bool (inject_Z w + inject_Z l) 0) eqn:E.
    { apply Qle_bool_iff in E. lra. }
    cbn [negb].
    destruct (Qeq_bool (inject_Z w + inject_Z l) 0) eqn:E0.
    { apply Qeq_bool_iff in E0. lra. }
    eexists. split; [reflexivity|]. rewrite inject_Z_plus. split; [reflexivity|].
    split.
    + apply Qlt_shift_div_l; lra.
    + apply Qlt_shift_div_r; lra.
Qed.

Lemma Unified_win_pct_values_witness :
  exists row, Unified.season_team_row [sample_game] 2024 1101 = Some row /\
              Unified.win_pct row = Some 0.5%Q.
Proof.
  eexists. split; [reflexivity|].
  refine (proj1 (Unified_win_pct_values [sample_game] 2024 1101 _ _) _);
    [reflexivity|]. right. reflexivity.
Defined.

(** X12. The efficiency statistics of the unified season statistics (points
    per game, opponent points, point differential, Pythagorean
    expectation, possessions, efficiencies, shooting, turnover, rebound,
    assist, block and steal rates, tempo) are computed from the games the
    team won: two result tables that agree on the games a team won in a
    season give it the same value for each of them, whatever it lost. *)
Theorem Unified_efficiency_reads_wins_only
    (regular regular' : list Game) (season team : Z) (row row' : Unified.AggRow) :
  Unified.season_team_row regular season team = Some row ->
  Unified.season_team_row regular' season team = Some row' ->
  games_won regular season team = games_won regular' season team ->
  efficiency_stats row = efficiency_stats row'.
Proof.
  unfold Unified.season_team_row, games_won.
  intros Hrow Hrow' Hw. rewrite <- Hw in Hrow'.
  set (wgrp := filter (fun g => Season g = season /\ WTeamID g = team) regular) in *.
  destruct wgrp as [|g0 wgrp'];
    destruct (filter (fun g => Season g = season /\ LTeamID g = team) regular);
    destruct (filter (fun g => Season g = season /\ LTeamID g = team) regular');
    cbv beta iota in Hrow, Hrow'; try discriminate;
    apply (inj Some) in Hrow; apply (inj Some) in Hrow'; subst row row'; reflexivity.
Qed.

Lemma Unified_efficiency_reads_wins_only_witness :
  exists row row',
    Unified.season_team_row [sample_game] 2024 1101 = Some row /\
    Unified.season_team_row sample_win_and_loss 2024 1101 = Some row' /\
    efficiency_stats row = efficiency_stats row'.
Proof.
  eexists _, _. split; [reflexivity|]. split; [reflexivity|].
  eapply (Unified_efficiency_reads_wins_only [sample_game] sample_win_and_loss 2024 1101);
    reflexivity.
Defined.

(** ** Season features of the v2 pipeline *)

Lemma team_features_played rpow (rs : list Game) (tid : Z) :
  is_Some (V2.team_features rpow rs tid) <-> exists g, g ∈ rs /\ plays_in tid g.
Proof.
  unfold V2.team_features.
  set (wins := filter (fun g => WTeamID g = tid) rs).
  set (losses := filter (fun g => LTeamID g = tid) rs).
  destruct (Z.eqb_spec (Z.of_nat (length wins) + Z.of_nat (length losses)) 0) as [E|E].
  - split; [intros [? ?]; discriminate|]. intros (g & Hg & [Hw|Hl]); exfalso.
    + assert (Hin : g ∈ wins) by (apply list_elem_of_filter; auto).
      destruct wins; [inversion Hin|]. cbn [length] in E. lia.
    + assert (Hin : g ∈ losses) by (apply list_elem_of_filter; auto).
      destruct losses; [inversion Hin|]. cbn [length] in E. lia.
  - split; [intros _|intros _; eexists; reflexivity].
    destruct wins as [|g wins'] eqn:Ew.
    + destruct losses as [|g losses'] eqn:El; [cbn [length] in E; lia|].
      assert (Hin : g ∈ losses) by (rewrite El; left).
      apply list_elem_of_filter in Hin as [Hl Hin]. exists g. split; [exact Hin|right; exact Hl].
    + assert (Hin : g ∈ wins) by (rewrite Ew; left).
      apply list_elem_of_filter in Hin as [Hw Hin]. exists g. split; [exact Hin|left; exact Hw].
Qed.

Lemma build_season_features_insert rpow (rs : list Game) (teams : list Z) (tid : Z) :
  is_Some (V2.team_features rpow rs tid) ->
  forall m : gmap Z V2.Features,
    tid ∈ teams \/ is_Some (m !! tid) ->
    is_Some (fold_left (fun features tid0 =>
                          match V2.team_features rpow rs tid0 with
                          | Some f0 => <[tid0 := f0]> features
                          | None => features
                          end) teams m !! tid).
Proof.
  intros Hf. induction teams as [|t0 teams IH]; intros m Hm; simpl.
  - destruct Hm as [Hin|Hm]; [inversion Hin|exact Hm].
  - apply IH. destruct Hm as [Hin|Hm].
    + apply elem_of_cons in Hin as [->|Hin]; [|left; exact Hin].
      right. destruct Hf as [f Hf]. rewrite Hf. rewrite lookup_insert_eq. eauto.
    + right. destruct (V2.team_features rpow rs t0); [|exact Hm].
      apply lookup_insert_is_Some'. right. exact Hm.
Qed.

(** X13. [V2.build_season_features] has an entry for exactly the teams that
    played a game of the season, as winner or as loser; any other team is
    a missing key, for which the matchup features fall back on their
    defaults. *)
Theorem V2_features_cover_the_season (rpow : Q -> Q -> Q) (reg : list Game) (season tid : Z) :
  is_Some (V2.build_season_features rpow reg season !! tid) <->
  exists g, g ∈ reg /\ Season g = season /\ plays_in tid g.
Proof.
  split.
  - intros [f Hf]. apply build_season_features_lookup in Hf.
    assert (Hs : is_Some (V2.team_features rpow (games_of_season reg season) tid)) by eauto.
    apply team_features_played in Hs as (g & Hg & Hp).
    apply list_elem_of_filter in Hg as [Hs Hg]. eauto.
  - intros (g & Hg & Hs & Hp).
    assert (Hin : g ∈ games_of_season reg season) by (apply list_elem_of_filter; auto).
    unfold V2.build_season_features. apply build_season_features_insert.
    + apply team_features_played. eauto.
    + left. apply elem_of_app. destruct Hp as [<-|<-]; [left|right];
        apply list_elem_of_fmap; eauto.
Qed.

(** X14. In [V2] the win ratio of a team is its share of games won: every
    feature record counts at least one game, its wins lie between 0 and
    its games, and [win_ratio] is wins / games, a number between 0 and 1
    (1 for an undefeated team, 0 for a winless one). *)
Theorem V2_win_ratio_is_share_of_wins
    (rpow : Q -> Q -> Q) (reg : list Game) (season tid : Z) (f : V2.Features) :
  V2.build_season_features rpow reg season !! tid = Some f ->
  1 <= V2.n_games f /\ 0 <= V2.n_wins f <= V2.n_games f /\
  exists q, V2.win_ratio f = Some q /\
            (q == inject_Z (V2.n_wins f) / inject_Z (V2.n_games f))%Q /\
            (0 <= q /\ q <= 1)%Q.
Proof.
  intros Hf. apply build_season_features_lookup in Hf. revert Hf.
  unfold V2.team_features.
  set (rs := games_of_season reg season).
  set (wins := filter (fun g => WTeamID g = tid) rs).
  set (losses := filter (fun g => LTeamID g = tid) rs).
  destruct (Z.eqb_spec (Z.of_nat (length wins) + Z.of_nat (length losses)) 0) as [|Hn];
    [discriminate|].
  intros Hf. apply (inj Some) in Hf. subst f.
  cbv [V2.n_games V2.n_wins V2.win_ratio].
  set (w := Z.of_nat (length wins)) in *. set (l := Z.of_nat (length losses)) in *.
  assert (Hw : 0 <= w) by (unfold w; lia). assert (Hl : 0 <= l) by (unfold l; lia).
  split; [lia|]. split; [lia|].
  assert (Hg : (1 <= inject_Z (w + l))%Q).
  { change 1%Q with (inject_Z 1). rewrite <- Zle_Qle. lia. }
  assert (Hw' : (0 <= inject_Z w)%Q).
  { change 0%Q with (inject_Z 0). rewrite <- Zle_Qle. lia. }
  assert (Hwl : (inject_Z w <= inject_Z (w + l))%Q) by (rewrite <- Zle_Qle; lia).
  unfold V2.nmax, V2.of_Z, ndiv.
  destruct (Qlt_le_dec (inject_Z (w + l)) 1) as [Hlt|_]; [lra|].
  destruct (Qeq_bool (inject_Z (w + l)) 0) eqn:E0.
  { apply Qeq_bool_iff in E0. lra. }
  eexists. split; [reflexivity|]. split; [reflexivity|]. split.
  - apply Qle_shift_div_l; lra.
  - apply Qle_shift_div_r; lra.
Qed.

Lemma V2_win_ratio_is_share_of_wins_witness :
  exists f, V2.build_season_features (fun x _ => x) [sample_game] 2024 !! 1101 = Some f /\
            1 <= V2.n_games f.
Proof.
  eexists. split; [vm_compute; reflexivity|].
  refine (proj1 (V2_win_ratio_is_share_of_wins (fun x _ => x) [sample_game] 2024 1101 _ _)).
  vm_compute. reflexivity.
Defined.

(** ** Matchup rows *)

(** [infer_round] maps tournament days to rounds 1 to 6 and never
    decreases with the day; round 0 is kept for a missing day. *)
Lemma infer_round_monotone (d d' : Z) :
  d <= d' ->
  1 <= Unified.infer_round (Some d) /\
  Unified.infer_round (Some d) <= Unified.infer_round (Some d') /\
  Unified.infer_round (Some d') <= 6 /\
  Unified.infer_round None = 0.
Proof.
  intros Hd. unfold Unified.infer_round.
  repeat match goal with |- context [?a <=? ?b] => destruct (Z.leb_spec a b) end;
    repeat split; lia.
Qed.

Lemma infer_round_monotone_witness :
  Unified.infer_round (Some 136) <= Unified.infer_round (Some 152).
Proof. refine (proj1 (proj2 (infer_round_monotone 136 152 _))). lia. Defined.

(** X15. The rows [Unified.build_matchup_features] starts from are
    canonical and lose nothing: T1 is the smaller team id, [T1_won] is 0
    or 1, and the winner, the loser and the winning margin of the game
    are read back from the row; for a game won on points [T1_won] is 1
    exactly when [PointDiff] is positive; and the round inferred from the
    day lies between 1 and 6. *)
Theorem Unified_matchup_row_orientation (g : Game) :
  let row := Unified.matchup_base_row g in
  Unified.b_T1_TeamID row <= Unified.b_T2_TeamID row /\
  (Unified.b_T1_won row = 0 \/ Unified.b_T1_won row = 1) /\
  (if Unified.b_T1_won row =? 1 then Unified.b_T1_TeamID row else Unified.b_T2_TeamID row)
    = WTeamID g /\
  (if Unified.b_T1_won row =? 1 then Unified.b_T2_TeamID row else Unified.b_T1_TeamID row)
    = LTeamID g /\
  (if Unified.b_T1_won row =? 1 then Unified.b_PointDiff row else - Unified.b_PointDiff row)
    = WScore g - LScore g /\
  (LScore g < WScore g -> (Unified.b_T1_won row = 1 <-> 0 < Unified.b_PointDiff row)) /\
  1 <= Unified.b_Round row <= 6.
Proof.
  unfold Unified.matchup_base_row. cbv zeta.
  cbv [Unified.b_T1_TeamID Unified.b_T2_TeamID Unified.b_T1_won Unified.b_PointDiff
       Unified.b_Round].
  pose proof (infer_round_monotone (DayNum g) (DayNum g) (Z.le_refl _)) as (Hr1 & _ & Hr6 & _).
  set (round := Unified.infer_round (Some (DayNum g))) in *. clearbody round.
  destruct (Z.eqb_spec (Z.min (WTeamID g) (LTeamID g)) (WTeamID g)) as [E|E]; simpl;
    repeat split; try intros; lia.
Qed.

(** X16. The training rows of [V2] are oriented the same way: T1 is the
    team with the lower id, [target] tells whether T1 won, [margin] is
    the score of T1 minus the score of T2, and the game is read back from
    the row; whenever the two teams differ, the row agrees with the row
    the unified pipeline builds for the same game. *)
Theorem V2_training_row_orientation (seed_map : gmap Z Z) (feat : gmap Z V2.Features)
    (elo_ratings : gmap Z Q) (kenpom_by_team : gmap Z V2.KenPomRow) (season : Z) (g : Game) :
  let row := V2.training_row seed_map feat elo_ratings kenpom_by_team season g in
  let urow := Unified.matchup_base_row g in
  V2.t1_id row <= V2.t2_id row /\
  (V2.target row = 0 \/ V2.target row = 1) /\
  (if V2.target row =? 1 then V2.t1_id row else V2.t2_id row) = WTeamID g /\
  (if V2.target row =? 1 then V2.t2_id row else V2.t1_id row) = LTeamID g /\
  (if V2.target row =? 1 then V2.margin row else - V2.margin row) = WScore g - LScore g /\
  V2.t1_seed_raw row = default 8 (seed_map !! V2.t1_id row) /\
  V2.t2_seed_raw row = default 8 (seed_map !! V2.t2_id row) /\
  (WTeamID g <> LTeamID g ->
   V2.t1_id row = Unified.b_T1_TeamID urow /\ V2.t2_id row = Unified.b_T2_TeamID urow /\
   V2.target row = Unified.b_T1_won urow /\ V2.margin row = Unified.b_PointDiff urow).
Proof.
  unfold V2.training_row, Unified.matchup_base_row. cbv zeta.
  destruct (Z.ltb_spec (WTeamID g) (LTeamID g)) as [Hlt|Hge];
    cbv [V2.t1_id V2.t2_id V2.target V2.margin V2.t1_seed_raw V2.t2_seed_raw
         Unified.b_T1_TeamID Unified.b_T2_TeamID Unified.b_T1_won Unified.b_PointDiff];
    destruct (Z.eqb_spec (Z.min (WTeamID g) (LTeamID g)) (WTeamID g)) as [E|E]; simpl;
    repeat split; try intros; try lia.
Qed.

Lemma V2_training_row_orientation_witness :
  let row := V2.training_row ∅ ∅ ∅ ∅ 2024 sample_tourney_game in
  V2.t1_id row = 1100 /\ V2.target row = 0 /\ V2.margin row = -5.
Proof.
  pose proof (V2_training_row_orientation ∅ ∅ ∅ ∅ 2024 sample_tourney_game) as H.
  cbv zeta in H. destruct H as (_ & _ & _ & _ & _ & _ & _ & H).
  destruct H as (H1 & _ & H3 & H4); [simpl; lia|].
  cbv zeta. rewrite H1, H3, H4. repeat split; reflexivity.
Defined.

Lemma training_row_kenpom (seed_map : gmap Z Z) (feat : gmap Z V2.Features)
    (elo_ratings : gmap Z Q) (kenpom_by_team : gmap Z V2.KenPomRow) (season : Z) (g : Game) :
  season <> 2025 ->
  Forall (fun k => dict_get (V2.matchup (V2.training_row seed_map feat elo_ratings
                                           kenpom_by_team season g)) k = Some (Some 0%Q))
         KP_FEATURES.
Proof.
  intros Hs. unfold V2.training_row. cbv zeta.
  destruct (Z.eqb_spec season 2025) as [|_]; [contradiction|].
  destruct (WTeamID g <? LTeamID g); cbv [V2.matchup]; repeat constructor.
Qed.

(** X17. No training row of [V2.build_training_data] carries KenPom
    information: the rows come from seasons 2003 to 2024, KenPom rows are
    read for season 2025 only, and so each of the nine KenPom columns is 0
    in every training row, whatever [kenpom_by_team] holds. *)
Theorem V2_training_rows_have_no_kenpom (reg trn : list Game) (seeds : list V2.SeedRow)
    (elo_ratings : gmap Z Q) (season_features_cache : gmap Z (gmap Z V2.Features))
    (kenpom_by_team : gmap Z V2.KenPomRow) (row : V2.TrainRow) :
  row ∈ V2.build_training_data reg trn seeds elo_ratings season_features_cache
          kenpom_by_team ->
  2003 <= V2.season row <= 2024 /\
  Forall (fun k => dict_get (V2.matchup row) k = Some (Some 0%Q)) KP_FEATURES.
Proof.
  unfold V2.build_training_data. intros Hrow.
  apply list_elem_of_bind in Hrow as (season & Hrow & Hseason).
  unfold V2.TRAINING_SEASONS in Hseason. apply elem_of_seqZ in Hseason.
  apply list_elem_of_fmap in Hrow as (g & -> & _).
  split.
  - unfold V2.training_row. cbv zeta.
    destruct (WTeamID g <? LTeamID g); cbv [V2.season]; lia.
  - apply training_row_kenpom. lia.
Qed.

Lemma V2_training_rows_have_no_kenpom_witness :
  let kenpom := {[ 1100 := V2.mkKenPomRow (Some 120%Q) (Some 95%Q) (Some 25%Q) (Some 68%Q)
                             (Some 3%Q) (Some 5%Q) (Some 9%Q);
                   1200 := V2.mkKenPomRow (Some 110%Q) (Some 99%Q) (Some 11%Q) (Some 70%Q)
                             (Some 40%Q) (Some 50%Q) (Some 60%Q) ]} : gmap Z V2.KenPomRow in
  dict_get (V2.matchup (V2.training_row ∅ ∅ ∅ kenpom 2024 sample_tourney_game))
           "kp_adjem_diff" = Some (Some 0%Q).
Proof.
  intros kenpom.
  assert (Hin : V2.training_row (V2.seed_map_of [] 2024) (default ∅ ((∅ : gmap Z (gmap Z V2.Features)) !! 2024))
                  ∅ kenpom 2024 sample_tourney_game
                ∈ V2.build_training_data [] [sample_tourney_game] [] ∅ ∅ kenpom).
  { unfold V2.build_training_data. apply list_elem_of_bind. exists 2024. split.
    - apply list_elem_of_fmap. exists sample_tourney_game. split; [reflexivity|].
      apply list_elem_of_filter. split; [reflexivity|left].
    - unfold V2.TRAINING_SEASONS. apply elem_of_seqZ. lia. }
  pose proof (proj2 (V2_training_rows_have_no_kenpom _ _ _ _ _ _ _ Hin)) as H.
  rewrite Forall_forall in H. apply (H "kp_adjem_diff").
  apply (bool_decide_unpack _). vm_compute. exact I.
Defined.

Lemma opposite_nsub (x y : num) : opposite (Some (nsub x y)) (Some (nsub y x)).
Proof. destruct x as [a|], y as [b|]; simpl; try exact I. lra. Qed.

Lemma opposite_Qminus (a b : Q) : opposite (Some (Some (a - b)%Q)) (Some (Some (b - a)%Q)).
Proof. simpl. lra. Qed.

Lemma opposite_of_Z (a b : Z) : opposite (Some (V2.of_Z (a - b))) (Some (V2.of_Z (b - a))).
Proof.
  unfold V2.of_Z. simpl. rewrite <- inject_Z_opp. replace (- (b - a)) with (a - b) by lia.
  reflexivity.
Qed.

Lemma opposite_zero : opposite (Some (Some 0%Q)) (Some (Some 0%Q)).
Proof. simpl. lra. Qed.

(** X18. Swapping the two teams of a [V2] matchup mirrors its features:
    the 48 columns and their order are the same for every input, every
    difference column changes sign, every column that describes one team
    is exchanged with the column that describes the other, and the two
    seed-implied probabilities add up to 1. *)
Theorem V2_matchup_features_swap (f1 f2 : option V2.Features) (s1 s2 : Z) (e1 e2 : Q)
    (k1 k2 : option V2.KenPomRow) :
  let ab := V2.build_matchup_features f1 f2 s1 s2 e1 e2 k1 k2 in
  let ba := V2.build_matchup_features f2 f1 s2 s1 e2 e1 k2 k1 in
  ab.*1 = ba.*1 /\ NoDup ab.*1 /\ length ab = 48%nat /\
  Forall (fun k => opposite (dict_get ab k) (dict_get ba k)) DIFF_FEATURES /\
  Forall (fun kk => dict_get ab kk.1 = dict_get ba kk.2 /\
                    dict_get ab kk.2 = dict_get ba kk.1) TEAM_FEATURES /\
  (exists p q, dict_get ab "seed_implied_prob" = Some (Some p) /\
               dict_get ba "seed_implied_prob" = Some (Some q) /\ (p + q == 1)%Q).
Proof.
  cbv zeta. unfold V2.build_matchup_features. cbv zeta.
  split; [destruct k1, k2; reflexivity|].
  split; [destruct k1, k2; apply (bool_decide_unpack _); vm_compute; exact I|].
  split; [destruct k1, k2; reflexivity|].
  split.
  { destruct k1, k2; unfold DIFF_FEATURES;
      repeat (apply List.Forall_cons;
              [first [ exact (opposite_nsub _ _) | exact (opposite_Qminus _ _)
                     | exact (opposite_of_Z _ _) | exact opposite_zero ]|]);
      apply List.Forall_nil. }
  split.
  { destruct k1, k2; unfold TEAM_FEATURES;
      repeat (apply List.Forall_cons; [split; reflexivity|]); apply List.Forall_nil. }
  exists (V2.seed_implied_prob s1 s2), (V2.seed_implied_prob s2 s1).
  split; [destruct k1, k2; reflexivity|].
  split; [destruct k1, k2; reflexivity|].
  apply V2_seed_reverse.
Qed.

(** ** Labels of a prediction *)

Ltac case_Qle_bool :=
  repeat match goal with
         | |- context [Qle_bool ?a ?b] =>
             let E := fresh "E" in
             destruct (Qle_bool a b) eqn:E;
             [apply Qle_bool_iff in E
             |apply not_true_iff_false in E; rewrite Qle_bool_iff in E]
         end.

(** X19. The confidence tier depends on the distance of the probability
    from 0.5 only: Step 1 ([get_confidence_tier]) and Step 2
    ([get_confidence]) each give a matchup and the same matchup seen from
    the other team the same tier, and the two functions cut the same five
    bands. *)
Theorem confidence_tier_symmetric (prob : Q) :
  Unified.get_confidence_tier (1 - prob) = Unified.get_confidence_tier prob /\
  Unified.get_confidence (1 - prob) = Unified.get_confidence prob /\
  Forall (fun names => Unified.get_confidence prob = names.1 <->
                       Unified.get_confidence_tier prob = names.2) TIER_NAMES.
Proof.
  unfold Unified.get_confidence_tier, Unified.get_confidence, Unified.py_max, TIER_NAMES.
  destruct (Qlt_le_dec prob (1 - prob)), (Qlt_le_dec (1 - prob) (1 - (1 - prob)));
    (split; [|split]);
    try (repeat (apply List.Forall_cons; [cbn [fst snd]|]); [..|apply List.Forall_nil]);
    case_Qle_bool; try reflexivity; try (exfalso; lra);
    split; intros; try reflexivity; discriminate.
Qed.

Lemma Qltb_comp_l (x x' a : Q) : (x == x')%Q -> Unified.Qltb x a = Unified.Qltb x' a.
Proof.
  intros H. unfold Unified.Qltb. f_equal.
  destruct (Qle_bool a x) eqn:E1; destruct (Qle_bool a x') eqn:E2; try reflexivity.
  - apply Qle_bool_iff in E1. rewrite H in E1. apply Qle_bool_iff in E1. congruence.
  - apply Qle_bool_iff in E2. rewrite <- H in E2. apply Qle_bool_iff in E2. congruence.
Qed.

(** X20. The Step 1 upset flag looks at the favourite by seed.  When the
    two seeds differ the flag is the same from either side of the matchup
    (teams swapped, probability complemented).  When the seeds are equal
    the code takes T2 for the favourite, so the flag is an upset alert as
    soon as T1 is given more than an even chance. *)
Theorem Unified_upset_flag_sides (s1 s2 : Z) (prob : Q) :
  (s1 <> s2 ->
   Unified.get_upset_flag s2 s1 (1 - prob) = Unified.get_upset_flag s1 s2 prob) /\
  (s1 = s2 -> (0.5 < prob)%Q ->
   Unified.get_upset_flag s1 s2 prob
   = "🚨 UPSET ALERT: " +:+ pretty s1 +:+ "-seed favored!").
Proof.
  split.
  - intros Hne. unfold Unified.get_upset_flag. cbv zeta.
    rewrite (Z.min_comm s2 s1), (Z.max_comm s2 s1).
    destruct (Z.ltb_spec s1 s2), (Z.ltb_spec s2 s1); try lia.
    + assert (E : (1 - (1 - prob) == prob)%Q) by ring.
      rewrite !(Qltb_comp_l _ _ _ E). reflexivity.
    + reflexivity.
  - intros <- Hp. unfold Unified.get_upset_flag. cbv zeta.
    rewrite Z.ltb_irrefl, Z.max_id.
    unfold Unified.Qltb.
    match goal with |- context [Qle_bool ?a ?b] => destruct (Qle_bool a b) eqn:E end.
    + apply Qle_bool_iff in E. exfalso. lra.
    + reflexivity.
Qed.

Lemma Unified_upset_flag_sides_witness :
  Unified.get_upset_flag 12 5 (1 - 0.7) = Unified.get_upset_flag 5 12 0.7 /\
  Unified.get_upset_flag 8 8 0.55 = "🚨 UPSET ALERT: " +:+ pretty 8 +:+ "-seed favored!".
Proof.
  split.
  - refine (proj1 (Unified_upset_flag_sides 5 12 0.7) _). lia.
  - refine (proj2 (Unified_upset_flag_sides 8 8 0.55) _ _); reflexivity.
Defined.

(** ** The ensemble of the v2 pipeline *)

Lemma seed_table_bounds (d : list ((Z * Z) * Q)) (key : Z * Z) :
  Forall (fun e => (0 <= e.2 /\ e.2 <= 1)%Q) d ->
  (0 <= default 0.5 (dict_get d key) /\ default 0.5 (dict_get d key) <= 1)%Q.
Proof.
  induction 1 as [|[k v] d Hv _ IH]; simpl; [split; lra|].
  destruct (decide (k = key)); [exact Hv|exact IH].
Qed.

Lemma V2_seed_implied_prob_bounds (s1 s2 : Z) :
  (0 <= V2.seed_implied_prob s1 s2 /\ V2.seed_implied_prob s1 s2 <= 1)%Q.
Proof.
  unfold V2.seed_implied_prob. cbv zeta.
  assert (Ht : Forall (fun e : (Z * Z) * Q => (0 <= e.2 /\ e.2 <= 1)%Q) V2.seed_probs).
  { unfold V2.seed_probs, seed_pair. repeat constructor; simpl; lra. }
  pose proof (seed_table_bounds V2.seed_probs (Z.min s1 s2, Z.max s1 s2) Ht) as [H0 H1].
  destruct (s1 <? s2); [split; assumption|].
  destruct (s2 <? s1); split; lra.
Qed.

(** X21. The ensemble of [V2] is a weighted mean with weights 0.45, 0.35
    and 0.20: when the two classifiers return probabilities, the blended
    probability and the value stored under ['model_win_prob'] lie between
    0 and 1, and the value score (blend minus seed-implied probability)
    lies between -0.8 and 0.8. *)
Theorem V2_ensemble_prob_bounds (xgb_prob lgb_prob : Q) (t1_seed t2_seed : Z) :
  (0 <= xgb_prob /\ xgb_prob <= 1)%Q -> (0 <= lgb_prob /\ lgb_prob <= 1)%Q ->
  let seed_implied := V2.seed_implied_prob t1_seed t2_seed in
  let model_prob := V2.ensemble_prob xgb_prob lgb_prob seed_implied in
  (0 <= model_prob /\ model_prob <= 1)%Q /\
  (0 <= py_round model_prob 6 /\ py_round model_prob 6 <= 1)%Q /\
  (- 0.8 <= model_prob - seed_implied /\ model_prob - seed_implied <= 0.8)%Q.
Proof.
  intros [Hx0 Hx1] [Hl0 Hl1] seed_implied model_prob.
  destruct (V2_seed_implied_prob_bounds t1_seed t2_seed) as [Hs0 Hs1].
  fold seed_implied in Hs0, Hs1. subst model_prob. unfold V2.ensemble_prob.
  assert (Hp : (0 <= 0.45 * xgb_prob + 0.35 * lgb_prob + 0.20 * seed_implied /\
                0.45 * xgb_prob + 0.35 * lgb_prob + 0.20 * seed_implied <= 1)%Q)
    by (split; lra).
  split; [exact Hp|]. split; [|split; lra].
  destruct Hp as [Hp0 Hp1].
  destruct (py_round_between (0.45 * xgb_prob + 0.35 * lgb_prob + 0.20 * seed_implied)
              6 0 (10 ^ 6)) as [H0 H1].
  - eapply Qle_trans; [|exact Hp0]. apply Qle_lteq; right. reflexivity.
  - eapply Qle_trans; [exact Hp1|]. apply Qle_lteq; right. reflexivity.
  - split.
    + eapply Qle_trans; [|exact H0]. apply Qle_lteq; right. reflexivity.
    + eapply Qle_trans; [exact H1|]. apply Qle_lteq; right. reflexivity.
Qed.

Lemma V2_ensemble_prob_bounds_witness :
  (0 <= V2.ensemble_prob 0.9 0.8 (V2.seed_implied_prob 1 16) /\
   V2.ensemble_prob 0.9 0.8 (V2.seed_implied_prob 1 16) <= 1)%Q.
Proof.
  refine (proj1 (V2_ensemble_prob_bounds 0.9 0.8 1 16 _ _)); split; discriminate.
Defined.

Ltac case_bools :=
  repeat match goal with
         | |- context [Qle_bool ?a ?b] =>
             let E := fresh "E" in
             destruct (Qle_bool a b) eqn:E;
             [apply Qle_bool_iff in E
             |apply not_true_iff_false in E; rewrite Qle_bool_iff in E]
         | |- context [?a <? ?b] => destruct (Z.ltb_spec a b)
         | |- context [?a =? ?b] => destruct (Z.eqb_spec a b)
         end.

(** X22. The upset flag of a [V2] prediction says how the predicted winner
    is seeded: ['upset'] exactly when the predicted winner has the worse
    (larger) seed, ['chalk'] exactly when it has the better seed and
    ['tossup'] exactly when the seeds are equal; and a prediction is
    marked as agreeing with the seeds exactly when its flag is not
    ['upset']. *)
Theorem V2_upset_flag_meaning (xgb_model lgb_model margin_model : list (string * num) -> Q)
    (seed_map : gmap Z Z) (team_names : gmap Z string) (elo_ratings : gmap Z Q)
    (feat_2025 : gmap Z V2.Features) (kenpom_by_team : gmap Z V2.KenPomRow)
    (feature_cols : list string) (pair : Z * Z) (t1_seed t2_seed : Z) (model_prob : Q) :
  let picks_t1 := V2.Qlt_bool 0.5 model_prob in
  let winner_seed := if picks_t1 then t1_seed else t2_seed in
  let loser_seed := if picks_t1 then t2_seed else t1_seed in
  let pred := V2.predict_matchup xgb_model lgb_model margin_model seed_map team_names
                elo_ratings feat_2025 kenpom_by_team feature_cols pair in
  (V2.upset_flag_of t1_seed t2_seed model_prob = "upset" <-> loser_seed < winner_seed) /\
  (V2.upset_flag_of t1_seed t2_seed model_prob = "chalk" <-> winner_seed < loser_seed) /\
  (V2.upset_flag_of t1_seed t2_seed model_prob = "tossup" <-> t1_seed = t2_seed) /\
  V2.model_agrees_with_seed pred = negb (String.eqb (V2.upset_flag pred) "upset").
Proof.
  cbv zeta. split; [|split; [|split]].
  - unfold V2.upset_flag_of, V2.Qlt_bool. case_bools; simpl; split; intros;
      try reflexivity; try discriminate; lia.
  - unfold V2.upset_flag_of, V2.Qlt_bool. case_bools; simpl; split; intros;
      try reflexivity; try discriminate; lia.
  - unfold V2.upset_flag_of, V2.Qlt_bool. case_bools; simpl; split; intros;
      try reflexivity; try discriminate; lia.
  - destruct pair as [t1 t2]. unfold V2.predict_matchup.
    cbv [V2.model_agrees_with_seed V2.upset_flag]. unfold V2.upset_flag_of, V2.Qlt_bool.
    case_bools; reflexivity.
Qed.

Lemma Qabs_half_sym (p : Q) : (Qabs (1 - p - 0.5) == Qabs (p - 0.5))%Q.
Proof.
  rewrite <- (Qabs_opp (p - 0.5)). apply Qabs_wd. ring.
Qed.

Lemma V2_Qlt_bool_comp_l (x x' a : Q) : (x == x')%Q -> V2.Qlt_bool x a = V2.Qlt_bool x' a.
Proof.
  intros H. unfold V2.Qlt_bool. f_equal.
  destruct (Qle_bool a x) eqn:E1; destruct (Qle_bool a x') eqn:E2; try reflexivity.
  - apply Qle_bool_iff in E1. rewrite H in E1. apply Qle_bool_iff in E1. congruence.
  - apply Qle_bool_iff in E2. rewrite <- H in E2. apply Qle_bool_iff in E2. congruence.
Qed.

(** X23. The confidence label of a [V2] prediction grows with the distance
    of the blended probability from 0.5 and depends on nothing else: a
    probability at least as far from 0.5 never gets a weaker label, and
    the matchup seen from the other team gets the same label. *)
Theorem V2_confidence_grows_with_distance (p p' : Q) :
  (Qabs (p - 0.5) <= Qabs (p' - 0.5))%Q ->
  confidence_index (V2.confidence_of p) <= confidence_index (V2.confidence_of p') /\
  V2.confidence_of (1 - p) = V2.confidence_of p.
Proof.
  intros Hd. split.
  - unfold V2.confidence_of, V2.Qlt_bool.
    set (a := Qabs (p - 0.5)) in *. set (a' := Qabs (p' - 0.5)) in *.
    case_Qle_bool; first [exfalso; lra | vm_compute; discriminate].
  - unfold V2.confidence_of. rewrite !(V2_Qlt_bool_comp_l _ _ _ (Qabs_half_sym p)).
    reflexivity.
Qed.

Lemma V2_confidence_grows_with_distance_witness :
  confidence_index (V2.confidence_of 0.56) <= confidence_index (V2.confidence_of 0.2).
Proof.
  refine (proj1 (V2_confidence_grows_with_distance 0.56 0.2 _)). discriminate.
Defined.

(** ** Which matchups are predicted *)

Lemma insert_id_insert_season (t : Z) (l : list Z) :
  V2.insert_id t l = Unified.insert_season t l.
Proof. induction l as [|h l IH]; simpl; [reflexivity|]. rewrite IH. reflexivity. Qed.

Lemma sorted_ids_sorted (ids : list Z) : StronglySorted Z.lt (V2.sorted_ids ids).
Proof.
  unfold V2.sorted_ids. induction ids as [|t ids IH]; simpl; [constructor|].
  rewrite insert_id_insert_season. apply insert_season_sorted, IH.
Qed.

Lemma sorted_ids_elem (ids : list Z) (x : Z) : x ∈ V2.sorted_ids ids <-> x ∈ ids.
Proof.
  unfold V2.sorted_ids. induction ids as [|t ids IH]; simpl; [reflexivity|].
  rewrite insert_id_insert_season, insert_season_elem, IH, elem_of_cons. reflexivity.
Qed.

Lemma combinations2_elem (l : list Z) (a b : Z) :
  StronglySorted Z.lt l ->
  (a, b) ∈ V2.combinations2 l <-> a ∈ l /\ b ∈ l /\ a < b.
Proof.
  induction 1 as [|h l Hs IH Hh]; simpl.
  - split; [intros H; inversion H|intros (H & _); inversion H].
  - rewrite elem_of_app, list_elem_of_fmap, IH, !elem_of_cons.
    rewrite Forall_forall in Hh. split.
    + intros [(x & E & Hx)|(Ha & Hb & Hlt)].
      * injection E as -> ->. specialize (Hh _ Hx). auto.
      * auto.
    + intros ([->|Ha] & [->|Hb] & Hlt).
      * lia.
      * left. eauto.
      * specialize (Hh _ Ha). lia.
      * right. auto.
Qed.

Lemma combinations2_NoDup (l : list Z) :
  StronglySorted Z.lt l -> NoDup (V2.combinations2 l).
Proof.
  induction 1 as [|h l Hs IH Hh]; simpl; [constructor|].
  assert (Hnd : NoDup l).
  { clear IH Hh. induction Hs as [|x l Hs IH Hx]; constructor; [|exact IH].
    intros Hin. rewrite Forall_forall in Hx. specialize (Hx _ Hin). lia. }
  apply NoDup_app. split; [|split; [|exact IH]].
  - apply NoDup_fmap_2; [|exact Hnd]. intros x y E. congruence.
  - intros [a b] Hab Hab'. apply list_elem_of_fmap in Hab as (x & E & Hx).
    injection E as -> ->. apply combinations2_elem in Hab' as (Hin & _); [|exact Hs].
    rewrite Forall_forall in Hh. specialize (Hh _ Hin). lia.
Qed.

Lemma predict_matchup_key xgb_model lgb_model margin_model (seed_map : gmap Z Z)
    (team_names : gmap Z string) (elo_ratings : gmap Z Q) (feat_2025 : gmap Z V2.Features)
    (kenpom_by_team : gmap Z V2.KenPomRow) (feature_cols : list string) (pair : Z * Z) :
  pred_key (V2.predict_matchup xgb_model lgb_model margin_model seed_map team_names
              elo_ratings feat_2025 kenpom_by_team feature_cols pair) = pair.
Proof. destruct pair. reflexivity. Qed.

Lemma generate_2025_predictions_keys xgb_model lgb_model margin_model
    (seeds : list V2.SeedRow) (team_names : gmap Z string) (elo_ratings : gmap Z Q)
    (season_features_cache : gmap Z (gmap Z V2.Features))
    (kenpom_by_team : gmap Z V2.KenPomRow) (feature_cols : list string) :
  pred_key <$> V2.generate_2025_predictions xgb_model lgb_model margin_model seeds team_names
                 elo_ratings season_features_cache kenpom_by_team feature_cols
  = V2.combinations2
      (V2.sorted_ids (V2.seed_TeamID <$> filter (fun r => V2.seed_Season r = 2025) seeds)).
Proof.
  unfold V2.generate_2025_predictions. cbv zeta.
  rewrite <- list_fmap_compose.
  rewrite <- (list_fmap_id (V2.combinations2 _)) at 2.
  apply list_fmap_ext. intros i pair _. apply predict_matchup_key.
Qed.

(** X24. [V2.generate_2025_predictions] predicts every pair of teams
    seeded in 2025 exactly once, lower id first: no two predictions share
    their pair of ids, every prediction has [t1_id < t2_id] and both
    teams seeded, and any two different seeded teams have their
    prediction under the pair (smaller id, larger id), the key
    [score_backtest] looks a game up by. *)
Theorem V2_every_pair_predicted_once
    (xgb_model lgb_model margin_model : list (string * num) -> Q)
    (seeds : list V2.SeedRow) (team_names : gmap Z string) (elo_ratings : gmap Z Q)
    (season_features_cache : gmap Z (gmap Z V2.Features))
    (kenpom_by_team : gmap Z V2.KenPomRow) (feature_cols : list string) :
  let predictions := V2.generate_2025_predictions xgb_model lgb_model margin_model seeds
                       team_names elo_ratings season_features_cache kenpom_by_team
                       feature_cols in
  let seeded t := exists r, r ∈ seeds /\ V2.seed_Season r = 2025 /\ V2.seed_TeamID r = t in
  NoDup (pred_key <$> predictions) /\
  (forall p, p ∈ predictions ->
     V2.pred_t1_id p < V2.pred_t2_id p /\ seeded (V2.pred_t1_id p) /\ seeded (V2.pred_t2_id p)) /\
  (forall a b, seeded a -> seeded b -> a <> b ->
     exists p, p ∈ predictions /\ pred_key p = (Z.min a b, Z.max a b)).
Proof.
  intros predictions seeded.
  pose proof (generate_2025_predictions_keys xgb_model lgb_model margin_model seeds
                team_names elo_ratings season_features_cache kenpom_by_team feature_cols)
    as Hkeys. fold predictions in Hkeys.
  set (teams := V2.seed_TeamID <$> filter (fun r => V2.seed_Season r = 2025) seeds) in *.
  pose proof (sorted_ids_sorted teams) as Hsorted.
  assert (Hseeded : forall t, t ∈ V2.sorted_ids teams <-> seeded t).
  { intros t. rewrite sorted_ids_elem. unfold teams, seeded.
    rewrite list_elem_of_fmap. split.
    - intros (r & -> & Hr). apply list_elem_of_filter in Hr as [Hs Hr]. eauto.
    - intros (r & Hr & Hs & <-). exists r. split; [reflexivity|].
      apply list_elem_of_filter. auto. }
  split; [rewrite Hkeys; apply combinations2_NoDup, Hsorted|]. split.
  - intros p Hp.
    assert (Hk : pred_key p ∈ V2.combinations2 (V2.sorted_ids teams)).
    { rewrite <- Hkeys. apply list_elem_of_fmap. eauto. }
    apply combinations2_elem in Hk as (H1 & H2 & Hlt); [|exact Hsorted].
    rewrite Hseeded in H1, H2. auto.
  - intros a b Ha Hb Hne.
    assert (Hk : (Z.min a b, Z.max a b) ∈ pred_key <$> predictions).
    { rewrite Hkeys. apply combinations2_elem; [exact Hsorted|].
      rewrite !Hseeded.
      assert (Hmin : seeded (Z.min a b))
        by (destruct (Z.min_spec a b) as [[_ ->]|[_ ->]]; assumption).
      assert (Hmax : seeded (Z.max a b))
        by (destruct (Z.max_spec a b) as [[_ ->]|[_ ->]]; assumption).
      repeat split; auto; lia. }
    apply list_elem_of_fmap in Hk as (p & E & Hp). eauto.
Qed.

Lemma V2_every_pair_predicted_once_witness :
  exists p, p ∈ V2.generate_2025_predictions (fun _ => 0.5%Q) (fun _ => 0.5%Q) (fun _ => 0%Q)
                  sample_seeds ∅ ∅ ∅ ∅ []
            /\ pred_key p = (Z.min 1300 1100, Z.max 1300 1100).
Proof.
  refine (proj2 (proj2 (V2_every_pair_predicted_once (fun _ => 0.5%Q) (fun _ => 0.5%Q)
                          (fun _ => 0%Q) sample_seeds ∅ ∅ ∅ ∅ [])) 1300 1100 _ _ _).
  - exists (V2.mkSeedRow 2025 1300 8). split; [|split; reflexivity].
    unfold sample_seeds. rewrite !elem_of_cons. auto 10.
  - exists (V2.mkSeedRow 2025 1100 16). split; [|split; reflexivity].
    unfold sample_seeds. rewrite !elem_of_cons. auto 10.
  - lia.
Defined.

(** ** The backtest scorecard *)

Lemma Qsquare_unit (x a : Q) :
  (0 <= x /\ x <= 1)%Q -> (a == 0 \/ a == 1)%Q ->
  (0 <= (x - a) ^ 2 /\ (x - a) ^ 2 <= 1)%Q.
Proof.
  intros [H0 H1] Ha.
  assert (E : ((x - a) ^ 2 == (x - a) * (x - a))%Q) by (simpl; ring).
  rewrite E. destruct Ha as [Ha|Ha]; rewrite Ha; split; nra.
Qed.

Lemma Qsquare_nonneg (x : Q) : (0 <= x ^ 2)%Q.
Proof.
  assert (E : (x ^ 2 == x * x)%Q) by (simpl; ring). rewrite E. nra.
Qed.

Lemma score_prediction_inv (actual : list ((Z * Z) * V2.Actual)) (n : Z)
    (st : V2.ScoreState) (p : V2.Pred) :
  score_inv n st -> score_inv (n + 1) (V2.score_prediction actual st p).
Proof.
  destruct st as [c t b ud ut rd]. unfold score_inv, V2.score_prediction. cbv zeta.
  cbn [V2.correct V2.total V2.upsets_detected V2.upsets_total V2.results_detail
       V2.brier_sum].
  intros (Hc & Hn & Hu & Hut & Hw & Hb).
  destruct (dict_get actual (V2.pred_t1_id p, V2.pred_t2_id p)) as [result|];
    cbn [V2.correct V2.total V2.upsets_detected V2.upsets_total V2.results_detail
         V2.brier_sum]; [|repeat split; try lia; lra].
  unfold wrong_picks in *. rewrite List.filter_app, length_app, Nat2Z.inj_add, Hw.
  pose proof (Qsquare_nonneg
                (V2.model_win_prob p
                 - (if V2.winner result =? V2.pred_t1_id p then 1.0 else 0.0))) as Hsq.
  cbn [List.filter V2.detail_correct].
  destruct (eqb _ _); destruct (andb (negb _) _);
    try destruct (String.eqb _ _); cbn [negb andb length];
    repeat split; try lia; lra.
Qed.

Lemma score_fold_inv (actual : list ((Z * Z) * V2.Actual)) (predictions : list V2.Pred) :
  forall n st, score_inv n st ->
    score_inv (n + Z.of_nat (length predictions))
              (fold_left (V2.score_prediction actual) predictions st).
Proof.
  induction predictions as [|p ps IH]; intros n st Hst; cbn [fold_left length].
  - change (Z.of_nat 0) with 0. rewrite Z.add_0_r. exact Hst.
  - rewrite Nat2Z.inj_succ.
    replace (n + Z.succ (Z.of_nat (length ps))) with (n + 1 + Z.of_nat (length ps)) by lia.
    apply IH, score_prediction_inv, Hst.
Qed.

Lemma brier_fold_bound (actual : list ((Z * Z) * V2.Actual)) (predictions : list V2.Pred) :
  probs_in_unit predictions ->
  forall st, (V2.brier_sum st <= inject_Z (V2.total st))%Q ->
    let st' := fold_left (V2.score_prediction actual) predictions st in
    (V2.brier_sum st' <= inject_Z (V2.total st'))%Q.
Proof.
  induction 1 as [|p ps Hp _ IH]; intros st Hst; simpl; [exact Hst|].
  apply IH. destruct st as [c t b ud ut rd]. unfold V2.score_prediction. cbv zeta.
  cbn [V2.brier_sum V2.total] in *.
  destruct (dict_get actual (V2.pred_t1_id p, V2.pred_t2_id p)) as [result|]; [|exact Hst].
  cbn [V2.brier_sum V2.total]. rewrite inject_Z_plus.
  assert (Hsq : ((V2.model_win_prob p
                  - (if V2.winner result =? V2.pred_t1_id p then 1.0 else 0.0)) ^ 2 <= 1)%Q).
  { apply Qsquare_unit; [exact Hp|].
    destruct (V2.winner result =? V2.pred_t1_id p); [right|left]; reflexivity. }
  change (inject_Z 1) with 1%Q. lra.
Qed.

Lemma score_fold_no_results (predictions : list V2.Pred) (st : V2.ScoreState) :
  fold_left (V2.score_prediction []) predictions st = st.
Proof. induction predictions as [|p ps IH]; simpl; [reflexivity|exact IH]. Qed.

Lemma ratio_in_unit (a b : Q) : (0 <= a)%Q -> (a <= b)%Q -> (0 < b)%Q ->
  (0 <= py_round (a / b) 4 /\ py_round (a / b) 4 <= 1)%Q.
Proof.
  intros Ha Hab Hb.
  assert (H0 : (0 <= a / b)%Q) by (apply Qle_shift_div_l; lra).
  assert (H1 : (a / b <= 1)%Q) by (apply Qle_shift_div_r; lra).
  destruct (py_round_between (a / b) 4 0 (10 ^ 4)) as [L U].
  - eapply Qle_trans; [|exact H0]. apply Qle_lteq; right. reflexivity.
  - eapply Qle_trans; [exact H1|]. apply Qle_lteq; right. reflexivity.
  - split.
    + eapply Qle_trans; [|exact L]. apply Qle_lteq; right. reflexivity.
    + eapply Qle_trans; [exact U|]. apply Qle_lteq; right. reflexivity.
Qed.

(** X25. The scorecard of [V2.score_backtest] is consistent for every list
    of predictions and every table of results: correct picks never exceed
    the scored games nor these the predictions, detected upsets never
    exceed the upsets, the wrong picks are the scored games that are not
    correct, the accuracy lies between 0 and 1, and so does the Brier
    score when the stored probabilities do.  With no 2025 tournament game
    nothing is scored and accuracy, Brier score and ESPN score are 0
    rather than undefined. *)
Theorem V2_scorecard_consistent (predictions : list V2.Pred) (trn : list Game) :
  let sc := V2.score_backtest predictions trn in
  0 <= V2.sc_correct sc <= V2.sc_total_games sc /\
  V2.sc_total_games sc <= Z.of_nat (length predictions) /\
  0 <= V2.sc_upsets_detected sc <= V2.sc_upsets_total sc /\
  V2.sc_upsets_total sc <= V2.sc_total_games sc /\
  Z.of_nat (length (V2.sc_wrong_picks sc)) = V2.sc_total_games sc - V2.sc_correct sc /\
  (0 <= V2.sc_accuracy sc /\ V2.sc_accuracy sc <= 1)%Q /\
  (probs_in_unit predictions -> (0 <= V2.sc_brier sc /\ V2.sc_brier sc <= 1)%Q) /\
  (games_of_season trn 2025 = [] ->
   V2.sc_total_games sc = 0 /\ (V2.sc_accuracy sc == 0)%Q /\ (V2.sc_brier sc == 0)%Q /\
   V2.sc_espn_score sc = 0).
Proof.
  cbv zeta. unfold V2.score_backtest. cbv zeta.
  cbv [V2.sc_correct V2.sc_total_games V2.sc_upsets_detected V2.sc_upsets_total
       V2.sc_wrong_picks V2.sc_accuracy V2.sc_brier V2.sc_espn_score].
  fold score0.
  assert (H0 : score_inv 0 score0).
  { unfold score_inv, score0. simpl. repeat split; try lia; lra. }
  pose proof (score_fold_inv (V2.actual_results trn) predictions 0 score0 H0)
    as (Hc & Hn & Hu & Hut & Hw & Hb).
  set (st := fold_left (V2.score_prediction (V2.actual_results trn)) predictions score0) in *.
  assert (Hmax : (0 < inject_Z (Z.max (V2.total st) 1))%Q).
  { change 0%Q with (inject_Z 0). rewrite <- Zlt_Qlt. lia. }
  split; [exact Hc|]. split; [lia|]. split; [exact Hu|]. split; [exact Hut|].
  split; [exact Hw|]. split; [|split].
  - apply ratio_in_unit; [| |exact Hmax].
    + change 0%Q with (inject_Z 0). rewrite <- Zle_Qle. lia.
    + rewrite <- Zle_Qle. lia.
  - intros Hp. apply ratio_in_unit; [exact Hb| |exact Hmax].
    pose proof (brier_fold_bound (V2.actual_results trn) predictions Hp score0) as Hs.
    cbv zeta in Hs. fold st in Hs.
    eapply Qle_trans; [apply Hs; vm_compute; discriminate|].
    rewrite <- Zle_Qle. lia.
  - intros Hnone. unfold st, V2.actual_results. rewrite Hnone. simpl.
    rewrite score_fold_no_results. unfold score0. simpl.
    repeat split; vm_compute; reflexivity.
Qed.

Lemma V2_scorecard_consistent_witness :
  let sc := V2.score_backtest sample_predictions sample_trn in
  V2.sc_total_games sc = 1 /\ V2.sc_correct sc = 1 /\
  (0 <= V2.sc_brier sc /\ V2.sc_brier sc <= 1)%Q.
Proof.
  cbv zeta. split; [reflexivity|]. split; [reflexivity|].
  refine (proj1 (proj2 (proj2 (proj2 (proj2 (proj2 (proj2
            (V2_scorecard_consistent sample_predictions sample_trn))))))) _).
  repeat constructor; discriminate.
Defined.

(** ** The ESPN score and the correct picks *)

Lemma correct_fold (actual : list ((Z * Z) * V2.Actual)) (predictions : list V2.Pred) :
  forall st,
    V2.correct (fold_left (V2.score_prediction actual) predictions st)
    = V2.correct st + Zsum (correct_of actual <$> predictions).
Proof.
  induction predictions as [|p ps IH]; intros st; cbn [fold_left].
  - simpl. lia.
  - rewrite IH, fmap_cons. cbn [Zsum fold_right]. fold (Zsum (correct_of actual <$> ps)).
    unfold V2.score_prediction, correct_of, pred_key, pick_ok. cbv zeta.
    destruct (dict_get actual (V2.pred_t1_id p, V2.pred_t2_id p)) as [result|]; [|lia].
    cbn [V2.correct]. destruct (eqb _ _); lia.
Qed.

Lemma espn_fold (predictions : list V2.Pred) (actual : list ((Z * Z) * V2.Actual)) :
  V2.compute_espn_score predictions actual = 10 * Zsum (espn_of predictions <$> actual).
Proof.
  unfold V2.compute_espn_score.
  assert (H : forall acc,
             fold_left (fun total_points kv =>
                          let '((t1, t2), result) := kv in
                          match List.find (fun p => (V2.pred_t1_id p =? t1)
                                                    && (V2.pred_t2_id p =? t2))
                                          predictions with
                          | None => total_points
                          | Some pred =>
                              let t1_won := V2.winner result =? t1 in
                              let model_picks_t1 := V2.Qlt_bool 0.5 (V2.model_win_prob pred) in
                              if eqb model_picks_t1 t1_won then total_points + 10
                              else total_points
                          end) actual acc
             = acc + 10 * Zsum (espn_of predictions <$> actual)).
  { induction actual as [|[[t1 t2] result] actual IH]; intros acc; cbn [fold_left].
    - simpl. lia.
    - rewrite IH, fmap_cons. cbn [Zsum fold_right].
      fold (Zsum (espn_of predictions <$> actual)).
      unfold espn_of at 2. cbn [fst snd].
      destruct (List.find _ predictions) as [pred|]; [|lia].
      cbv zeta. destruct (eqb _ _); lia. }
  rewrite H. lia.
Qed.

Lemma Zsum_zero {A : Type} (f : A -> Z) (l : list A) :
  (forall x, x ∈ l -> f x = 0) -> Zsum (f <$> l) = 0.
Proof.
  induction l as [|x l IH]; intros H; [reflexivity|].
  rewrite fmap_cons. cbn [Zsum fold_right]. fold (Zsum (f <$> l)).
  rewrite (H x) by left. rewrite IH; [reflexivity|]. intros y Hy. apply H. right. exact Hy.
Qed.

Lemma Zsum_plus {A : Type} (f g h : A -> Z) (l : list A) :
  (forall x, f x = g x + h x) -> Zsum (f <$> l) = Zsum (g <$> l) + Zsum (h <$> l).
Proof.
  intros H. induction l as [|x l IH]; [reflexivity|].
  rewrite !fmap_cons. cbn [Zsum fold_right].
  fold (Zsum (f <$> l)) (Zsum (g <$> l)) (Zsum (h <$> l)). rewrite IH, H. lia.
Qed.

Lemma Zsum_at_key {K V : Type} `{EqDecision K} (d : list (K * V)) (k0 : K) (h : V -> Z) :
  NoDup d.*1 ->
  Zsum ((fun kv => if decide (kv.1 = k0) then h kv.2 else 0) <$> d)
  = match dict_get d k0 with Some v => h v | None => 0 end.
Proof.
  induction d as [|[k v] d IH]; intros Hnd; [reflexivity|].
  rewrite fmap_cons in Hnd. cbn [fst] in Hnd. apply NoDup_cons in Hnd as [Hnin Hnd].
  rewrite fmap_cons. cbn [Zsum fold_right dict_get fst snd].
  match goal with |- _ + ?s = _ =>
    change s with (Zsum ((fun kv : K * V => if decide (kv.1 = k0) then h kv.2 else 0) <$> d))
  end.
  destruct (decide (k = k0)) as [->|Hne].
  - rewrite Zsum_zero; [lia|]. intros [k' v'] Hin. cbn [fst snd].
    destruct (decide (k' = k0)) as [->|_]; [|reflexivity].
    exfalso. apply Hnin. apply list_elem_of_fmap. exists (k0, v'). split; [reflexivity|exact Hin].
  - rewrite IH by exact Hnd. lia.
Qed.

Lemma find_key_none (ps : list V2.Pred) (k : Z * Z) :
  k ∉ pred_key <$> ps ->
  List.find (fun p => (V2.pred_t1_id p =? k.1) && (V2.pred_t2_id p =? k.2)) ps = None.
Proof.
  induction ps as [|p ps IH]; intros Hk; [reflexivity|].
  rewrite fmap_cons, not_elem_of_cons in Hk. destruct Hk as [Hne Hk].
  cbn [List.find].
  destruct (Z.eqb_spec (V2.pred_t1_id p) k.1) as [E1|_]; [|exact (IH Hk)].
  destruct (Z.eqb_spec (V2.pred_t2_id p) k.2) as [E2|_]; [|exact (IH Hk)].
  exfalso. apply Hne. unfold pred_key. destruct k. simpl in *. congruence.
Qed.

Lemma correct_sum_is_espn_sum (predictions : list V2.Pred)
    (actual : list ((Z * Z) * V2.Actual)) :
  NoDup (pred_key <$> predictions) -> NoDup actual.*1 ->
  Zsum (correct_of actual <$> predictions) = Zsum (espn_of predictions <$> actual).
Proof.
  intros Hp Ha. induction predictions as [|p ps IH].
  - simpl. symmetry. apply Zsum_zero. reflexivity.
  - rewrite fmap_cons in Hp. apply NoDup_cons in Hp as [Hnin Hp].
    rewrite fmap_cons. cbn [Zsum fold_right]. fold (Zsum (correct_of actual <$> ps)).
    rewrite (IH Hp).
    rewrite (Zsum_plus (espn_of (p :: ps))
               (fun kv => if decide (kv.1 = pred_key p)
                          then (if pick_ok p kv.2 then 1 else 0) else 0)
               (espn_of ps)).
    + rewrite (Zsum_at_key actual (pred_key p) (fun r => if pick_ok p r then 1 else 0) Ha).
      reflexivity.
    + intros [[a b] r]. unfold espn_of. cbn [List.find fst snd].
      destruct (Z.eqb_spec (V2.pred_t1_id p) a) as [E1|E1];
        [destruct (Z.eqb_spec (V2.pred_t2_id p) b) as [E2|E2]|]; cbn [andb].
      * assert (Ek : (a, b) = pred_key p) by (unfold pred_key; congruence).
        destruct (decide ((a, b) = pred_key p)); [|contradiction].
        pose proof (find_key_none ps (pred_key p) Hnin) as Hf.
        unfold pred_key in Hf. cbn [fst snd] in Hf.
        subst a b. rewrite Hf. unfold pick_ok. lia.
      * destruct (decide ((a, b) = pred_key p)) as [Ek|_]; [|lia].
        exfalso. apply E2. unfold pred_key in Ek. congruence.
      * destruct (decide ((a, b) = pred_key p)) as [Ek|_]; [|lia].
        exfalso. apply E1. unfold pred_key in Ek. congruence.
Qed.

Lemma actual_results_NoDup (trn : list Game) : NoDup (V2.actual_results trn).*1.
Proof.
  unfold V2.actual_results.
  generalize (games_of_season trn 2025). intros games.
  assert (H : forall d : list ((Z * Z) * V2.Actual), NoDup d.*1 ->
            NoDup (fold_left (fun actual g =>
                      let w := WTeamID g in
                      let l := LTeamID g in
                      let t1 := Z.min w l in
                      let t2 := Z.max w l in
                      od_set (t1, t2)
                        {| V2.winner := w; V2.actual_margin := WScore g - LScore g;
                           V2.w_score := WScore g; V2.l_score := LScore g |} actual)
                     games d).*1).
  { induction games as [|g games IH]; intros d Hd; cbn [fold_left]; [exact Hd|].
    apply IH. cbv zeta. unfold od_set. apply od_alter_NoDup, Hd. }
  apply H. constructor.
Qed.

(** X26. When no two predictions share their pair of team ids, as is the
    case for the list [generate_2025_predictions] returns, the ESPN score
    of the scorecard is exactly 10 points per correct pick: the two
    scoring loops of [score_backtest] and [compute_espn_score], one over
    the predictions and one over the played games, count the same
    picks. *)
Theorem V2_espn_score_is_ten_per_correct_pick (predictions : list V2.Pred) (trn : list Game) :
  NoDup (pred_key <$> predictions) ->
  let sc := V2.score_backtest predictions trn in
  V2.sc_espn_score sc = 10 * V2.sc_correct sc.
Proof.
  intros Hp. cbv zeta. unfold V2.score_backtest. cbv zeta.
  cbv [V2.sc_espn_score V2.sc_correct].
  rewrite espn_fold, correct_fold. cbn [V2.correct].
  rewrite (correct_sum_is_espn_sum predictions (V2.actual_results trn) Hp
             (actual_results_NoDup trn)). lia.
Qed.

Lemma V2_espn_score_is_ten_per_correct_pick_witness :
  let predictions := V2.generate_2025_predictions (fun _ => 0.3%Q) (fun _ => 0.3%Q)
                       (fun _ => 0%Q) sample_seeds ∅ ∅ ∅ ∅ [] in
  let sc := V2.score_backtest predictions sample_trn in
  V2.sc_espn_score sc = 10 * V2.sc_correct sc.
Proof.
  intros predictions.
  refine (V2_espn_score_is_ten_per_correct_pick predictions sample_trn _).
  apply (bool_decide_unpack _). vm_compute. exact I.
Defined.

(** ** Star dependency *)

Section SortDesc.
Context {A : Type} (key : A -> Q).

Lemma insert_desc_elem (x y : A) (l : list A) :
  y ∈ Unified.insert_desc key x l <-> y = x \/ y ∈ l.
Proof.
  induction l as [|h l IH]; simpl.
  - rewrite list_elem_of_singleton. split; [auto|]. intros [?|H]; [auto|inversion H].
  - destruct (Qle_bool (key h) (key x)).
    + rewrite !elem_of_cons. tauto.
    + rewrite !elem_of_cons, IH. tauto.
Qed.

Lemma sort_desc_elem (y : A) (l : list A) : y ∈ Unified.sort_desc key l <-> y ∈ l.
Proof.
  unfold Unified.sort_desc. induction l as [|x l IH]; simpl; [reflexivity|].
  rewrite insert_desc_elem, IH, elem_of_cons. reflexivity.
Qed.

Lemma insert_desc_sorted (x : A) (l : list A) :
  StronglySorted (fun a b => (key b <= key a)%Q) l ->
  StronglySorted (fun a b => (key b <= key a)%Q) (Unified.insert_desc key x l).
Proof.
  induction 1 as [|h l Hs IH Hh]; simpl; [repeat constructor|].
  destruct (Qle_bool (key h) (key x)) eqn:E.
  - apply Qle_bool_iff in E. constructor; [constructor; assumption|].
    constructor; [exact E|]. eapply Forall_impl; [exact Hh|]. simpl. intros y Hy. lra.
  - apply not_true_iff_false in E. rewrite Qle_bool_iff in E.
    constructor; [exact IH|]. apply Forall_forall. intros y Hy.
    apply insert_desc_elem in Hy as [->|Hy]; [lra|].
    rewrite Forall_forall in Hh. apply Hh, Hy.
Qed.

Lemma sort_desc_sorted (l : list A) :
  StronglySorted (fun a b => (key b <= key a)%Q) (Unified.sort_desc key l).
Proof.
  unfold Unified.sort_desc. induction l as [|x l IH]; simpl; [constructor|].
  apply insert_desc_sorted, IH.
Qed.

End SortDesc.

Lemma Qsum_list_positive (ws : list Q) (x : Q) :
  Forall (fun w => (0 < w)%Q) ws -> x ∈ ws ->
  (x <= Unified.Qsum_list ws)%Q.
Proof.
  unfold Unified.Qsum_list. intros Hpos. revert x.
  assert (Hnn : forall l, Forall (fun w => (0 < w)%Q) l -> (0 <= fold_right Qplus 0 l)%Q).
  { induction 1 as [|w l Hw _ IH]; simpl; lra. }
  induction Hpos as [|w ws Hw Hws IH]; intros x Hx; [inversion Hx|].
  simpl. specialize (Hnn ws Hws). apply elem_of_cons in Hx as [->|Hx]; [lra|].
  specialize (IH x Hx). lra.
Qed.

Lemma percent_in_range (a t : Q) :
  (0 <= a)%Q -> (a <= t)%Q -> (0 < t)%Q ->
  (0 <= py_round (a / t * 100) 1 /\ py_round (a / t * 100) 1 <= 100)%Q.
Proof.
  intros Ha Hat Ht.
  assert (H0 : (0 <= a / t)%Q) by (apply Qle_shift_div_l; lra).
  assert (H1 : (a / t <= 1)%Q) by (apply Qle_shift_div_r; lra).
  destruct (py_round_between (a / t * 100) 1 0 1000) as [L U].
  - eapply Qle_trans; [|apply (Qmult_le_0_compat _ 100 H0); lra].
    apply Qle_lteq; right. reflexivity.
  - assert (Hx : (a / t * 100 <= 100)%Q) by lra.
    eapply Qle_trans; [exact Hx|]. apply Qle_lteq; right. reflexivity.
  - split.
    + eapply Qle_trans; [|exact L]. apply Qle_lteq; right. reflexivity.
    + eapply Qle_trans; [exact U|]. apply Qle_lteq; right. reflexivity.
Qed.

(** X27. The star dependency [fetch_player_stats] computes for a team is a
    percentage: for every player table and every team it lies between 0
    and 100, because the star, the player of largest weighted BPM, is one
    of the players the total is summed over. *)
Theorem star_dependency_is_a_percentage (data : list Unified.PlayerRaw) (team : string) :
  let dep := Unified.dep_star_dependency_pct (Unified.team_dep_row data team) in
  (0 <= dep /\ dep <= 100)%Q.
Proof.
  cbv zeta. unfold Unified.team_dep_row. cbv zeta. cbv [Unified.dep_star_dependency_pct].
  set (grp := List.filter (fun p => String.eqb (Unified.raw_team p) team) data).
  set (s := Unified.sort_desc Unified.raw_weighted grp).
  set (pos := List.filter (fun p => Unified.Qltb 0 (Unified.raw_weighted p)) s).
  set (total := Unified.Qsum_list (Unified.raw_weighted <$> pos)).
  destruct (Unified.Qltb 0 total) eqn:Ht; [|split; vm_compute; discriminate].
  unfold Unified.Qltb in Ht. apply negb_true_iff, not_true_iff_false in Ht.
  rewrite Qle_bool_iff in Ht. assert (Htot : (0 < total)%Q) by lra. clear Ht.
  assert (Hpos : Forall (fun w => (0 < w)%Q) (Unified.raw_weighted <$> pos)).
  { apply Forall_forall. intros w Hw. apply list_elem_of_fmap in Hw as (p & -> & Hp).
    apply list_elem_of_In, List.filter_In in Hp as [_ Hp].
    unfold Unified.Qltb in Hp. apply negb_true_iff, not_true_iff_false in Hp.
    rewrite Qle_bool_iff in Hp. lra. }
  destruct pos as [|p0 pos'] eqn:Epos.
  { exfalso. unfold total in Htot. simpl in Htot. lra. }
  assert (Hp0 : p0 ∈ s /\ (0 < Unified.raw_weighted p0)%Q).
  { assert (Hin : List.In p0 pos) by (rewrite Epos; left; reflexivity).
    apply List.filter_In in Hin as [Hin Hw]. split; [apply list_elem_of_In, Hin|].
    unfold Unified.Qltb in Hw. apply negb_true_iff, not_true_iff_false in Hw.
    rewrite Qle_bool_iff in Hw. lra. }
  destruct Hp0 as [Hp0 Hw0].
  pose proof (sort_desc_sorted Unified.raw_weighted grp) as Hsorted. fold s in Hsorted.
  destruct s as [|h t] eqn:Es; [inversion Hp0|].
  assert (Hh : (Unified.raw_weighted p0 <= Unified.raw_weighted h)%Q).
  { apply StronglySorted_inv in Hsorted as [_ Hall]. rewrite Forall_forall in Hall.
    apply elem_of_cons in Hp0 as [->|Hp0]; [lra|]. apply Hall, Hp0. }
  assert (Hhpos : h ∈ p0 :: pos').
  { rewrite <- Epos. apply list_elem_of_In, List.filter_In. split; [left; reflexivity|].
    unfold Unified.Qltb. apply negb_true_iff, not_true_iff_false.
    rewrite Qle_bool_iff. lra. }
  assert (Hle : (Unified.raw_weighted h <= total)%Q).
  { apply Qsum_list_positive; [exact Hpos|]. apply list_elem_of_fmap. eauto. }
  apply percent_in_range; lra.
Qed.

(** ** Injuries *)

Lemma severity_in_range (st : string) :
  1 <= default 1 (dict_get Unified.severity_map st) <= 3.
Proof.
  unfold Unified.severity_map. simpl.
  repeat (destruct (decide _); [simpl; lia|]). simpl. lia.
Qed.

Lemma fetch_injuries_severity get (i : Unified.InjuryRecord * Z) :
  i ∈ Unified.fetch_injuries_espn get -> 1 <= i.2 <= 3.
Proof.
  unfold Unified.fetch_injuries_espn. intros Hi.
  apply list_elem_of_fmap in Hi as (r & -> & _). apply severity_in_range.
Qed.

(** X28. A player is flagged injured exactly when the injury feed lists the
    player's name, the two names being compared after [.lower()] and
    [.strip()] (whatever these do to a name), and whatever status the
    feed gives: a status the severity map does not know counts with
    severity 1, and every severity the fetch returns lies between 1
    and 3.  A row that is not injured has severity 0 and no impact. *)
Theorem injured_iff_listed (lower strip : string -> string)
    (get : Unified.Exc (Unified.Response (list (option Unified.EspnTeamEntry))))
    (player_df : list Unified.PlayerRow) (row : Unified.MergedRow) :
  let injury_df := Unified.fetch_injuries_espn get in
  row ∈ Unified.merge_injury_impact lower strip player_df injury_df ->
  Unified.m_player row ∈ player_df /\
  (Unified.is_injured row = true <->
   exists i, i ∈ injury_df /\
             name_key lower strip (Unified.inj_player i.1)
             = name_key lower strip (Unified.player (Unified.m_player row))) /\
  (Unified.is_injured row = true -> 1 <= Unified.injury_severity row <= 3) /\
  (Unified.is_injured row = false ->
   Unified.injury_severity row = 0 /\ Unified.injury_bpm_impact row = 0.0%Q).
Proof.
  intros injury_df. unfold Unified.merge_injury_impact.
  pose proof (fetch_injuries_severity get) as Hsev. fold injury_df in Hsev.
  destruct injury_df as [|i0 injury_df'] eqn:Edf.
  - intros Hrow. apply list_elem_of_fmap in Hrow as (p & -> & Hp).
    cbn. split; [exact Hp|]. split; [|split; [discriminate|auto]].
    split; [discriminate|]. intros (i & Hi & _). inversion Hi.
  - rewrite <- Edf in *. clear Edf. intros Hrow.
    apply list_elem_of_bind in Hrow as (p & Hrow & Hp).
    set (matches := List.filter
                      (fun i => String.eqb (strip (lower (Unified.inj_player i.1)))
                                           (strip (lower (Unified.player p))))
                      injury_df) in *.
    assert (Hm : forall i, i ∈ matches <->
                   i ∈ injury_df /\
                   name_key lower strip (Unified.inj_player i.1)
                   = name_key lower strip (Unified.player p)).
    { intros i. unfold matches, name_key.
      rewrite !list_elem_of_In, List.filter_In, String.eqb_eq. reflexivity. }
    destruct matches as [|m ms] eqn:Em.
    + apply list_elem_of_singleton in Hrow as ->. cbn.
      split; [exact Hp|]. split; [|split; [discriminate|auto]].
      split; [discriminate|]. intros (i & Hi). apply Hm in Hi. inversion Hi.
    + apply list_elem_of_fmap in Hrow as (i & -> & Hi).
      pose proof (proj1 (Hm i) Hi) as [Hin Hname].
      specialize (Hsev i Hin).
      unfold Unified.merged_row.
      cbn [Unified.m_player Unified.is_injured Unified.injury_severity
           Unified.injury_bpm_impact default from_option id].
      destruct (Z.ltb_spec 0 i.2) as [_|Hle]; [|lia].
      split; [exact Hp|]. split; [|split; [intros _; exact Hsev|discriminate]].
      split; [intros _; eauto|reflexivity].
Qed.

Lemma injured_iff_listed_witness :
  exists row, row ∈ Unified.merge_injury_impact Unified.ascii_lower Unified.ascii_strip
                      sample_player_df (Unified.fetch_injuries_espn sample_feed) /\
              Unified.is_injured row = true.
Proof.
  assert (Hin : Unified.merged_row (Unified.mkPlayerRow "c. flagg " "Duke" 8 30 19 6
                                      sample_team_dep) (Some "Probable") (Some 1)
                ∈ Unified.merge_injury_impact Unified.ascii_lower Unified.ascii_strip
                    sample_player_df (Unified.fetch_injuries_espn sample_feed)).
  { vm_compute. left. }
  eexists. split; [exact Hin|].
  apply (proj1 (proj2 (injured_iff_listed Unified.ascii_lower Unified.ascii_strip
                         sample_feed sample_player_df _ Hin))).
  eexists. split; [vm_compute; left|reflexivity].
Defined.

Lemma filter_two_disjoint {A : Type} (f g : A -> bool) (l : list A) :
  (forall x, f x = true -> g x = false) ->
  (length (List.filter f l) + length (List.filter g l) <= length l)%nat.
Proof.
  intros Hfg. induction l as [|x l IH]; simpl; [lia|].
  destruct (f x) eqn:Ef; [rewrite (Hfg x Ef)|destruct (g x)]; simpl; lia.
Qed.

(** Every row of the team summary is within bounds: the upset
    vulnerability lies between 0 and 100, and the counts of players out
    and of players questionable together never exceed the count of
    injured players, itself at most the size of the roster. *)
Lemma team_summary_within_bounds (merged : list Unified.MergedRow) (team_key : string) :
  let row := Unified.summary_row merged team_key in
  (0 <= Unified.upset_vulnerability row /\ Unified.upset_vulnerability row <= 100)%Q /\
  0 <= Unified.n_out row /\ 0 <= Unified.n_questionable row /\
  Unified.n_out row + Unified.n_questionable row <= Unified.n_injured row /\
  Unified.n_injured row <= Z.of_nat (length merged).
Proof.
  cbv zeta. unfold Unified.summary_row. cbv zeta.
  cbv [Unified.upset_vulnerability Unified.n_out Unified.n_questionable Unified.n_injured].
  split.
  - match goal with |- (0 <= py_round (clip ?x 0 100) 1 /\ _)%Q =>
      destruct (clip_between x 0 100 ltac:(lra)) as [L U];
      destruct (py_round_between (clip x 0 100) 1 0 1000) as [L' U']
    end.
    + eapply Qle_trans; [|exact L]. apply Qle_lteq; right. reflexivity.
    + eapply Qle_trans; [exact U|]. apply Qle_lteq; right. reflexivity.
    + split.
      * eapply Qle_trans; [|exact L']. apply Qle_lteq; right. reflexivity.
      * eapply Qle_trans; [exact U'|]. apply Qle_lteq; right. reflexivity.
  - set (grp := List.filter _ merged). set (injured := List.filter Unified.is_injured grp).
    assert (Hfg : forall x : Unified.MergedRow,
               (Unified.injury_severity x =? 3) = true ->
               (Unified.injury_severity x =? 2) = false).
    { intros x Hx. apply Z.eqb_eq in Hx. rewrite Hx. reflexivity. }
    pose proof (filter_two_disjoint (fun r => Unified.injury_severity r =? 3)
                  (fun r => Unified.injury_severity r =? 2) injured Hfg) as H.
    assert (H1 : (length injured <= length grp)%nat) by apply List.filter_length_le.
    assert (H2 : (length grp <= length merged)%nat) by apply List.filter_length_le.
    repeat split; lia.
Qed.

(** ** Step 2 without injuries *)

Lemma healthy_adj (row : Unified.SummaryRow) :
  healthy row -> Unified.compute_injury_adj (Some row) = py_round 0 4.
Proof.
  intros (Hstar & _ & Hti). unfold Unified.compute_injury_adj. rewrite Hstar.
  apply py_round_eq.
  set (tb := if Qeq_bool (Unified.team_total_bpm row) 0 then 1%Q
             else Unified.team_total_bpm row).
  assert (Hq : (Unified.team_total_injury_bpm row / tb == 0)%Q).
  { unfold Qdiv. rewrite Hti. ring. }
  assert (Hm : (Unified.py_min (Unified.team_total_injury_bpm row / tb) 0.5 == 0)%Q).
  { unfold Unified.py_min. destruct (Qlt_le_dec _ _) as [Hlt|_]; [|exact Hq].
    exfalso. rewrite Hq in Hlt. revert Hlt. apply Qle_not_lt. discriminate. }
  rewrite (clip_comp _ 0 _ _); [reflexivity|]. rewrite Hm. ring.
Qed.

Lemma adj_zero (r : option Unified.SummaryRow) :
  (forall row, r = Some row -> healthy row) ->
  (Unified.compute_injury_adj r == 0)%Q /\
  Qeq_bool (Unified.compute_injury_adj r) 0.0 = true.
Proof.
  intros Hr. destruct r as [row|]; [|split; reflexivity].
  rewrite (healthy_adj row (Hr row eq_refl)). split; reflexivity.
Qed.

Lemma patch_prediction_unpenalised (strip : string -> string)
    (r1 r2 : option Unified.SummaryRow) (pred : Unified.Prediction) :
  (forall row, r1 = Some row -> healthy row) ->
  (forall row, r2 = Some row -> healthy row) ->
  unpenalised pred (Unified.patch_prediction strip r1 r2 pred).
Proof.
  intros H1 H2. destruct (adj_zero r1 H1) as [E1 B1]. destruct (adj_zero r2 H2) as [E2 B2].
  unfold unpenalised, Unified.patch_prediction. cbv zeta.
  cbn [Unified.model_win_prob Unified.model_win_prob_original Unified.injury_adjusted
       Unified.t1_injury_adj Unified.t2_injury_adj].
  rewrite B1, B2. cbn [negb orb].
  split; [|split; [reflexivity|split; [reflexivity|split; eauto]]].
  f_equal. apply py_round_eq, clip_comp. rewrite E1, E2. ring.
Qed.

Lemma filter_none {A : Type} (f : A -> bool) (l : list A) :
  Forall (fun x => f x = false) l -> List.filter f l = [].
Proof. induction 1 as [|x l Hx _ IH]; simpl; [reflexivity|]. rewrite Hx. exact IH. Qed.

Lemma summary_row_healthy (merged : list Unified.MergedRow) (team_key : string) :
  Forall (fun r => Unified.is_injured r = false) merged ->
  healthy (Unified.summary_row merged team_key).
Proof.
  intros Hm. unfold healthy, Unified.summary_row. cbv zeta.
  cbv [Unified.star_is_injured Unified.n_injured Unified.team_total_injury_bpm].
  set (grp := List.filter _ merged).
  assert (Hg : Forall (fun r => Unified.is_injured r = false) grp).
  { apply Forall_forall. intros r Hr. apply list_elem_of_In, List.filter_In in Hr as [Hr _].
    rewrite Forall_forall in Hm. apply Hm, list_elem_of_In, Hr. }
  rewrite (filter_none _ grp Hg). split; [|split; reflexivity].
  destruct (Unified.sort_desc (fun r => Unified.weighted_bpm (Unified.m_player r)) grp)
    as [|star top] eqn:Es; [reflexivity|].
  assert (Hin : star ∈ grp).
  { apply (sort_desc_elem (fun r => Unified.weighted_bpm (Unified.m_player r))).
    rewrite Es. left. }
  rewrite Forall_forall in Hg. apply Hg, Hin.
Qed.

Lemma lookup_get_healthy (lower strip : string -> string)
    (team_summary : list Unified.SummaryRow) (name : string) (row : Unified.SummaryRow) :
  Forall healthy team_summary ->
  Unified.lookup_get lower strip team_summary name = Some row -> healthy row.
Proof.
  intros Hs Hl. unfold Unified.lookup_get in Hl. apply List.find_some in Hl as [Hin _].
  apply List.in_rev in Hin. rewrite Forall_forall in Hs. apply Hs, list_elem_of_In, Hin.
Qed.

Lemma build_team_summary_healthy (merged : list Unified.MergedRow)
    (tournament_teams : list string) :
  Forall (fun r => Unified.is_injured r = false) merged ->
  Forall healthy (Unified.build_team_summary merged tournament_teams).
Proof.
  intros Hm. unfold Unified.build_team_summary. apply Forall_forall. intros row Hrow.
  apply list_elem_of_In, List.filter_In in Hrow as [Hrow _].
  apply list_elem_of_In, list_elem_of_fmap in Hrow as (k & -> & _).
  apply summary_row_healthy, Hm.
Qed.

(** X29. Without injury data Step 2 penalises nobody.  When the player
    table arrived and the injury fetch gave no record, [run_step2]
    returns, marks the document as holding injury data, and rewrites
    every prediction with both team adjustments equal to 0, the flag
    ['injury_adjusted'] false and the probability set to the Step 1
    probability clipped to [0.02, 0.98] and rounded to five decimals. *)
Theorem no_injury_no_adjustment (lower strip : string -> string)
    (player_get : Unified.Exc (Unified.Response (list Unified.PlayerRaw)))
    (injury_get : Unified.Exc (Unified.Response (list (option Unified.EspnTeamEntry))))
    (chatbot_data : Unified.ChatbotData) (profiles_data : Unified.ProfilesData)
    (p : Unified.PlayerRow) (player_df : list Unified.PlayerRow)
    (team_dep : list Unified.TeamDep) :
  Unified.fetch_player_stats player_get = inr (p :: player_df, team_dep) ->
  Unified.fetch_injuries_espn injury_get = [] ->
  exists out,
    Unified.run_step2 lower strip player_get injury_get chatbot_data profiles_data = inr out /\
    Unified.injury_data_included out.1 = Some true /\
    Forall2 unpenalised (Unified.predictions chatbot_data) (Unified.predictions out.1).
Proof.
  intros Hp Hi. unfold Unified.run_step2. rewrite Hp, Hi. cbn [Unified.bind fst].
  eexists. split; [reflexivity|]. cbn [fst Unified.injury_data_included Unified.predictions].
  split; [reflexivity|].
  assert (Hs : Forall healthy
                 (Unified.build_team_summary
                    (Unified.merge_injury_impact lower strip (p :: player_df) [])
                    Unified.TOURNAMENT_TEAMS)).
  { apply build_team_summary_healthy. apply Forall_forall. intros r Hr.
    apply list_elem_of_fmap in Hr as (q & -> & _). reflexivity. }
  revert Hs.
  generalize (Unified.build_team_summary
                (Unified.merge_injury_impact lower strip (p :: player_df) [])
                Unified.TOURNAMENT_TEAMS).
  intros team_summary Hs.
  apply Forall2_fmap_r. apply Forall_Forall2_diag.
  apply Forall_forall. intros pred _. cbv beta.
  refine (patch_prediction_unpenalised strip _ _ pred _ _); intros row Hrow;
    exact (lookup_get_healthy lower strip _ _ _ Hs Hrow).
Qed.

Lemma no_injury_no_adjustment_witness :
  exists out,
    Unified.run_step2 Unified.ascii_lower Unified.ascii_strip
                      sample_player_get (inl Unified.ConnectionError)
                      sample_chatbot_data sample_profiles_data = inr out /\
    Unified.injury_data_included out.1 = Some true /\
    Forall2 unpenalised (Unified.predictions sample_chatbot_data) (Unified.predictions out.1).
Proof.
  eapply (no_injury_no_adjustment Unified.ascii_lower Unified.ascii_strip
            sample_player_get (inl Unified.ConnectionError)
            sample_chatbot_data sample_profiles_data); vm_compute; reflexivity.
Defined.

(** ** Running Step 2 again *)

Lemma round_half_even_Z (k : Z) : round_half_even (inject_Z k) = k.
Proof.
  unfold round_half_even. rewrite Qfloor_Z.
  assert (H : ((inject_Z k - inject_Z k ?= 1 # 2) = Lt)%Q).
  { apply (proj1 (Qlt_alt _ _)). generalize (inject_Z k). intros q. lra. }
  rewrite H. reflexivity.
Qed.

Lemma py_round_idem (x : Q) (n : nat) : py_round (py_round x n) n = py_round x n.
Proof.
  unfold py_round at 1. set (k := round_half_even (x * inject_Z (10 ^ Z.of_nat n))).
  pose proof (pow10_pos n) as HP.
  replace (py_round x n) with (inject_Z k / inject_Z (10 ^ Z.of_nat n))%Q by reflexivity.
  rewrite (round_half_even_comp _ (inject_Z k)); [rewrite round_half_even_Z; reflexivity|].
  field. lra.
Qed.

Lemma round_clip_idem (x : Q) :
  py_round (clip (py_round (clip x 0.02 0.98) 5) 0.02 0.98) 5 = py_round (clip x 0.02 0.98) 5.
Proof.
  destruct (clip_between x 0.02 0.98 ltac:(lra)) as [L U].
  destruct (py_round_between (clip x 0.02 0.98) 5 2000 98000) as [L' U'].
  - eapply Qle_trans; [|exact L]. apply Qle_lteq; right. reflexivity.
  - eapply Qle_trans; [exact U|]. apply Qle_lteq; right. reflexivity.
  - set (y := py_round (clip x 0.02 0.98) 5) in *.
    assert (Hy : (0.02 <= y /\ y <= 0.98)%Q).
    { split.
      - eapply Qle_trans; [|exact L']. apply Qle_lteq; right. reflexivity.
      - eapply Qle_trans; [exact U'|]. apply Qle_lteq; right. reflexivity. }
    assert (E : (clip y 0.02 0.98 == y)%Q).
    { unfold clip. rewrite (Q.max_l y 0.02) by tauto. apply Q.min_l. tauto. }
    rewrite (py_round_eq _ _ 5 E). apply py_round_idem.
Qed.

(** X30. Applying the Step 2 patch twice compounds it.  Patching a
    patched prediction stores the once-adjusted probability under
    ['model_win_prob_original'], so the Step 1 probability is lost, and
    applies the two team adjustments a second time to the adjusted
    probability; the probability only stays as it was when the two
    adjustments are equal, in particular when both are 0. *)
Theorem second_patch_compounds (strip : string -> string)
    (r1 r2 : option Unified.SummaryRow) (pred : Unified.Prediction) :
  let once := Unified.patch_prediction strip r1 r2 pred in
  let twice := Unified.patch_prediction strip r1 r2 once in
  Unified.model_win_prob_original twice = Unified.model_win_prob once /\
  (exists adj, Unified.model_win_prob once = Some adj /\
               Unified.model_win_prob twice
               = Some (py_round (clip (adj + Unified.compute_injury_adj r1
                                           - Unified.compute_injury_adj r2) 0.02 0.98) 5)) /\
  ((Unified.compute_injury_adj r1 == Unified.compute_injury_adj r2)%Q ->
   Unified.model_win_prob twice = Unified.model_win_prob once).
Proof.
  cbv zeta. unfold Unified.patch_prediction. cbv zeta.
  cbn [Unified.model_win_prob Unified.model_win_prob_original default from_option id].
  split; [reflexivity|]. split; [eexists; split; reflexivity|].
  intros E. f_equal.
  set (base := default 0.5%Q (Unified.model_win_prob pred)).
  set (a1 := Unified.compute_injury_adj r1) in *.
  set (a2 := Unified.compute_injury_adj r2) in *.
  assert (E1 : (clip (base + a1 - a2) 0.02 0.98 == clip base 0.02 0.98)%Q)
    by (apply clip_comp; rewrite E; ring).
  rewrite (py_round_eq _ _ 5 E1).
  set (y := py_round (clip base 0.02 0.98) 5).
  assert (E2 : (clip (y + a1 - a2) 0.02 0.98 == clip y 0.02 0.98)%Q)
    by (apply clip_comp; rewrite E; ring).
  rewrite (py_round_eq _ _ 5 E2). apply round_clip_idem.
Qed.

(** On the sample team, whose star is out, the second patch lowers the
    probability again: 0.500004 becomes 0.412 and then 0.324. *)
Example second_patch_sample (strip : string -> string) :
  let once := Unified.patch_prediction strip (Some sample_row) None sample_prediction in
  let twice := Unified.patch_prediction strip (Some sample_row) None once in
  exists p1 p2, Unified.model_win_prob once = Some p1 /\
                Unified.model_win_prob twice = Some p2 /\
                (p1 == 0.412)%Q /\ (p2 == 0.324)%Q.
Proof. eexists _, _. repeat split; reflexivity. Qed.
